(** * Inventory allocation and reconciliation of the ERP front end

    A shallow embedding of the event handlers of the delivery-challan page,
    the material-returns pages, the receivables manager and the products
    page, together with the properties of FIFO batch picking, dispatch
    reconciliation, payment allocation and the approval workflow.

    Conventions of the embedding.
    - A JavaScript [number] is a double.  In the handlers that only compare
      quantities and amounts, copy them or hand them to the backend, they
      are whole numbers, a [Z]; where the page adds or subtracts them the
      properties say up to where the whole numbers are counted exactly
      ([counting_limit], 2^53), and the same arithmetic is given on doubles
      ([float]) for the quantities and amounts with decimals.  The returns
      page with unit prices, which multiplies, is on doubles throughout.
    - A string is the UTF-8 encoding of the text.
    - A date is the instant [new Date(s).getTime()] it denotes, in
      milliseconds, as a [Z]; a nullable column is an [option].
    - A backend table with a primary key is a [gmap] from the key to the row;
      a table that is only filtered and appended to is a [list] of rows.
    - Every [await supabase...] is one remote call.  It either succeeds,
      returns an error object, or rejects; which one is decided by a script
      of outcomes carried next to the store, so that every failure pattern of
      a handler can be stated and run. *)

From Stdlib Require Import ZArith NArith String Ascii List Lia.
From Stdlib Require Import DecimalString DecimalN Floats.
From stdpp Require Import gmap strings list fin_maps.

Local Open Scope Z_scope.
Set Warnings "-inexact-float".

(** ** JavaScript array helpers *)

Section JsArray.
Context {A : Type}.
Variable compareFn : A → A → Z.

(** [Array.prototype.sort(compareFn)] is a stable sort: an element moves in
    front of another one only when the comparator says it is smaller.  It is
    modelled by a stable insertion sort, which yields the same array for
    every comparator that is a consistent ordering. *)
Fixpoint sort_insert (x : A) (sorted : list A) : list A :=
  match sorted with
  | [] => [x]
  | y :: rest =>
      if compareFn x y <=? 0 then x :: sorted else y :: sort_insert x rest
  end.

Definition sort (l : list A) : list A := foldr sort_insert [] l.
End JsArray.

(** ** JavaScript string helpers *)

(** [haystack.includes(needle)] *)
Definition includes (haystack needle : string) : bool :=
  match String.index 0 needle haystack with
  | Some _ => true
  | None => false
  end.

Fixpoint take_while {A} (p : A → bool) (l : list A) : list A :=
  match l with
  | [] => []
  | x :: rest => if p x then x :: take_while p rest else []
  end.

(** A string holds one [ascii] per byte of its encoding.  White space as
    [String.prototype.trim] sees it, among the characters of one byte: tab,
    line feed, vertical tab, form feed, carriage return and space. *)
Definition is_white_space (c : ascii) : bool :=
  let n := nat_of_ascii c in
  ((9 <=? n)%nat && (n <=? 13)%nat) || (n =? 32)%nat.

(** The white space of two bytes: U+00A0 (no-break space), which is
    C2 A0. *)
Definition is_white_space_2 (c1 c2 : ascii) : bool :=
  (nat_of_ascii c1 =? 194)%nat && (nat_of_ascii c2 =? 160)%nat.

(** The white space and line terminators of three bytes: U+1680
    (E1 9A 80), U+2000 to U+200A (E2 80 80 to E2 80 8A), U+2028 and U+2029
    (E2 80 A8, E2 80 A9), U+202F (E2 80 AF), U+205F (E2 81 9F), U+3000
    (E3 80 80) and U+FEFF (EF BB BF). *)
Definition is_white_space_3 (c1 c2 c3 : ascii) : bool :=
  let n1 := nat_of_ascii c1 in
  let n2 := nat_of_ascii c2 in
  let n3 := nat_of_ascii c3 in
  ((n1 =? 225) && (n2 =? 154) && (n3 =? 128))%nat
  || ((n1 =? 226) && (n2 =? 128)
      && (((128 <=? n3) && (n3 <=? 138)) || (n3 =? 168) || (n3 =? 169)
          || (n3 =? 175)))%nat
  || ((n1 =? 226) && (n2 =? 129) && (n3 =? 159))%nat
  || ((n1 =? 227) && (n2 =? 128) && (n3 =? 128))%nat
  || ((n1 =? 239) && (n2 =? 187) && (n3 =? 191))%nat.

(** [s.trimStart()] on the bytes of [s]. *)
Fixpoint trimStart (l : list ascii) : list ascii :=
  match l with
  | [] => []
  | c1 :: rest1 =>
      if is_white_space c1 then trimStart rest1
      else
        match rest1 with
        | [] => l
        | c2 :: rest2 =>
            if is_white_space_2 c1 c2 then trimStart rest2
            else
              match rest2 with
              | [] => l
              | c3 :: rest3 =>
                  if is_white_space_3 c1 c2 c3 then trimStart rest3 else l
              end
        end
  end.

(** [s.trimEnd()] on the bytes of [s] in reverse: the last byte comes
    first, so that a character of several bytes is read backwards. *)
Fixpoint trimEnd_rev (l : list ascii) : list ascii :=
  match l with
  | [] => []
  | c1 :: rest1 =>
      if is_white_space c1 then trimEnd_rev rest1
      else
        match rest1 with
        | [] => l
        | c2 :: rest2 =>
            if is_white_space_2 c2 c1 then trimEnd_rev rest2
            else
              match rest2 with
              | [] => l
              | c3 :: rest3 =>
                  if is_white_space_3 c3 c2 c1 then trimEnd_rev rest3 else l
              end
        end
  end.

(** [s.trim()] *)
Definition trim (s : string) : string :=
  string_of_list_ascii
    (rev (trimEnd_rev (rev (trimStart (list_ascii_of_string s))))).

Definition is_digit (c : ascii) : bool :=
  let n := nat_of_ascii c in (48 <=? n)%nat && (n <=? 57)%nat.

(** The capture of [s.match(/(\d+)$/)]: the longest run of decimal digits
    that ends the string, and no match when the string does not end in a
    digit. *)
Definition match_trailing_digits (s : string) : option string :=
  match rev (take_while is_digit (rev (list_ascii_of_string s))) with
  | [] => None
  | digits => Some (string_of_list_ascii digits)
  end.

(** ** JavaScript numbers that count *)

(** The number a run of decimal digits denotes; the empty run counts as
    zero and [None] is a string with another character in it. *)
Definition digits_value (s : string) : option N :=
  N.of_uint <$> NilEmpty.uint_of_string s.

(** The numbers [parseInt] reads from a run of digits, and what [Math.max]
    and [+ 1] make of them: the doubles that are whole numbers from zero
    on, and [Infinity]. *)
Inductive Count :=
| Whole (n : N)
| Infinity.

(** [Number.MAX_SAFE_INTEGER + 1]: up to this limit every whole number is a
    double, and the sum and the difference of two whole numbers are the
    exact ones as long as they stay within it. *)
Definition counting_limit : N := 2 ^ 53.

(** The double of a whole number: the number itself up to 2^53, where every
    whole number is a double; above it the nearest number of 53 significant
    bits, a tie going to the even one; and [Infinity] when that is 2^1024 or
    more. *)
Definition to_double (n : N) : Count :=
  if (n <=? 2 ^ 53)%N then Whole n
  else
    let exponent := (N.log2 n - 52)%N in
    let mantissa := N.shiftr n exponent in
    let rest := N.land n (N.ones exponent) in
    let half := N.shiftl 1 (exponent - 1) in
    let rounded :=
      if (rest <? half)%N then mantissa
      else if (half <? rest)%N then (mantissa + 1)%N
      else if N.even mantissa then mantissa else (mantissa + 1)%N in
    if (2 ^ 1024 <=? N.shiftl rounded exponent)%N then Infinity
    else Whole (N.shiftl rounded exponent).

(** [parseInt(s, 10)] on a run of decimal digits; [None] stands for [NaN]. *)
Definition parseInt (s : string) : option Count := to_double <$> digits_value s.

(** [Math.max(a, b)] *)
Definition max_count (a b : Count) : Count :=
  match a, b with
  | Whole x, Whole y => Whole (N.max x y)
  | _, _ => Infinity
  end.

(** [a + 1] *)
Definition plus_one (a : Count) : Count :=
  match a with
  | Whole n => to_double (n + 1)
  | Infinity => Infinity
  end.

(** [String(n)] of a natural number below 10^21, its decimal digits. *)
Definition String_of (n : N) : string := NilZero.string_of_uint (N.to_uint n).

(** [String(n)].  From 10^21 on a number is written in exponent notation,
    as in 1e+21; [exponential] stands for that notation, which the
    embedding does not spell out. *)
Definition String_of_count (exponential : N → string) (c : Count) : string :=
  match c with
  | Whole n => if (n <? 10 ^ 21)%N then String_of n else exponential n
  | Infinity => "Infinity"
  end.

(** [s.padStart(targetLength, pad)] for a one-character pad. *)
Definition padStart (targetLength : nat) (pad : ascii) (s : string) : string :=
  string_of_list_ascii (replicate (targetLength - String.length s) pad) +:+ s.

(** [s.slice(-2)]: the last two characters, or all of a shorter string. *)
Definition slice_last2 (s : string) : string :=
  substring (String.length s - 2) 2 s.

(** ** Remote calls *)

(** The three ways an awaited backend call can end. *)
Inductive Outcome :=
| Succeeds
| ReturnsError (message : string)
| Rejects (message : string).

(** What the client library hands back: [{ data, error }]. *)
Inductive Reply (A : Type) :=
| Data (a : A)
| Error (message : string).
Arguments Data {A} a.
Arguments Error {A} message.

(** How a piece of asynchronous code ends: normally, or with a thrown
    exception carrying its message. *)
Inductive Completion (A : Type) :=
| Returned (a : A)
| Thrown (message : string).
Arguments Returned {A} a.
Arguments Thrown {A} message.

Section Remote.
Context {W : Type}.

(** The backend store together with the outcomes of the remote calls still
    to come; once the script is used up every further call succeeds. *)
Record Sys := mkSys { store : W; script : list Outcome }.

Definition Async (A : Type) : Type := Sys → Completion A * Sys.

Definition ret {A} (a : A) : Async A := λ s, (Returned a, s).

Definition bind {A B} (m : Async A) (k : A → Async B) : Async B :=
  λ s, match m s with
       | (Returned a, s') => k a s'
       | (Thrown e, s') => (Thrown e, s')
       end.

Definition throw {A} (message : string) : Async A := λ s, (Thrown message, s).

(** [try { body } catch (error) { handler(error.message) }].  Writes made
    by [body] before it threw stay in the store. *)
Definition try_catch {A} (body : Async A) (handler : string → Async A) : Async A :=
  λ s, match body s with
       | (Returned a, s') => (Returned a, s')
       | (Thrown e, s') => handler e s'
       end.

(** One awaited backend call: [effect] is what the backend does and answers
    when the call goes through. *)
Definition remote {A} (effect : W → Reply A * W) : Async (Reply A) :=
  λ s, match script s with
       | ReturnsError message :: rest =>
           (Returned (Error message), mkSys (store s) rest)
       | Rejects message :: rest =>
           (Thrown message, mkSys (store s) rest)
       | Succeeds :: rest =>
           let (r, w) := effect (store s) in (Returned r, mkSys w rest)
       | [] =>
           let (r, w) := effect (store s) in (Returned r, mkSys w [])
       end.

(** [for (const x of xs) { body(x) }] *)
Fixpoint for_of {A} (xs : list A) (body : A → Async unit) : Async unit :=
  match xs with
  | [] => ret tt
  | x :: rest => bind (body x) (λ _, for_of rest body)
  end.

(** [m] relates the store it starts in to the store it ends in, however the
    remote calls turn out and whether or not it throws. *)
Definition preserves (R : W → W → Prop) {A} (m : Async A) : Prop :=
  ∀ s, R (store s) (store (m s).2).

(** No remote call still to come rejects: each one succeeds or returns an
    error object. *)
Definition no_rejection (s : Sys) : Prop :=
  Forall (λ o, match o with Rejects _ => False | _ => True end) (script s).

(** Every remote call still to come succeeds. *)
Definition all_succeed (s : Sys) : Prop := Forall (λ o, o = Succeeds) (script s).
End Remote.

Arguments Sys : clear implicits.
Arguments Async : clear implicits.

Notation "'let*' x ':=' m 'in' k" := (bind m (λ x, k))
  (at level 10, x name, m at level 100, k at level 200, only parsing).

(** The next [n] remote calls succeed. *)
Definition goes_through {W} (n : nat) (s : Sys W) : Prop :=
  Forall (λ o, o = Succeeds) (take n (script s)).

(** ** The delivery-challan page *)

Module DeliveryChallan.

(** *** Data model *)

Inductive ApprovalStatus := pending_approval | approved | rejected.

(** A row of the [batches] table.  [packaging_details] only feeds the pack
    fields of a line item and is kept as the text it is. *)
Record BatchRow := {
  row_batch_number : string;
  row_product_id : string;
  row_current_stock : Z;
  row_reserved_stock : Z;
  row_expiry_date : option Z;
  row_packaging_details : option string;
  row_import_date : option Z;
  row_is_active : bool;
}.

(** [interface Batch]: the columns that [loadBatches] selects. *)
Record Batch := {
  id : string;
  batch_number : string;
  product_id : string;
  current_stock : Z;
  expiry_date : option Z;
  packaging_details : option string;
  import_date : option Z;
}.

(** [const isExpired = (expiryDate) => { if (!expiryDate) return false;
    return new Date(expiryDate) < new Date(); }], with the current instant
    [now] made explicit. *)
Definition isExpired (now : Z) (expiryDate : option Z) : bool :=
  match expiryDate with
  | None => false
  | Some expiry => expiry <? now
  end.

(** [new Date(b.import_date!).getTime()]: a null date is the epoch. *)
Definition import_time (b : Batch) : Z :=
  match import_date b with
  | Some t => t
  | None => 0
  end.

Definition select_batch (key : string) (r : BatchRow) : Batch :=
  {| id := key;
     batch_number := row_batch_number r;
     product_id := row_product_id r;
     current_stock := row_current_stock r;
     expiry_date := row_expiry_date r;
     packaging_details := row_packaging_details r;
     import_date := row_import_date r |}.

(** [.order('import_date', { ascending: true })]: ascending, rows without a
    date last. *)
Definition by_import_date (a b : Batch) : Z :=
  match import_date a, import_date b with
  | Some ta, Some tb => ta - tb
  | Some _, None => -1
  | None, Some _ => 1
  | None, None => 0
  end.

(** The query of [loadBatches]:
    [.select('id, batch_number, product_id, current_stock, expiry_date,
    packaging_details, import_date').eq('is_active', true)
    .gt('current_stock', 0).order('import_date', { ascending: true })]. *)
Definition query_batches (table : gmap string BatchRow) : list Batch :=
  sort by_import_date
    (List.filter (λ b, 0 <? current_stock b)
       (List.map (λ kr, select_batch kr.1 kr.2)
          (List.filter (λ kr, row_is_active kr.2) (map_to_list table)))).

(** [loadBatches]: the page's [batches] state after the call, given the
    state before it; on an error the state is left as it was. *)
Definition loadBatches (table : Reply (gmap string BatchRow))
    (batches : list Batch) : list Batch :=
  match table with
  | Data rows => query_batches rows
  | Error _ => batches
  end.

(** [getFIFOBatch(productId)] over the page's [batches] state. *)
Definition getFIFOBatch (now : Z) (batches : list Batch) (productId : string)
    : option Batch :=
  let productBatches :=
    sort (λ a b, let dateA := import_time a in
                 let dateB := import_time b in
                 dateA - dateB)
      (List.filter
         (λ b, String.eqb (product_id b) productId
               && negb (isExpired now (expiry_date b)))
         batches) in
  head productBatches.

(** [interface ChallanItem], the columns a line item is saved with. *)
Record ChallanItem := {
  item_product_id : string;
  batch_id : string;
  quantity : Z;
  pack_size : option Z;
  pack_type : option string;
  number_of_packs : option Z;
}.

(** A row of [delivery_challans].  Of the free-text columns only the ones
    a handler decides on or writes for the workflow are kept. *)
Record Challan := {
  challan_number : string;
  customer_id : string;
  sales_order_id : option string;
  challan_date : string;
  delivery_address : string;
  approval_status : ApprovalStatus;
  created_by : option string;
  approved_by : option string;
  rejected_by : option string;
  rejection_reason : option string;
}.

(** A row of [sales_orders], with the columns the page writes. *)
Record SalesOrder := {
  status : string;
  is_archived : bool;
  archived_at : option Z;
  archived_by : option string;
  archive_reason : option string;
}.

(** The one row of [app_settings]; the date [financial_year_start] is kept
    as the full year [new Date(...).getFullYear()] reads from it. *)
Record AppSettings := { financial_year_start : option N }.

(** The form of the modal. *)
Record FormData := {
  form_challan_number : string;
  form_customer_id : string;
  form_sales_order_id : string;
  form_challan_date : string;
  form_delivery_address : string;
}.

(** The backend as the page sees it. *)
Record Store := {
  batches : gmap string BatchRow;
  delivery_challans : gmap string Challan;
  delivery_challan_items : list (string * ChallanItem);
  sales_orders : gmap string SalesOrder;
  app_settings : list AppSettings;
  auth_user : option string;
}.

Definition with_batches (f : gmap string BatchRow → gmap string BatchRow)
    (w : Store) : Store :=
  {| batches := f (batches w);
     delivery_challans := delivery_challans w;
     delivery_challan_items := delivery_challan_items w;
     sales_orders := sales_orders w;
     app_settings := app_settings w;
     auth_user := auth_user w |}.

Definition with_delivery_challans
    (f : gmap string Challan → gmap string Challan) (w : Store) : Store :=
  {| batches := batches w;
     delivery_challans := f (delivery_challans w);
     delivery_challan_items := delivery_challan_items w;
     sales_orders := sales_orders w;
     app_settings := app_settings w;
     auth_user := auth_user w |}.

Definition with_delivery_challan_items
    (f : list (string * ChallanItem) → list (string * ChallanItem))
    (w : Store) : Store :=
  {| batches := batches w;
     delivery_challans := delivery_challans w;
     delivery_challan_items := f (delivery_challan_items w);
     sales_orders := sales_orders w;
     app_settings := app_settings w;
     auth_user := auth_user w |}.

Definition with_sales_orders
    (f : gmap string SalesOrder → gmap string SalesOrder) (w : Store) : Store :=
  {| batches := batches w;
     delivery_challans := delivery_challans w;
     delivery_challan_items := delivery_challan_items w;
     sales_orders := f (sales_orders w);
     app_settings := app_settings w;
     auth_user := auth_user w |}.

Definition set_current_stock (newStock : Z) (r : BatchRow) : BatchRow :=
  {| row_batch_number := row_batch_number r;
     row_product_id := row_product_id r;
     row_current_stock := newStock;
     row_reserved_stock := row_reserved_stock r;
     row_expiry_date := row_expiry_date r;
     row_packaging_details := row_packaging_details r;
     row_import_date := row_import_date r;
     row_is_active := row_is_active r |}.

(** *** Backend calls of the page *)

(** [supabase.auth.getUser()]: the signed-in user, when there is one. *)
Definition getUser : Async Store (Reply (option string)) :=
  remote (λ w, (Data (auth_user w), w)).

(** Modelled from the spec: the stored procedure [update_batch_stock] is
    not part of the page; it is the backend's "atomic stock increment",
    adding [p_adjustment] to the [current_stock] of batch [p_batch_id]. *)
Definition update_batch_stock (p_batch_id : string) (p_adjustment : Z)
    : Async Store (Reply unit) :=
  remote (λ w,
    (Data tt,
     with_batches
       (alter (λ r, set_current_stock (row_current_stock r + p_adjustment) r)
              p_batch_id) w)).

(** [.from('batches').select('current_stock').eq('id', id).single()] *)
Definition select_current_stock (batchId : string) : Async Store (Reply Z) :=
  remote (λ w,
    match batches w !! batchId with
    | Some r => (Data (row_current_stock r), w)
    | None => (Error "JSON object requested, multiple (or no) rows returned", w)
    end).

(** [.from('batches').update({ current_stock: newStock }).eq('id', id)] *)
Definition update_current_stock (batchId : string) (newStock : Z)
    : Async Store (Reply unit) :=
  remote (λ w,
    (Data tt, with_batches (alter (set_current_stock newStock) batchId) w)).

(** *** Challan numbers *)

(** [new Date().getFullYear().toString().slice(-2)] *)
Definition year_code (fullYear : N) : string := slice_last2 (String_of fullYear).

(** [.from('app_settings').select('financial_year_start').limit(1)
    .maybeSingle()] *)
Definition select_settings : Async Store (Reply (option AppSettings)) :=
  remote (λ w, (Data (head (app_settings w)), w)).

(** [.from('delivery_challans').select('challan_number')
    .or(`challan_number.like.DO-${yearCode}%,challan_number.like.DC-${yearCode}%`)] *)
Definition select_challan_numbers (yearCode : string)
    : Async Store (Reply (list string)) :=
  remote (λ w,
    (Data
       (List.filter
          (λ number, String.prefix ("DO-" +:+ yearCode) number
                     || String.prefix ("DC-" +:+ yearCode) number)
          (List.map (λ kc, challan_number kc.2)
             (map_to_list (delivery_challans w)))),
     w)).

(** [Math.max(...numbers)] of a non-empty array. *)
Definition Math_max (first : Count) (others : list Count) : Count :=
  foldl max_count first others.

(** The callback of [allChallans.map]:
    [challan => { const match = challan.challan_number.match(/(\d+)$/);
    return match ? parseInt(match[1], 10) : 0; }]. *)
Definition number_of (challan_number : string) : option Count :=
  match match_trailing_digits challan_number with
  | Some digits => parseInt digits
  | None => Some (Whole 0)
  end.

(** The number after the highest one in use:
    [allChallans.map(...).filter(num => !isNaN(num))], then [maxNumber + 1],
    and [1] when nothing is in use. *)
Definition next_number (allChallans : option (list string)) : Count :=
  match allChallans with
  | Some (challan :: others) =>
      let numbers := omap number_of (challan :: others) in
      match numbers with
      | first :: rest => plus_one (Math_max first rest)
      | [] => Whole 1
      end
  | _ => Whole 1
  end.

(** [generateNextChallanNumber], with the year of the clock made explicit.
    Both lookups keep [data] only: a returned error leaves [data] null, and
    [settings?.financial_year_start] and [allChallans && ...] guard it. *)
Definition generateNextChallanNumber (exponential : N → string) (currentYear : N)
    : Async Store string :=
  try_catch
    (let* settings := select_settings in
     let yearCode :=
       match settings with
       | Data (Some {| financial_year_start := Some fyYear |}) => year_code fyYear
       | _ => year_code currentYear
       end in
     let prefix := "DO" in
     let* allChallans := select_challan_numbers yearCode in
     let nextNumber :=
       next_number (match allChallans with
                    | Data rows => Some rows
                    | Error _ => None
                    end) in
     let paddedNumber := padStart 4 "0"%char (String_of_count exponential nextNumber) in
     ret (prefix +:+ "-" +:+ yearCode +:+ "-" +:+ paddedNumber))
    (λ _, ret "DO-25-0001").

(** *** Saving an edited challan *)

(** An entry of the local array [stockAdjustments]. *)
Record StockAdjustment := { adj_batch_id : string; adjustment : Z }.

(** The body of [for (const newItem of items)]: the first entry of the
    batch is decreased in place, and a batch without an entry gets a new
    one at the end. *)
Definition subtract_new_item (stockAdjustments : list StockAdjustment)
    (newItem : ChallanItem) : list StockAdjustment :=
  match list_find (λ adj, adj_batch_id adj = batch_id newItem) stockAdjustments with
  | Some (i, existingAdjustment) =>
      <[i := {| adj_batch_id := adj_batch_id existingAdjustment;
                adjustment := adjustment existingAdjustment - quantity newItem |}]>
        stockAdjustments
  | None =>
      stockAdjustments ++
        [{| adj_batch_id := batch_id newItem; adjustment := - quantity newItem |}]
  end.

(** The array [stockAdjustments] after both loops: one entry per original
    line, then the new lines subtracted. *)
Definition compute_stockAdjustments (originalItems items : list ChallanItem)
    : list StockAdjustment :=
  foldl subtract_new_item
    (List.map (λ originalItem,
                 {| adj_batch_id := batch_id originalItem;
                    adjustment := quantity originalItem |})
              originalItems)
    items.

(** The same two loops read over any kind of number: a line is the pair of
    its [batch_id] and its [quantity], an entry the pair of its [batch_id]
    and its [adjustment], [minus] is the [-=] of the second loop and
    [negate] the unary minus of [-newItem.quantity]. *)
Section AnyNumber.
Context {number : Type}.
Variable minus : number → number → number.
Variable negate : number → number.

Definition subtract_new_line (stockAdjustments : list (string * number))
    (newItem : string * number) : list (string * number) :=
  match list_find (λ adj, adj.1 = newItem.1) stockAdjustments with
  | Some (i, existingAdjustment) =>
      <[i := (existingAdjustment.1, minus existingAdjustment.2 newItem.2)]>
        stockAdjustments
  | None => stockAdjustments ++ [(newItem.1, negate newItem.2)]
  end.

Definition stockAdjustments_of (originalItems items : list (string * number))
    : list (string * number) :=
  foldl subtract_new_line originalItems items.
End AnyNumber.

(** The loops over the doubles of the page. *)
Definition stockAdjustments_of_doubles
    : list (string * float) → list (string * float) → list (string * float) :=
  stockAdjustments_of PrimFloat.sub PrimFloat.opp.

(** [adjustment.adjustment !== 0] on a double. *)
Definition is_written (adjustment : float) : bool :=
  negb (PrimFloat.eqb adjustment 0%float).

(** The body of [for (const adjustment of stockAdjustments)]: the stored
    procedure, and on its error a read of the stock followed by a direct
    write whose answer is not looked at. *)
Definition apply_stockAdjustment (adj : StockAdjustment) : Async Store unit :=
  if adjustment adj =? 0 then ret tt
  else
    let* batchError := update_batch_stock (adj_batch_id adj) (adjustment adj) in
    match batchError with
    | Data _ => ret tt
    | Error _ =>
        let* batchData := select_current_stock (adj_batch_id adj) in
        match batchData with
        | Data stock =>
            let newStock := stock + adjustment adj in
            let* _ := update_current_stock (adj_batch_id adj) newStock in
            ret tt
        | Error _ => ret tt
        end
    end.

Definition truthy (s : string) : bool := negb (String.eqb s "").

(** [.from('delivery_challans').update(challanData).eq('id', id).select()
    .single()]: the columns of [challanData] are overwritten, the others
    stay; the answer is the id of the updated row. *)
Definition update_challan (challanId : string) (formData : FormData)
    (user_id : string) : Async Store (Reply string) :=
  remote (λ w,
    match delivery_challans w !! challanId with
    | Some c =>
        (Data challanId,
         with_delivery_challans
           (insert challanId
              {| challan_number := form_challan_number formData;
                 customer_id := form_customer_id formData;
                 sales_order_id :=
                   if truthy (form_sales_order_id formData)
                   then Some (form_sales_order_id formData) else None;
                 challan_date := form_challan_date formData;
                 delivery_address := form_delivery_address formData;
                 approval_status := pending_approval;
                 created_by := Some user_id;
                 approved_by := approved_by c;
                 rejected_by := rejected_by c;
                 rejection_reason := rejection_reason c |}) w)
    | None => (Error "JSON object requested, multiple (or no) rows returned", w)
    end).

(** [.from('delivery_challan_items').delete().eq('challan_id', id)] *)
Definition delete_challan_items (challanId : string) : Async Store (Reply unit) :=
  remote (λ w,
    (Data tt,
     with_delivery_challan_items
       (List.filter (λ row, negb (String.eqb row.1 challanId))) w)).

(** [.from('delivery_challan_items').insert(challanItemsData)] *)
Definition insert_challan_items (challanId : string) (items : list ChallanItem)
    : Async Store (Reply unit) :=
  remote (λ w,
    (Data tt,
     with_delivery_challan_items
       (λ rows, rows ++ List.map (λ item, (challanId, item)) items) w)).

(** The [catch] of [handleSubmit]. *)
Definition save_failure_alert (message : string) : string :=
  let errorMessage := if truthy message then message else "Unknown error occurred" in
  if includes errorMessage "batch_id"
  then "Error: Invalid batch selection. Please ensure all items have a valid batch selected."
  else if includes errorMessage "foreign key"
  then "Error: Invalid product or batch selection. Please check your selections."
  else "Failed to save challan: " +:+ errorMessage.

(** [handleSubmit] with [editingChallan] set: the validation and the
    [catch] it shares with the creation of a challan, and the branch
    [if (editingChallan)].  The answer is the text of the alert shown.
    The reloads of the page's lists at the end are reads and are left
    out. *)
Definition handleSubmit_editing (editingChallan : string)
    (originalItems : list ChallanItem) (formData : FormData)
    (items : list ChallanItem) : Async Store (option string) :=
  let invalidItems :=
    List.filter (λ item, negb (truthy (item_product_id item))
                         || negb (truthy (batch_id item))
                         || (quantity item <=? 0)) items in
  if (0 <? length invalidItems)%nat
  then ret (Some "Please select product, batch, and enter quantity for all items before saving.")
  else
  let emptyBatches := List.filter (λ item, String.eqb (batch_id item) "") items in
  if (0 <? length emptyBatches)%nat
  then ret (Some "Some items do not have a batch selected. Please select a batch for all items.")
  else
  try_catch
    (let* user := getUser in
     match user with
     | Data (Some user_id) =>
         let stockAdjustments := compute_stockAdjustments originalItems items in
         let* _ := for_of stockAdjustments apply_stockAdjustment in
         let* updatedChallan := update_challan editingChallan formData user_id in
         match updatedChallan with
         | Error updateError => throw updateError
         | Data challanId =>
             let* deleteItems := delete_challan_items editingChallan in
             match deleteItems with
             | Error deleteItemsError => throw deleteItemsError
             | Data _ =>
                 let* inserted := insert_challan_items challanId items in
                 match inserted with
                 | Error itemsError => throw itemsError
                 | Data _ => ret (Some "Delivery Challan updated successfully!")
                 end
             end
         end
     | _ => throw "Not authenticated"
     end)
    (λ message, ret (Some (save_failure_alert message))).

(** [loadChallanItems(challanId)]: the line items of a challan, and the
    empty array when the read fails. *)
Definition loadChallanItems (challanId : string) : Async Store (list ChallanItem) :=
  try_catch
    (let* r := remote (λ w,
                 (Data (List.map snd
                          (List.filter (λ row, String.eqb row.1 challanId)
                             (delivery_challan_items w))), w)) in
     match r with
     | Data data => ret data
     | Error error => throw error
     end)
    (λ _, ret []).

(** *** Deleting a challan *)

Definition revert_order (so : SalesOrder) : SalesOrder :=
  {| status := "pending_delivery";
     is_archived := false;
     archived_at := None;
     archived_by := None;
     archive_reason := None |}.

(** [handleDelete(id)], [confirmed] being the answer to [confirm(...)].
    The page deletes the row of the challan and nothing else of it. *)
Definition handleDelete (confirmed : bool) (challanId : string)
    : Async Store (option string) :=
  if negb confirmed then ret None
  else
  try_catch
    (let* dcData := remote (λ w,
                      match delivery_challans w !! challanId with
                      | Some c => (Data (sales_order_id c), w)
                      | None => (Error "JSON object requested, multiple (or no) rows returned", w)
                      end) in
     let* deleted := remote (λ w,
                      (Data tt, with_delivery_challans (delete challanId) w)) in
     match deleted with
     | Error error => throw error
     | Data _ =>
         let* _ :=
           match dcData with
           | Data (Some so_id) =>
               if truthy so_id
               then let* _ := remote (λ w,
                                (Data tt, with_sales_orders (alter revert_order so_id) w)) in
                    ret tt
               else ret tt
           | _ => ret tt
           end in
         ret (Some "Delivery Challan deleted successfully. Sales Order status has been reverted.")
     end)
    (λ _, ret (Some "Failed to delete challan. Please try again.")).

(** *** Approval *)

Definition set_approved (user_id : string) (c : Challan) : Challan :=
  {| challan_number := challan_number c;
     customer_id := customer_id c;
     sales_order_id := sales_order_id c;
     challan_date := challan_date c;
     delivery_address := delivery_address c;
     approval_status := approved;
     created_by := created_by c;
     approved_by := Some user_id;
     rejected_by := rejected_by c;
     rejection_reason := rejection_reason c |}.

Definition set_rejected (user_id reason : string) (c : Challan) : Challan :=
  {| challan_number := challan_number c;
     customer_id := customer_id c;
     sales_order_id := sales_order_id c;
     challan_date := challan_date c;
     delivery_address := delivery_address c;
     approval_status := rejected;
     created_by := created_by c;
     approved_by := approved_by c;
     rejected_by := Some user_id;
     rejection_reason := Some reason |}.

(** [handleApproveChallan(challanId)] *)
Definition handleApproveChallan (confirmed : bool) (challanId : string)
    : Async Store (option string) :=
  if negb confirmed then ret None
  else
  try_catch
    (let* user := getUser in
     match user with
     | Data (Some user_id) =>
         let* r := remote (λ w,
                     (Data tt,
                      with_delivery_challans (alter (set_approved user_id) challanId) w)) in
         match r with
         | Error error => throw error
         | Data _ => ret (Some "Delivery Challan approved successfully!")
         end
     | _ => throw "Not authenticated"
     end)
    (λ _, ret (Some "Failed to approve challan")).

(** [handleRejectChallan()] over the state [challanToReject] and
    [rejectionReason] of the page. *)
Definition handleRejectChallan (challanToReject : option string)
    (rejectionReason : string) : Async Store (option string) :=
  match challanToReject with
  | Some challanId =>
      if negb (truthy challanId) || negb (truthy (trim rejectionReason))
      then ret (Some "Please enter a rejection reason")
      else
      try_catch
        (let* user := getUser in
         match user with
         | Data (Some user_id) =>
             let* r := remote (λ w,
                         (Data tt,
                          with_delivery_challans
                            (alter (set_rejected user_id rejectionReason) challanId) w)) in
             match r with
             | Error error => throw error
             | Data _ => ret (Some "Delivery Challan rejected")
             end
         | _ => throw "Not authenticated"
         end)
        (λ _, ret (Some "Failed to reject challan"))
  | None => ret (Some "Please enter a rejection reason")
  end.

(** *** What the page offers *)

(** [profile?.role === r] *)
Definition has_role (role : option string) (r : string) : bool :=
  match role with
  | Some x => String.eqb x r
  | None => false
  end.

Definition canManage (role : option string) : bool :=
  has_role role "admin" || has_role role "accounts"
  || has_role role "sales" || has_role role "warehouse".

(** The things a user can do to a challan of the table. *)
Inductive Action :=
| Approve (challanId : string) (confirmed : bool)
| Reject (challanId : string) (rejectionReason : string)
| SaveEdit (challanId : string) (formData : FormData) (items : list ChallanItem)
| Delete (challanId : string) (confirmed : bool).

(** The guards of the rendering: the approve and reject buttons are drawn
    under [challan.approval_status === 'pending_approval' &&
    profile?.role === 'admin'], the edit and delete buttons under
    [canManage], each on a row of the table.  The table shows the page's
    [challans] state, the rows [loadChallans] read last, here by id; the
    handlers run on the backend as it is when they are called. *)
Definition offered (role : option string) (challans : gmap string Challan)
    (a : Action) : bool :=
  match a with
  | Approve challanId _ | Reject challanId _ =>
      match challans !! challanId with
      | Some challan =>
          match approval_status challan with
          | pending_approval => has_role role "admin"
          | _ => false
          end
      | None => false
      end
  | SaveEdit challanId _ _ | Delete challanId _ =>
      match challans !! challanId with
      | Some _ => canManage role
      | None => false
      end
  end.

(** The handler behind each action.  An edit first loads the line items of
    the challan into [originalItems] ([handleEdit]); the reject button
    stores the challan in [challanToReject] and the dialog then calls
    [handleRejectChallan]. *)
Definition perform (a : Action) : Async Store (option string) :=
  match a with
  | Approve challanId confirmed => handleApproveChallan confirmed challanId
  | Reject challanId rejectionReason =>
      handleRejectChallan (Some challanId) rejectionReason
  | SaveEdit challanId formData items =>
      let* originalItems := loadChallanItems challanId in
      handleSubmit_editing challanId originalItems formData items
  | Delete challanId confirmed => handleDelete confirmed challanId
  end.

(** *** Vocabulary of the properties *)

(** What [loadBatches] and [getFIFOBatch] together ask of a row of the
    table: active, some stock on hand, of the product, not expired. *)
Definition eligible (now : Z) (productId : string) (r : BatchRow) : bool :=
  row_is_active r && (0 <? row_current_stock r)
  && String.eqb (row_product_id r) productId
  && negb (isExpired now (row_expiry_date r)).

(** What the data model calls the available stock of a batch. *)
Definition available_stock (r : BatchRow) : Z :=
  row_current_stock r - row_reserved_stock r.

(** The sum of the quantities of the lines of a batch. *)
Definition line_quantity (b : string) (items : list ChallanItem) : Z :=
  foldr (λ item acc, if decide (batch_id item = b) then quantity item + acc else acc)
        0 items.

(** The sum of the entries of a batch in [stockAdjustments]. *)
Definition net_adjustment (b : string) (adjs : list StockAdjustment) : Z :=
  foldr (λ adj acc, if decide (adj_batch_id adj = b) then adjustment adj + acc else acc)
        0 adjs.

(** A line item that passes the validation of [handleSubmit]. *)
Definition valid_item (item : ChallanItem) : bool :=
  truthy (item_product_id item) && truthy (batch_id item) && (0 <? quantity item).

(** The row of a batch with [q] added to its stock. *)
Definition add_stock (q : Z) (r : BatchRow) : BatchRow :=
  set_current_stock (row_current_stock r + q) r.

(** The batches table after a run of adjustment writes that all go through. *)
Definition adjusted (adjs : list StockAdjustment) (m : gmap string BatchRow)
    : gmap string BatchRow :=
  foldl (λ m adj, if adjustment adj =? 0 then m
                  else alter (add_stock (adjustment adj)) (adj_batch_id adj) m)
        m adjs.

(** The row of a batch with its stock moved by [delta] and its other
    columns as they were. *)
Definition stock_moved (delta : Z) (r r' : BatchRow) : Prop :=
  row_current_stock r' = row_current_stock r + delta
  ∧ row_batch_number r' = row_batch_number r
  ∧ row_product_id r' = row_product_id r
  ∧ row_reserved_stock r' = row_reserved_stock r
  ∧ row_expiry_date r' = row_expiry_date r
  ∧ row_packaging_details r' = row_packaging_details r
  ∧ row_import_date r' = row_import_date r
  ∧ row_is_active r' = row_is_active r.

(** The columns of a line item that the adjustment loops read. *)
Definition line (item : ChallanItem) : string * Z := (batch_id item, quantity item).

(** The quantities of the lines added up, each without its sign. *)
Definition total_quantity (items : list ChallanItem) : Z :=
  foldr (λ item acc, Z.abs (quantity item) + acc) 0 items.

(** The quantities of the embedding are whole numbers.  The page holds them
    as doubles, and on whole numbers its sums and differences are the exact
    ones as long as they stay within the counting limit: an edit is counted
    exactly when the quantities of its original and its new lines together
    do. *)
Definition counted_exactly (originalItems items : list ChallanItem) : Prop :=
  total_quantity originalItems + total_quantity items ≤ Z.of_N counting_limit.

(** The same with the stock of every batch on file taken in, for the sums
    the page computes on the stock it reads. *)
Definition stock_counted_exactly (w : Store) (originalItems items : list ChallanItem)
    : Prop :=
  ∀ b r, batches w !! b = Some r →
         Z.abs (row_current_stock r) + total_quantity originalItems
           + total_quantity items ≤ Z.of_N counting_limit.

(** The outcomes of the calls of the adjustment loop when the stored
    procedure returns an error for every entry it is called for and the
    read and the direct write that follow go through. *)
Definition fallback_outcomes (message : string) (adjs : list StockAdjustment)
    : list Outcome :=
  flat_map (λ adj, if adjustment adj =? 0 then []
                   else [ReturnsError message; Succeeds; Succeeds]) adjs.

(** The tables other than [batches] are the same in both stores. *)
Definition same_documents (w w' : Store) : Prop :=
  delivery_challans w' = delivery_challans w
  ∧ delivery_challan_items w' = delivery_challan_items w
  ∧ sales_orders w' = sales_orders w
  ∧ app_settings w' = app_settings w
  ∧ auth_user w' = auth_user w.

(** The trailing number of a challan number, zero when it has none. *)
Definition suffix_number (challan_number : string) : N :=
  match match_trailing_digits challan_number with
  | Some digits => default 0%N (digits_value digits)
  | None => 0%N
  end.

(** The year the challan number is made for: the financial year of the
    settings when it is set, the year of the clock otherwise. *)
Definition number_year (w : Store) (currentYear : N) : N :=
  match head (app_settings w) with
  | Some {| financial_year_start := Some fyYear |} => fyYear
  | _ => currentYear
  end.

(** The challan numbers of the table that start with DO-YY or DC-YY. *)
Definition numbers_in_use (yearCode : string) (w : Store) : list string :=
  List.filter
    (λ number, String.prefix ("DO-" +:+ yearCode) number
               || String.prefix ("DC-" +:+ yearCode) number)
    (List.map (λ kc, challan_number kc.2) (map_to_list (delivery_challans w))).

(** Between two stores, a challan row is either what it was or the row of
    [challanId] in a state described by [P]. *)
Definition moves_to (challanId : string) (P : Challan → Prop) (w w' : Store) : Prop :=
  ∀ id' c', delivery_challans w' !! id' = Some c' →
            delivery_challans w !! id' = Some c' ∨ (id' = challanId ∧ P c').

(** *** Sample data *)

Definition sample_item (b : string) (q : Z) : ChallanItem :=
  {| item_product_id := "P"; batch_id := b; quantity := q;
     pack_size := None; pack_type := None; number_of_packs := None |}.

Definition sample_batch (stock reserved : Z) (imported : Z) : BatchRow :=
  {| row_batch_number := "LOT"; row_product_id := "P";
     row_current_stock := stock; row_reserved_stock := reserved;
     row_expiry_date := None; row_packaging_details := None;
     row_import_date := Some imported; row_is_active := true |}.

Definition sample_challan (number : string) (so : option string)
    (st : ApprovalStatus) : Challan :=
  {| challan_number := number; customer_id := "cust-1"; sales_order_id := so;
     challan_date := "2025-06-01"; delivery_address := "Jl. Merdeka 1, Jakarta";
     approval_status := st; created_by := Some "user-1";
     approved_by := None; rejected_by := None; rejection_reason := None |}.

Definition sample_form : FormData :=
  {| form_challan_number := "DO-25-0001"; form_customer_id := "cust-1";
     form_sales_order_id := ""; form_challan_date := "2025-06-01";
     form_delivery_address := "Jl. Merdeka 1, Jakarta" |}.

(** Two batches of one product, one approved challan with a line on each
    batch, linked to a delivered and archived sales order. *)
Definition sample_store : Store :=
  {| batches := <["A" := sample_batch 100 0 1000]>
                  (<["B" := sample_batch 100 0 2000]> ∅);
     delivery_challans :=
       <["dc-1" := sample_challan "DO-25-0001" (Some "so-1") approved]> ∅;
     delivery_challan_items :=
       [("dc-1", sample_item "A" 20); ("dc-1", sample_item "B" 10)];
     sales_orders :=
       <["so-1" := {| status := "delivered"; is_archived := true;
                      archived_at := Some 5000; archived_by := Some "user-1";
                      archive_reason := Some "Delivery Challan created and all items delivered" |}]> ∅;
     app_settings := [];
     auth_user := Some "user-1" |}.

(** The sample store with a second challan that waits for approval. *)
Definition pending_store : Store :=
  with_delivery_challans
    (insert "dc-2" (sample_challan "DO-25-0002" None pending_approval))
    sample_store.

(** *** The line items of the form *)

(** The line that [resetForm] and [addItem] put in the form. *)
Definition blank_item : ChallanItem :=
  {| item_product_id := ""; batch_id := ""; quantity := 0;
     pack_size := None; pack_type := None; number_of_packs := None |}.

(** The [items] state after [resetForm]. *)
Definition resetForm_items : list ChallanItem := [blank_item].

(** [addItem]: [setItems([...items, { product_id: '', ... }])]. *)
Definition addItem (items : list ChallanItem) : list ChallanItem :=
  items ++ [blank_item].

(** [removeItem(index)]:
    [if (items.length > 1) setItems(items.filter((_, i) => i !== index))]. *)
Definition removeItem (index : nat) (items : list ChallanItem) : list ChallanItem :=
  if (1 <? length items)%nat then delete index items else items.

(** [updatePackQuantity(index, packs)].  [None] is the [TypeError] of
    reading [pack_size] of a line that is not there; a line without a pack
    size (null or zero) leaves the list as it is. *)
Definition updatePackQuantity (index : nat) (packs : Z) (items : list ChallanItem)
    : option (list ChallanItem) :=
  match items !! index with
  | None => None
  | Some item =>
      match pack_size item with
      | Some size =>
          if size =? 0 then Some items
          else Some (<[index := {| item_product_id := item_product_id item;
                                   batch_id := batch_id item;
                                   quantity := size * packs;
                                   pack_size := pack_size item;
                                   pack_type := pack_type item;
                                   number_of_packs := Some packs |}]> items)
      | None => Some items
      end
  end.

(** The page state that [handleEdit(challan)] sets up. *)
Record EditState := {
  edit_formData : FormData;
  edit_originalItems : list ChallanItem;
  edit_items : list ChallanItem;
}.

(** [handleEdit(challan)]: the form takes the columns of the challan, and
    [sales_order_id] is not among them; [originalItems] are the loaded line
    items, and [items] become the loaded ones unless none were loaded. *)
Definition handleEdit (challanId : string) (challan : Challan)
    (items : list ChallanItem) : Async Store EditState :=
  let* loadedItems := loadChallanItems challanId in
  ret {| edit_formData :=
           {| form_challan_number := challan_number challan;
              form_customer_id := customer_id challan;
              form_sales_order_id := "";
              form_challan_date := challan_date challan;
              form_delivery_address := delivery_address challan |};
         edit_originalItems := loadedItems;
         edit_items := if (0 <? length loadedItems)%nat then loadedItems else items |}.

(** The quantity of a batch on all line items on file. *)
Definition dispatched (b : string) (w : Store) : Z :=
  line_quantity b (List.map snd (delivery_challan_items w)).

(** The line items on file for a challan. *)
Definition items_of (challanId : string) (w : Store) : list ChallanItem :=
  List.map snd
    (List.filter (λ row, String.eqb row.1 challanId) (delivery_challan_items w)).

(** The number of entries of [stockAdjustments] the loop writes for: the
    ones that are not zero. *)
Definition stock_writes (adjs : list StockAdjustment) : nat :=
  length (List.filter (λ adj, negb (adjustment adj =? 0)) adjs).

(** The store with the challan waiting for approval, nobody signed in. *)
Definition signed_out_store : Store :=
  {| batches := batches pending_store;
     delivery_challans := delivery_challans pending_store;
     delivery_challan_items := delivery_challan_items pending_store;
     sales_orders := sales_orders pending_store;
     app_settings := app_settings pending_store;
     auth_user := None |}.


(** What the user can do to the lines of the form. *)
Inductive LineOp :=
| AddItem
| RemoveItem (index : nat)
| UpdatePackQuantity (index : nat) (packs : Z).

(** The [items] state after one of them; a handler that throws sets no
    state. *)
Definition apply_op (items : list ChallanItem) (op : LineOp) : list ChallanItem :=
  match op with
  | AddItem => addItem items
  | RemoveItem index => removeItem index items
  | UpdatePackQuantity index packs =>
      default items (updatePackQuantity index packs items)
  end.

(** *** Creating a challan *)

(** A row of [sales_order_items], with the columns the page reads and
    writes. *)
Record SalesOrderItem := {
  soi_sales_order_id : string;
  soi_product_id : string;
  soi_quantity : Z;
  soi_delivered_quantity : option Z;
}.

(** The backend with the table [sales_order_items], which only the
    creation of a challan touches. *)
Record OrderStore := {
  documents : Store;
  sales_order_items : gmap string SalesOrderItem;
}.

(** A piece of code of the page run on the larger backend. *)
Definition on_documents {A} (m : Async Store A) : Async OrderStore A :=
  λ s,
    let (completion, s') := m (mkSys (documents (store s)) (script s)) in
    (completion,
     mkSys {| documents := store s'; sales_order_items := sales_order_items (store s) |}
           (script s')).

(** [.from('delivery_challans').insert([challanData]).select().single()]:
    the backend gives the new row a key that is not in use and answers with
    it. *)
Definition insert_challan (formData : FormData) (user_id : string)
    : Async Store (Reply string) :=
  remote (λ w,
    let challanId := fresh (dom (delivery_challans w)) in
    (Data challanId,
     with_delivery_challans
       (insert challanId
          {| challan_number := form_challan_number formData;
             customer_id := form_customer_id formData;
             sales_order_id :=
               if truthy (form_sales_order_id formData)
               then Some (form_sales_order_id formData) else None;
             challan_date := form_challan_date formData;
             delivery_address := form_delivery_address formData;
             approval_status := pending_approval;
             created_by := Some user_id;
             approved_by := None;
             rejected_by := None;
             rejection_reason := None |}) w)).

(** Modelled from the spec: the stored procedure
    [fn_deduct_stock_and_release_reservation] is not part of the page; it
    is the backend's "combined deduct-and-release-reservation", taking
    [p_quantity] from the [current_stock] of the batch and from its
    [reserved_stock]. *)
Definition fn_deduct_stock_and_release_reservation (p_batch_id : string)
    (p_quantity : Z) : Async Store (Reply unit) :=
  remote (λ w,
    (Data tt,
     with_batches
       (alter (λ r, {| row_batch_number := row_batch_number r;
                       row_product_id := row_product_id r;
                       row_current_stock := row_current_stock r - p_quantity;
                       row_reserved_stock := row_reserved_stock r - p_quantity;
                       row_expiry_date := row_expiry_date r;
                       row_packaging_details := row_packaging_details r;
                       row_import_date := row_import_date r;
                       row_is_active := row_is_active r |})
              p_batch_id) w)).

(** [.from('sales_order_items').select('id, product_id, quantity,
    delivered_quantity').eq('sales_order_id', so_id)] *)
Definition select_order_items (so_id : string)
    : Async OrderStore (Reply (list (string * SalesOrderItem))) :=
  remote (λ w,
    (Data (List.filter (λ row, String.eqb (soi_sales_order_id row.2) so_id)
             (map_to_list (sales_order_items w))), w)).

(** [.from('sales_order_items').update({ delivered_quantity }).eq('id', id)] *)
Definition update_delivered_quantity (soItemId : string) (newDeliveredQty : Z)
    : Async OrderStore (Reply unit) :=
  remote (λ w,
    (Data tt,
     {| documents := documents w;
        sales_order_items :=
          alter (λ r, {| soi_sales_order_id := soi_sales_order_id r;
                         soi_product_id := soi_product_id r;
                         soi_quantity := soi_quantity r;
                         soi_delivered_quantity := Some newDeliveredQty |})
                soItemId (sales_order_items w) |})).

(** [.from('sales_orders').update({ status, is_archived, ... }).eq('id', so_id)] *)
Definition update_order_status (now : Z) (so_id user_id : string) (allDelivered : bool)
    : Async Store (Reply unit) :=
  remote (λ w,
    (Data tt,
     with_sales_orders
       (alter (λ _, {| status := if allDelivered then "delivered"
                                 else "partially_delivered";
                       is_archived := allDelivered;
                       archived_at := if allDelivered then Some now else None;
                       archived_by := if allDelivered then Some user_id else None;
                       archive_reason :=
                         if allDelivered
                         then Some "Delivery Challan created and all items delivered"
                         else None |})
              so_id) w)).

(** [(soItem.delivered_quantity || 0) + (dcItem?.quantity || 0)], [dcItem]
    being [items.find(i => i.product_id === soItem.product_id)]: the first
    line of the product. *)
Definition newDeliveredQty (items : list ChallanItem) (soItem : SalesOrderItem) : Z :=
  default 0 (soi_delivered_quantity soItem)
  + match List.find (λ i, String.eqb (item_product_id i) (soi_product_id soItem)) items with
    | Some dcItem => quantity dcItem
    | None => 0
    end.

(** [for (const soItem of soItems)], threading [allDelivered]. *)
Fixpoint update_delivered (items : list ChallanItem)
    (soItems : list (string * SalesOrderItem)) (allDelivered : bool)
    : Async OrderStore bool :=
  match soItems with
  | [] => ret allDelivered
  | (soItemId, soItem) :: others =>
      let* _ := update_delivered_quantity soItemId (newDeliveredQty items soItem) in
      update_delivered items others
        (if newDeliveredQty items soItem <? soi_quantity soItem
         then false else allDelivered)
  end.

(** [handleSubmit] without [editingChallan]: the validation and the [catch]
    it shares with the save of an edit, and the branch that creates the
    challan, [now] being the instant of the clock.  The answers of the
    stored procedure, of the read of the order lines and of the writes for
    the order are not looked at. *)
Definition handleSubmit_creating (now : Z) (formData : FormData)
    (items : list ChallanItem) : Async OrderStore (option string) :=
  let invalidItems :=
    List.filter (λ item, negb (truthy (item_product_id item))
                         || negb (truthy (batch_id item))
                         || (quantity item <=? 0)) items in
  if (0 <? length invalidItems)%nat
  then ret (Some "Please select product, batch, and enter quantity for all items before saving.")
  else
  let emptyBatches := List.filter (λ item, String.eqb (batch_id item) "") items in
  if (0 <? length emptyBatches)%nat
  then ret (Some "Some items do not have a batch selected. Please select a batch for all items.")
  else
  try_catch
    (let* user := on_documents getUser in
     match user with
     | Data (Some user_id) =>
         let* newChallan := on_documents (insert_challan formData user_id) in
         match newChallan with
         | Error challanError => throw challanError
         | Data challanId =>
             let* _ :=
               for_of items (λ item,
                 if truthy (form_sales_order_id formData)
                 then let* _ := on_documents
                                  (fn_deduct_stock_and_release_reservation
                                     (batch_id item) (quantity item)) in
                      ret tt
                 else ret tt) in
             let* _ :=
               if truthy (form_sales_order_id formData)
               then
                 let* soItems := select_order_items (form_sales_order_id formData) in
                 match soItems with
                 | Data rows =>
                     let* allDelivered := update_delivered items rows true in
                     let* _ := on_documents
                                 (update_order_status now (form_sales_order_id formData)
                                    user_id allDelivered) in
                     ret tt
                 | Error _ => ret tt
                 end
               else ret tt in
             let* inserted := on_documents (insert_challan_items challanId items) in
             match inserted with
             | Error itemsError => throw itemsError
             | Data _ => ret (Some "Delivery Challan created successfully!")
             end
         end
     | _ => throw "Not authenticated"
     end)
    (λ message, ret (Some (save_failure_alert message))).

(** The order lines of a sales order. *)
Definition order_lines (so_id : string) (w : OrderStore)
    : list (string * SalesOrderItem) :=
  List.filter (λ row, String.eqb (soi_sales_order_id row.2) so_id)
    (map_to_list (sales_order_items w)).

(** Every line of the order is delivered in full once the challan lines
    are counted. *)
Definition fully_delivered (items : list ChallanItem)
    (lines : list (string * SalesOrderItem)) : bool :=
  forallb (λ row, negb (newDeliveredQty items row.2 <? soi_quantity row.2)) lines.

(** The delivered quantities of the embedding are whole numbers.  The page
    holds them as doubles, and its sum for a line of the order is the exact
    one when what was delivered before and the quantities of the challan
    lines together stay within the counting limit. *)
Definition delivery_counted_exactly (items : list ChallanItem)
    (lines : list (string * SalesOrderItem)) : Prop :=
  Forall (λ row, Z.abs (default 0 (soi_delivered_quantity row.2)) + total_quantity items
                 ≤ Z.of_N counting_limit) lines.

(** [x || 0] on a double that may be missing: zero for [null] and
    [undefined], for zero and for [NaN]. *)
Definition or_zero (x : option float) : float :=
  match x with
  | Some value =>
      if PrimFloat.is_nan value || PrimFloat.eqb value 0 then 0%float else value
  | None => 0%float
  end.

(** [(soItem.delivered_quantity || 0) + (dcItem?.quantity || 0)] on the
    doubles of the page. *)
Definition newDeliveredQty_of_doubles (delivered_quantity quantity : option float)
    : float :=
  PrimFloat.add (or_zero delivered_quantity) (or_zero quantity).

(** [newDeliveredQty < soItem.quantity] on doubles. *)
Definition falls_short (newDeliveredQty quantity : float) : bool :=
  PrimFloat.ltb newDeliveredQty quantity.

(** The sample store with the lines of the order so-1: 30 of product P
    ordered, 10 delivered before. *)
Definition sample_order_store : OrderStore :=
  {| documents := sample_store;
     sales_order_items :=
       <["soi-1" := {| soi_sales_order_id := "so-1"; soi_product_id := "P";
                       soi_quantity := 30; soi_delivered_quantity := Some 10 |}]> ∅ |}.

(** *** Choosing batches for the lines *)

Section Packaging.

(** The match of [/(\d+)\s+(\w+)s?\s+x\s+(\d+(?:\.\d+)?)kg/i] on the
    packaging details of a batch, taken as given: the number of packs, the
    pack type in lower case and the pack size it reads, if it matches. *)
Variable match_packaging : string → option (Z * string * Z).

(** [packSize], [packType] and [numberOfPacks] as both handlers compute
    them from [packaging_details]. *)
Definition pack_fields (packaging_details : option string)
    : option Z * option string * option Z :=
  match packaging_details with
  | Some details =>
      if truthy details
      then match match_packaging details with
           | Some (numberOfPacks, packType, packSize) =>
               (Some packSize, Some packType, Some numberOfPacks)
           | None => (None, None, None)
           end
      else (None, None, None)
  | None => (None, None, None)
  end.

(** [numberOfPacks || 1] *)
Definition packs_or_1 (numberOfPacks : option Z) : Z :=
  match numberOfPacks with
  | Some n => if n =? 0 then 1 else n
  | None => 1
  end.

(** [packSize && numberOfPacks ? packSize * numberOfPacks : 0] *)
Definition packed_quantity (packSize numberOfPacks : option Z) : Z :=
  match packSize, numberOfPacks with
  | Some size, Some n => if (size =? 0) || (n =? 0) then 0 else size * n
  | _, _ => 0
  end.

(** The callback of [soItems.map] in [handleSalesOrderChange]: the line of
    the challan for a line of the order, on the first loaded batch of the
    product that has stock. *)
Definition line_for_order_item (batches : list Batch) (item : SalesOrderItem)
    : ChallanItem :=
  let productBatches :=
    List.filter (λ b, String.eqb (product_id b) (soi_product_id item)
                      && (0 <? current_stock b)) batches in
  match head productBatches with
  | None =>
      {| item_product_id := soi_product_id item; batch_id := "";
         quantity := soi_quantity item;
         pack_size := None; pack_type := None; number_of_packs := None |}
  | Some fifoBatch =>
      let '(packSize, packType, numberOfPacks) :=
        pack_fields (packaging_details fifoBatch) in
      {| item_product_id := soi_product_id item; batch_id := id fifoBatch;
         quantity := soi_quantity item;
         pack_size := packSize; pack_type := packType;
         number_of_packs := Some (packs_or_1 numberOfPacks) |}
  end.

(** The [items] state after [handleSalesOrderChange(soId)]: [known] tells
    whether the order is among the loaded ones, [soItems] are its lines as
    read, or [None] when the read failed.  No order chosen resets the
    lines; an order without lines, or one that cannot be read, leaves them
    as they are. *)
Definition handleSalesOrderChange (soId : string) (known : bool)
    (soItems : option (list SalesOrderItem)) (batches : list Batch)
    (items : list ChallanItem) : list ChallanItem :=
  if truthy soId
  then if known
       then match soItems with
            | Some (item :: others) =>
                List.map (line_for_order_item batches) (item :: others)
            | _ => items
            end
       else items
  else [blank_item].

(** [handleBatchChange(index, batchId)] for a line that is there; [None]
    stands for an index past the end.  A batch that is not loaded changes
    nothing. *)
Definition handleBatchChange (index : nat) (batchId : string) (batches : list Batch)
    (items : list ChallanItem) : option (list ChallanItem) :=
  match List.find (λ b, String.eqb (id b) batchId) batches with
  | None => Some items
  | Some batch =>
      match items !! index with
      | None => None
      | Some item =>
          let '(packSize, packType, numberOfPacks) :=
            pack_fields (packaging_details batch) in
          Some (<[index := {| item_product_id := item_product_id item;
                              batch_id := batchId;
                              quantity := packed_quantity packSize numberOfPacks;
                              pack_size := packSize;
                              pack_type := packType;
                              number_of_packs := Some (packs_or_1 numberOfPacks) |}]>
                  items)
      end
  end.

(** The button "Use FIFO" of a line:
    [const fifoBatch = getFIFOBatch(item.product_id);
    if (fifoBatch) handleBatchChange(index, fifoBatch.id)]. *)
Definition use_FIFO (now : Z) (index : nat) (batches : list Batch)
    (items : list ChallanItem) : option (list ChallanItem) :=
  match items !! index with
  | None => None
  | Some item =>
      match getFIFOBatch now batches (item_product_id item) with
      | Some fifoBatch => handleBatchChange index (id fifoBatch) batches items
      | None => Some items
      end
  end.

End Packaging.

End DeliveryChallan.

(** ** The material-returns page *)

Module MaterialReturns.

(** [interface ReturnItem] *)
Record ReturnItem := {
  product_id : string;
  batch_id : string;
  quantity_returned : Z;
  original_quantity : Z;
  condition : string;
  notes : string;
}.

Record FormData := {
  customer_id : string;
  original_dc_id : string;
  return_date : string;
  return_type : string;
  return_reason : string;
  form_notes : string;
}.

(** A row of [material_returns] as the page inserts it. *)
Record MaterialReturn := {
  ret_customer_id : string;
  ret_original_dc_id : string;
  ret_return_date : string;
  ret_return_type : string;
  ret_return_reason : string;
  ret_notes : string;
  status : string;
  created_by : option string;
}.

(** The backend as the page sees it.  The key the backend gives a new
    return is its position in the table; a row of [material_return_items]
    is the key of its return and the item. *)
Record Store := {
  material_returns : list MaterialReturn;
  material_return_items : list (nat * ReturnItem);
}.

Definition truthy (s : string) : bool := negb (String.eqb s "").

(** [.from('material_returns').insert({...}).select().single()] *)
Definition insert_return (row : MaterialReturn) : Async Store (Reply nat) :=
  remote (λ w,
    (Data (length (material_returns w)),
     {| material_returns := material_returns w ++ [row];
        material_return_items := material_return_items w |})).

(** [.from('material_return_items').insert(itemsToInsert)] *)
Definition insert_return_items (return_id : nat) (items : list ReturnItem)
    : Async Store (Reply unit) :=
  remote (λ w,
    (Data tt,
     {| material_returns := material_returns w;
        material_return_items :=
          material_return_items w ++ List.map (λ item, (return_id, item)) items |})).

(** [handleSubmit] of the page, for the signed-in [user]; the answer is the
    text of the alert shown. *)
Definition handleSubmit (user : option string) (formData : FormData)
    (returnItems : list ReturnItem) : Async Store string :=
  if negb (truthy (customer_id formData))
     || negb (truthy (original_dc_id formData))
     || negb (truthy (return_reason formData))
  then ret "Please complete all required fields"
  else
  let validItems := List.filter (λ item, 0 <? quantity_returned item) returnItems in
  if (length validItems =? 0)%nat
  then ret "Please enter at least one item with return quantity"
  else
  let hasInvalidQuantities :=
    existsb (λ item, original_quantity item <? quantity_returned item) validItems in
  if hasInvalidQuantities
  then ret "Return quantity cannot exceed original quantity"
  else
  try_catch
    (let* returnData :=
       insert_return
         {| ret_customer_id := customer_id formData;
            ret_original_dc_id := original_dc_id formData;
            ret_return_date := return_date formData;
            ret_return_type := return_type formData;
            ret_return_reason := return_reason formData;
            ret_notes := form_notes formData;
            status := "pending_approval";
            created_by := user |} in
     match returnData with
     | Error returnError => throw returnError
     | Data return_id =>
         let itemsToInsert := validItems in
         let* inserted := insert_return_items return_id itemsToInsert in
         match inserted with
         | Error itemsError => throw itemsError
         | Data _ => ret "Material return created successfully. Pending approval."
         end
     end)
    (λ message,
       ret (if truthy message then message else "Failed to create material return")).

(** *** Sample data *)

Definition sample_form : FormData :=
  {| customer_id := "cust-1"; original_dc_id := "dc-1";
     return_date := "2025-06-10"; return_type := "quality_issue";
     return_reason := "Damaged drums"; form_notes := "" |}.

Definition sample_return_item (b : string) (returned original : Z) : ReturnItem :=
  {| product_id := "P"; batch_id := b; quantity_returned := returned;
     original_quantity := original; condition := "good"; notes := "" |}.

Definition empty_store : Store :=
  {| material_returns := []; material_return_items := [] |}.

(** *** The lines of the return form *)

(** [loadChallanItems(challanId)] over the outcome of its read: [data] the
    line items of the challan, or [None] when the read returned an error or
    rejected, which leaves the lines as they are.  Every line of the
    challan becomes a line of the return with nothing returned yet. *)
Definition loadChallanItems (data : option (list DeliveryChallan.ChallanItem))
    (returnItems : list ReturnItem) : list ReturnItem :=
  match data with
  | Some items =>
      List.map (λ item, {| product_id := DeliveryChallan.item_product_id item;
                           batch_id := DeliveryChallan.batch_id item;
                           quantity_returned := 0;
                           original_quantity := DeliveryChallan.quantity item;
                           condition := "good";
                           notes := "" |})
               items
  | None => returnItems
  end.

(** The fields the form passes to [updateReturnItem], with their values. *)
Inductive ItemField :=
| set_quantity_returned (value : Z)
| set_condition (value : string)
| set_notes (value : string).

(** [updateReturnItem(index, field, value)] for a line that is there, as for
    every call of the form, whose fields are drawn for the lines of
    [returnItems].  [None] stands for an index past the end, where the
    array would get a line holding the one field only. *)
Definition updateReturnItem (index : nat) (field : ItemField)
    (returnItems : list ReturnItem) : option (list ReturnItem) :=
  match returnItems !! index with
  | Some item =>
      Some (<[index :=
                match field with
                | set_quantity_returned value =>
                    {| product_id := product_id item; batch_id := batch_id item;
                       quantity_returned := value;
                       original_quantity := original_quantity item;
                       condition := condition item; notes := notes item |}
                | set_condition value =>
                    {| product_id := product_id item; batch_id := batch_id item;
                       quantity_returned := quantity_returned item;
                       original_quantity := original_quantity item;
                       condition := value; notes := notes item |}
                | set_notes value =>
                    {| product_id := product_id item; batch_id := batch_id item;
                       quantity_returned := quantity_returned item;
                       original_quantity := original_quantity item;
                       condition := condition item; notes := value |}
                end]> returnItems)
  | None => None
  end.

(** The form of a return: its fields and its lines. *)
Record Form := {
  form_data : FormData;
  form_items : list ReturnItem;
}.

(** [resetForm], [today] being [new Date().toISOString().split('T')[0]]. *)
Definition resetForm (today : string) : Form :=
  {| form_data := {| customer_id := ""; original_dc_id := ""; return_date := today;
                     return_type := "quality_issue"; return_reason := "";
                     form_notes := "" |};
     form_items := [] |}.

(** [handleCustomerChange(customerId)] *)
Definition handleCustomerChange (customerId : string) (f : Form) : Form :=
  {| form_data := {| customer_id := customerId; original_dc_id := "";
                     return_date := return_date (form_data f);
                     return_type := return_type (form_data f);
                     return_reason := return_reason (form_data f);
                     form_notes := form_notes (form_data f) |};
     form_items := [] |}.

(** [handleChallanChange(challanId)]: the field is set at once; for a
    challan the read of [loadChallanItems] is started, whose end is an
    operation of its own, and for no challan the lines are emptied. *)
Definition handleChallanChange (challanId : string) (f : Form) : Form :=
  {| form_data := {| customer_id := customer_id (form_data f);
                     original_dc_id := challanId;
                     return_date := return_date (form_data f);
                     return_type := return_type (form_data f);
                     return_reason := return_reason (form_data f);
                     form_notes := form_notes (form_data f) |};
     form_items := if truthy challanId then form_items f else [] |}.

(** What happens to the form while it is open. *)
Inductive FormOp :=
| ChangeCustomer (customerId : string)
| ChangeChallan (challanId : string)
| Loaded (challanId : string) (data : option (list DeliveryChallan.ChallanItem))
| UpdateItem (index : nat) (field : ItemField)
| ChangeText (return_date return_type return_reason notes : string).

(** The form after one of them.  [Loaded challanId data] is the end of the
    read that [loadChallanItems(challanId)] started, whenever it comes;
    [ChangeText] stands for the fields that are set in place. *)
Definition form_step (f : Form) (op : FormOp) : option Form :=
  match op with
  | ChangeCustomer customerId => Some (handleCustomerChange customerId f)
  | ChangeChallan challanId => Some (handleChallanChange challanId f)
  | Loaded _ data =>
      Some {| form_data := form_data f;
              form_items := loadChallanItems data (form_items f) |}
  | UpdateItem index field =>
      returnItems ← updateReturnItem index field (form_items f);
      Some {| form_data := form_data f; form_items := returnItems |}
  | ChangeText date type reason notes =>
      Some {| form_data := {| customer_id := customer_id (form_data f);
                              original_dc_id := original_dc_id (form_data f);
                              return_date := date; return_type := type;
                              return_reason := reason; form_notes := notes |};
              form_items := form_items f |}
  end.

Definition run (f : Form) (ops : list FormOp) : option Form :=
  foldl (λ f op, f ≫= λ f, form_step f op) (Some f) ops.

(** The challan whose lines the form shows: the one of the last read that
    went through, as long as the lines were not emptied since. *)
Definition source_step (source : option string) (op : FormOp) : option string :=
  match op with
  | ChangeCustomer _ => None
  | ChangeChallan challanId => if truthy challanId then source else None
  | Loaded challanId (Some _) => Some challanId
  | _ => source
  end.

Definition source_of (ops : list FormOp) : option string := foldl source_step None ops.

(** The challan chosen last in the form, none being the empty text. *)
Definition chosen_step (chosen : string) (op : FormOp) : string :=
  match op with
  | ChangeCustomer _ => ""
  | ChangeChallan challanId => challanId
  | _ => chosen
  end.

Definition chosen (ops : list FormOp) : string := foldl chosen_step "" ops.

(** Every read that went through answered with the lines [dispatch] has on
    file for its challan. *)
Definition reads_from (dispatch : string → list DeliveryChallan.ChallanItem)
    (ops : list FormOp) : Prop :=
  Forall (λ op, match op with
                | Loaded challanId (Some data) => data = dispatch challanId
                | _ => True
                end) ops.

(** The lines on file for the challan of the form's lines. *)
Definition lines_shown (dispatch : string → list DeliveryChallan.ChallanItem)
    (source : option string) : list DeliveryChallan.ChallanItem :=
  match source with
  | Some challanId => dispatch challanId
  | None => []
  end.

(** Operations that leave the challan and the lines' origin alone. *)
Definition is_entry (op : FormOp) : bool :=
  match op with
  | UpdateItem _ _ | ChangeText _ _ _ _ => true
  | _ => false
  end.

(** The line of the return is the line of the challan: same product, same
    batch, and the dispatched quantity as original quantity. *)
Definition line_of (item : DeliveryChallan.ChallanItem) (returnItem : ReturnItem) : Prop :=
  product_id returnItem = DeliveryChallan.item_product_id item
  ∧ batch_id returnItem = DeliveryChallan.batch_id item
  ∧ original_quantity returnItem = DeliveryChallan.quantity item.

End MaterialReturns.

(** ** The receivables manager *)

Module ReceivablesManager.

(** [interface SalesInvoice], with [paid_amount] possibly absent. *)
Record SalesInvoice := {
  id : string;
  invoice_number : string;
  customer_id : string;
  total_amount : Z;
  paid_amount : option Z;
}.

Record FormData := {
  payment_number : string;
  payment_date : string;
  amount : Z;
  payment_method : string;
  bank_account_id : string;
  reference_number : string;
  notes : string;
}.

(** A row of [customer_payments] as the page inserts it. *)
Record CustomerPayment := {
  pay_payment_number : string;
  pay_customer_id : string;
  pay_invoice_id : option string;
  pay_payment_date : string;
  pay_amount : Z;
  pay_payment_method : string;
  pay_bank_account_id : option string;
  pay_reference_number : option string;
  pay_notes : option string;
  pay_created_by : string;
}.

(** A row of [invoice_payment_allocations]. *)
Record Allocation := {
  invoice_id : string;
  payment_id : nat;
  allocated_amount : Z;
  created_by : string;
}.

(** The backend as the component sees it; the key of a new payment is its
    position in the table. *)
Record Store := {
  customer_payments : list CustomerPayment;
  invoice_payment_allocations : list Allocation;
  auth_user : option string;
}.

Definition truthy (s : string) : bool := negb (String.eqb s "").

(** [s || null] *)
Definition or_null (s : string) : option string :=
  if truthy s then Some s else None.

(** [invoice.total_amount - (invoice.paid_amount || 0)] *)
Definition balance (invoice : SalesInvoice) : Z :=
  total_amount invoice - default 0 (paid_amount invoice).

(** [Object.values(selectedAllocations).reduce((sum, amount) => sum + amount, 0)] *)
Definition total_of (selectedAllocations : gmap string Z) : Z :=
  foldl (λ sum amount, sum + amount) 0
    (List.map snd (map_to_list selectedAllocations)).

(** The state [handleRecordPayment(invoice)] opens the dialog with: the
    clicked invoice selected for its whole balance, which is also the
    amount proposed for the payment. *)
Definition preselect (invoice : SalesInvoice) : gmap string Z :=
  {[ id invoice := balance invoice ]}.

(** The [onChange] of the check box of an invoice. *)
Definition checkbox_onChange (formData : FormData) (invoice : SalesInvoice)
    (checked : bool) (selectedAllocations : gmap string Z) : gmap string Z :=
  if checked
  then <[ id invoice :=
            Z.min (balance invoice) (amount formData - total_of selectedAllocations) ]>
         selectedAllocations
  else delete (id invoice) selectedAllocations.

(** The [onChange] of the amount field of a selected invoice, [value] being
    [parseFloat(e.target.value) || 0]: the alert, when there is one, and
    the allocations afterwards. *)
Definition allocation_onChange (invoice : SalesInvoice) (value : Z)
    (selectedAllocations : gmap string Z) : option string * gmap string Z :=
  if balance invoice <? value
  then (Some "Cannot allocate more than balance", selectedAllocations)
  else (None, <[ id invoice := value ]> selectedAllocations).

Definition getUser : Async Store (Reply (option string)) :=
  remote (λ w, (Data (auth_user w), w)).

(** [.from('customer_payments').insert([{...}]).select().single()] *)
Definition insert_payment (row : CustomerPayment) : Async Store (Reply nat) :=
  remote (λ w,
    (Data (length (customer_payments w)),
     {| customer_payments := customer_payments w ++ [row];
        invoice_payment_allocations := invoice_payment_allocations w;
        auth_user := auth_user w |})).

(** [.from('invoice_payment_allocations').insert(allocations)] *)
Definition insert_allocations (allocations : list Allocation)
    : Async Store (Reply unit) :=
  remote (λ w,
    (Data tt,
     {| customer_payments := customer_payments w;
        invoice_payment_allocations := invoice_payment_allocations w ++ allocations;
        auth_user := auth_user w |})).

(** The rows of step 2:
    [Object.entries(selectedAllocations).filter(([_, amount]) => amount > 0)
    .map(([invoiceId, amount]) => ({...}))]. *)
Definition allocation_rows (selectedAllocations : gmap string Z)
    (payment : nat) (user_id : string) : list Allocation :=
  List.map (λ entry, {| invoice_id := entry.1;
                        payment_id := payment;
                        allocated_amount := entry.2;
                        created_by := user_id |})
    (List.filter (λ entry, 0 <? entry.2) (map_to_list selectedAllocations)).

(** [handleSubmit]; the answer is the text of the alert shown, if any. *)
Definition handleSubmit (selectedInvoice : option SalesInvoice)
    (formData : FormData) (selectedAllocations : gmap string Z)
    : Async Store (option string) :=
  match selectedInvoice with
  | None => ret None
  | Some invoice =>
      let totalAllocated := total_of selectedAllocations in
      if amount formData <? totalAllocated
      then ret (Some "Total allocated amount cannot exceed payment amount")
      else if totalAllocated =? 0
      then ret (Some "Please allocate the payment to at least one invoice")
      else
      try_catch
        (let* user := getUser in
         match user with
         | Data (Some user_id) =>
             let* payment :=
               insert_payment
                 {| pay_payment_number := payment_number formData;
                    pay_customer_id := customer_id invoice;
                    pay_invoice_id := None;
                    pay_payment_date := payment_date formData;
                    pay_amount := amount formData;
                    pay_payment_method := payment_method formData;
                    pay_bank_account_id := or_null (bank_account_id formData);
                    pay_reference_number := or_null (reference_number formData);
                    pay_notes := or_null (notes formData);
                    pay_created_by := user_id |} in
             match payment with
             | Error paymentError => throw paymentError
             | Data payment_key =>
                 let allocations :=
                   allocation_rows selectedAllocations payment_key user_id in
                 let* inserted := insert_allocations allocations in
                 match inserted with
                 | Error allocError => throw allocError
                 | Data _ => ret (Some "Payment recorded and allocated successfully!")
                 end
             end
         | _ => throw "Not authenticated"
         end)
        (λ message, ret (Some ("Failed to record payment: " +:+ message)))
  end.

(** *** Vocabulary of the properties *)

(** The sum of the amounts of a list of allocation rows. *)
Definition allocated_sum (rows : list Allocation) : Z :=
  foldl (λ sum row, sum + allocated_amount row) 0 rows.

(** *** Sample data *)

Definition sample_invoice (key : string) (total : Z) : SalesInvoice :=
  {| id := key; invoice_number := "INV-" +:+ key; customer_id := "cust-1";
     total_amount := total; paid_amount := Some 0 |}.

Definition sample_form (payment : Z) : FormData :=
  {| payment_number := "PAY-1"; payment_date := "2025-06-10"; amount := payment;
     payment_method := "bank_transfer"; bank_account_id := "";
     reference_number := ""; notes := "" |}.

Definition empty_store : Store :=
  {| customer_payments := []; invoice_payment_allocations := [];
     auth_user := Some "user-1" |}.

(** *** The dialog *)

(** [{ ...formData, amount: value }] *)
Definition with_amount (value : Z) (formData : FormData) : FormData :=
  {| payment_number := payment_number formData;
     payment_date := payment_date formData;
     amount := value;
     payment_method := payment_method formData;
     bank_account_id := bank_account_id formData;
     reference_number := reference_number formData;
     notes := notes formData |}.

(** The state of the payment dialog: the form, the invoices listed for
    allocation and the allocations selected. *)
Record Dialog := {
  dlg_formData : FormData;
  dlg_customerInvoices : list SalesInvoice;
  dlg_allocations : gmap string Z;
}.

(** [handleRecordPayment(invoice)], [stamp] being [Date.now()] as text
    and [custInvoices] the unpaid invoices of the customer with their paid
    amounts, or [None] when loading them failed: the form is set up either
    way, the list and the selection only when the load went through. *)
Definition handleRecordPayment (stamp : string) (invoice : SalesInvoice)
    (custInvoices : option (list SalesInvoice)) (d : Dialog) : Dialog :=
  let remainingAmount := balance invoice in
  let formData :=
    {| payment_number := "PAY-" +:+ stamp;
       payment_date := payment_date (dlg_formData d);
       amount := remainingAmount;
       payment_method := payment_method (dlg_formData d);
       bank_account_id := bank_account_id (dlg_formData d);
       reference_number := reference_number (dlg_formData d);
       notes := notes (dlg_formData d) |} in
  match custInvoices with
  | Some invoicesWithBalance =>
      {| dlg_formData := formData;
         dlg_customerInvoices := invoicesWithBalance;
         dlg_allocations := preselect invoice |}
  | None =>
      {| dlg_formData := formData;
         dlg_customerInvoices := dlg_customerInvoices d;
         dlg_allocations := dlg_allocations d |}
  end.

(** What the user can do in the dialog to the amounts: change the amount of
    the payment, tick or untick the check box of a listed invoice, type
    into the amount field of a selected one. *)
Inductive DialogOp :=
| SetAmount (value : Z)
| Tick (invoice : SalesInvoice)
| Untick (invoice : SalesInvoice)
| TypeAmount (invoice : SalesInvoice) (value : Z).

(** The dialog after one of them.  The check box of an invoice is drawn
    ticked when the invoice is selected, and its amount field is drawn only
    then: a box is ticked when it was not, unticked when it was, and an
    amount is typed for a selected invoice. *)
Definition dialog_step (d : Dialog) (op : DialogOp) : Dialog :=
  let isSelected invoice := bool_decide (is_Some (dlg_allocations d !! id invoice)) in
  let set_allocations allocations :=
    {| dlg_formData := dlg_formData d;
       dlg_customerInvoices := dlg_customerInvoices d;
       dlg_allocations := allocations |} in
  match op with
  | SetAmount value =>
      {| dlg_formData := with_amount value (dlg_formData d);
         dlg_customerInvoices := dlg_customerInvoices d;
         dlg_allocations := dlg_allocations d |}
  | Tick invoice =>
      if isSelected invoice then d
      else set_allocations
             (checkbox_onChange (dlg_formData d) invoice true (dlg_allocations d))
  | Untick invoice =>
      if isSelected invoice
      then set_allocations
             (checkbox_onChange (dlg_formData d) invoice false (dlg_allocations d))
      else d
  | TypeAmount invoice value =>
      if isSelected invoice
      then set_allocations (allocation_onChange invoice value (dlg_allocations d)).2
      else d
  end.

(** The invoice an operation is about, if any. *)
Definition op_invoice (op : DialogOp) : option SalesInvoice :=
  match op with
  | SetAmount _ => None
  | Tick invoice | Untick invoice | TypeAmount invoice _ => Some invoice
  end.

(** [resetForm], with the date of the clock made explicit. *)
Definition resetForm (today : string) : FormData :=
  {| payment_number := ""; payment_date := today; amount := 0;
     payment_method := "bank_transfer"; bank_account_id := "";
     reference_number := ""; notes := "" |}.

(** The dialog while it is closed: the form of [resetForm], nothing listed
    and nothing selected. *)
Definition closed_dialog (today : string) : Dialog :=
  {| dlg_formData := resetForm today;
     dlg_customerInvoices := [];
     dlg_allocations := ∅ |}.

(** Every selected amount is within the balance of an invoice of the
    dialog that has the key of the entry, [invoice] being the one the
    dialog was opened for. *)
Definition within_balance (invoice : SalesInvoice) (d : Dialog) : Prop :=
  ∀ key value,
    dlg_allocations d !! key = Some value →
    ∃ inv, (inv = invoice ∨ inv ∈ dlg_customerInvoices d)
           ∧ id inv = key ∧ value ≤ balance inv.

(** The operations are about listed invoices. *)
Definition on_listed (d : Dialog) (ops : list DialogOp) : Prop :=
  Forall (λ op, ∀ inv, op_invoice op = Some inv → inv ∈ dlg_customerInvoices d) ops.

(** The selected amounts added up, each without its sign. *)
Definition magnitude (selectedAllocations : gmap string Z) : Z :=
  foldl (λ sum amount, sum + Z.abs amount) 0
    (List.map snd (map_to_list selectedAllocations)).

(** The amounts of the embedding are whole numbers.  The page holds them as
    doubles, and on whole numbers its sums and differences are the exact
    ones as long as they stay within the counting limit: a tick is counted
    exactly when the payment amount and the selected amounts together do,
    and the two amounts of the invoice as well. *)
Definition counted_exactly (formData : FormData) (invoice : SalesInvoice)
    (selectedAllocations : gmap string Z) : Prop :=
  Z.abs (amount formData) + magnitude selectedAllocations ≤ Z.of_N counting_limit
  ∧ Z.abs (total_amount invoice) + Z.abs (default 0 (paid_amount invoice))
    ≤ Z.of_N counting_limit.

(** *** The check box on the doubles of the page *)

(** [Math.min(a, b)] on doubles: [NaN] when one of them is, and of the two
    zeros the negative one. *)
Definition Math_min (a b : float) : float :=
  if PrimFloat.ltb a b then a
  else if PrimFloat.ltb b a then b
  else if PrimFloat.eqb a b
       then (if PrimFloat.ltb (PrimFloat.div 1 a) 0 then a else b)
       else PrimFloat.nan.

(** [Object.values(selectedAllocations).reduce((a, b) => a + b, 0)], the
    values in the order in which their invoices were selected. *)
Definition total_of_doubles (values : list float) : float :=
  foldl PrimFloat.add 0%float values.

(** What ticking the box of an invoice selects for it:
    [Math.min(balance, formData.amount - Object.values(...).reduce(...))]. *)
Definition ticked_amount (balance amount : float) (values : list float) : float :=
  Math_min balance (PrimFloat.sub amount (total_of_doubles values)).

(** [totalAllocated > formData.amount], the first check of [handleSubmit]. *)
Definition exceeds (totalAllocated amount : float) : bool :=
  PrimFloat.ltb amount totalAllocated.

End ReceivablesManager.

(** ** The material-returns page with unit prices and approval workflows *)

(** The second [MaterialReturns] page of the source.  Its lines are typed
    in rather than loaded from a challan, and a return of some value gets
    an approval workflow. *)
Module MaterialReturns2.

(** A number of the form, the double it is in the page; [parseFloat] gives
    [NaN] for a field that is empty. *)
Definition JsNumber := float.

Definition times (a b : JsNumber) : JsNumber := PrimFloat.mul a b.

Definition plus (a b : JsNumber) : JsNumber := PrimFloat.add a b.

(** [a >= b]; a comparison with [NaN] is false. *)
Definition at_least (a b : JsNumber) : bool := PrimFloat.leb b a.
Arguments at_least a%_float b%_float.

(** [interface ReturnItem], with the fields the form sets. *)
Record ReturnItem := {
  product_id : string;
  batch_id : string;
  quantity_returned : JsNumber;
  unit_price : JsNumber;
  condition : string;
  disposition : string;
}.

Record FormData := {
  customer_id : string;
  original_dc_id : string;
  original_invoice_id : string;
  return_date : string;
  return_type : string;
  return_reason : string;
  notes : string;
  restocked : bool;
}.

(** A row of [material_returns] as the page inserts it:
    [{ ...formData, created_by: user?.id }]. *)
Record MaterialReturn := {
  ret_formData : FormData;
  ret_created_by : option string;
}.

(** A row of [approval_workflows] as the page inserts it. *)
Record ApprovalWorkflow := {
  transaction_type : string;
  transaction_id : nat;
  requested_by : option string;
  wf_amount : JsNumber;
  wf_status : string;
}.

(** The backend as the page sees it; the key of a new return is its
    position in the table. *)
Record Store := {
  material_returns : list MaterialReturn;
  material_return_items : list (nat * ReturnItem);
  approval_workflows : list ApprovalWorkflow;
}.

Definition truthy (s : string) : bool := negb (String.eqb s "").

(** The alerts of [handleSubmit].  Their texts come from the translation
    function [t] with an English default; [Failed message] is the alert of
    the [catch], which shows [message] unless it is empty. *)
Inductive Alert :=
| pleaseCompleteAllFields
| returnCreatedSuccessfully
| Failed (message : string).

(** [returnItems.reduce((sum, item) => sum + item.quantity_returned *
    item.unit_price, 0)] *)
Definition financialImpact (returnItems : list ReturnItem) : JsNumber :=
  foldl (λ sum item, plus sum (times (quantity_returned item) (unit_price item)))
        0%float returnItems.

(** [.from('material_returns').insert({...}).select().single()] *)
Definition insert_return (row : MaterialReturn) : Async Store (Reply nat) :=
  remote (λ w,
    (Data (length (material_returns w)),
     {| material_returns := material_returns w ++ [row];
        material_return_items := material_return_items w;
        approval_workflows := approval_workflows w |})).

(** [.from('material_return_items').insert(itemsWithReturnId)] *)
Definition insert_return_items (return_id : nat) (items : list ReturnItem)
    : Async Store (Reply unit) :=
  remote (λ w,
    (Data tt,
     {| material_returns := material_returns w;
        material_return_items :=
          material_return_items w ++ List.map (λ item, (return_id, item)) items;
        approval_workflows := approval_workflows w |})).

(** [.from('approval_workflows').insert({...})] *)
Definition insert_workflow (row : ApprovalWorkflow) : Async Store (Reply unit) :=
  remote (λ w,
    (Data tt,
     {| material_returns := material_returns w;
        material_return_items := material_return_items w;
        approval_workflows := approval_workflows w ++ [row] |})).

(** [handleSubmit] of the page, for the signed-in [user].  The answer of
    the workflow insert is not looked at. *)
Definition handleSubmit (user : option string) (formData : FormData)
    (returnItems : list ReturnItem) : Async Store Alert :=
  if negb (truthy (customer_id formData))
     || negb (truthy (return_reason formData))
     || (length returnItems =? 0)%nat
  then ret pleaseCompleteAllFields
  else
  try_catch
    (let* returnData :=
       insert_return {| ret_formData := formData; ret_created_by := user |} in
     match returnData with
     | Error returnError => throw returnError
     | Data return_id =>
         let itemsWithReturnId := returnItems in
         let* inserted := insert_return_items return_id itemsWithReturnId in
         match inserted with
         | Error itemsError => throw itemsError
         | Data _ =>
             let financialImpact := financialImpact returnItems in
             let* _ :=
               if at_least financialImpact 500
               then let* _ := insert_workflow
                                {| transaction_type := "material_return";
                                   transaction_id := return_id;
                                   requested_by := user;
                                   wf_amount := financialImpact;
                                   wf_status := "pending" |} in
                    ret tt
               else ret tt in
             ret returnCreatedSuccessfully
         end
     end)
    (λ message, ret (Failed message)).

(** [addReturnItem] *)
Definition addReturnItem (returnItems : list ReturnItem) : list ReturnItem :=
  returnItems ++ [{| product_id := ""; batch_id := ""; quantity_returned := 0%float;
                     unit_price := 0%float; condition := "good";
                     disposition := "pending" |}].

(** [removeReturnItem(index)] *)
Definition removeReturnItem (index : nat) (returnItems : list ReturnItem)
    : list ReturnItem :=
  delete index returnItems.

(** *** Sample data *)

Definition sample_form : FormData :=
  {| customer_id := "cust-1"; original_dc_id := ""; original_invoice_id := "";
     return_date := "2025-06-10"; return_type := "quality_issue";
     return_reason := "Damaged drums"; notes := ""; restocked := false |}.

Definition sample_line (returned price : JsNumber) : ReturnItem :=
  {| product_id := "P"; batch_id := "A"; quantity_returned := returned;
     unit_price := price; condition := "damaged"; disposition := "pending" |}.
Arguments sample_line returned%_float price%_float.

Definition empty_store : Store :=
  {| material_returns := []; material_return_items := []; approval_workflows := [] |}.

End MaterialReturns2.

(** ** The products page *)

Module Products.

(** The backend as [handleDelete] sees it.  Of each table only the columns
    the handler filters on are kept: a product is its key, a batch is its
    key and its product, a row of the other tables is the product or the
    batch it points to. *)
Record Store := {
  products : gset string;
  sales_invoice_items : list string;
  delivery_challan_items : list string;
  batches : gmap string string;
  batch_documents : list string;
  inventory_transactions : list (option string * option string);
  finance_expenses : list (option string);
  product_files : list string;
}.

Definition truthy (s : string) : bool := negb (String.eqb s "").

Definition is_string (s : string) (column : option string) : bool :=
  match column with
  | Some x => String.eqb x s
  | None => false
  end.

(** [.from('sales_invoice_items').select('id').eq('product_id', id).limit(1)] *)
Definition select_sales_items (product : string) : Async Store (Reply (list string)) :=
  remote (λ w,
    (Data (take 1 (List.filter (String.eqb product) (sales_invoice_items w))), w)).

(** [.from('delivery_challan_items').select('id').eq('product_id', id).limit(1)] *)
Definition select_challan_items (product : string) : Async Store (Reply (list string)) :=
  remote (λ w,
    (Data (take 1 (List.filter (String.eqb product) (delivery_challan_items w))), w)).

(** The keys of the batches of a product. *)
Definition batches_of (product : string) (w : Store) : list string :=
  List.map fst
    (List.filter (λ row, String.eqb row.2 product) (map_to_list (batches w))).

(** [.from('batches').select('id, batch_number').eq('product_id', id)] *)
Definition select_batches (product : string) : Async Store (Reply (list string)) :=
  remote (λ w, (Data (batches_of product w), w)).

(** [.from('batch_documents').delete().eq('batch_id', batch.id)] *)
Definition delete_batch_documents (batch : string) : Async Store (Reply unit) :=
  remote (λ w,
    (Data tt,
     {| products := products w;
        sales_invoice_items := sales_invoice_items w;
        delivery_challan_items := delivery_challan_items w;
        batches := batches w;
        batch_documents :=
          List.filter (λ b, negb (String.eqb b batch)) (batch_documents w);
        inventory_transactions := inventory_transactions w;
        finance_expenses := finance_expenses w;
        product_files := product_files w |})).

(** [.from('inventory_transactions').delete().eq('batch_id', batch.id)] *)
Definition delete_batch_transactions (batch : string) : Async Store (Reply unit) :=
  remote (λ w,
    (Data tt,
     {| products := products w;
        sales_invoice_items := sales_invoice_items w;
        delivery_challan_items := delivery_challan_items w;
        batches := batches w;
        batch_documents := batch_documents w;
        inventory_transactions :=
          List.filter (λ row, negb (is_string batch row.1)) (inventory_transactions w);
        finance_expenses := finance_expenses w;
        product_files := product_files w |})).

(** [.from('finance_expenses').delete().eq('batch_id', batch.id)] *)
Definition delete_batch_expenses (batch : string) : Async Store (Reply unit) :=
  remote (λ w,
    (Data tt,
     {| products := products w;
        sales_invoice_items := sales_invoice_items w;
        delivery_challan_items := delivery_challan_items w;
        batches := batches w;
        batch_documents := batch_documents w;
        inventory_transactions := inventory_transactions w;
        finance_expenses :=
          List.filter (λ b, negb (is_string batch b)) (finance_expenses w);
        product_files := product_files w |})).

(** [.from('batches').delete().eq('product_id', product.id)] *)
Definition delete_batches (product : string) : Async Store (Reply unit) :=
  remote (λ w,
    (Data tt,
     {| products := products w;
        sales_invoice_items := sales_invoice_items w;
        delivery_challan_items := delivery_challan_items w;
        batches := filter (λ row, row.2 ≠ product) (batches w);
        batch_documents := batch_documents w;
        inventory_transactions := inventory_transactions w;
        finance_expenses := finance_expenses w;
        product_files := product_files w |})).

(** [.from('inventory_transactions').delete().eq('product_id', product.id)] *)
Definition delete_product_transactions (product : string) : Async Store (Reply unit) :=
  remote (λ w,
    (Data tt,
     {| products := products w;
        sales_invoice_items := sales_invoice_items w;
        delivery_challan_items := delivery_challan_items w;
        batches := batches w;
        batch_documents := batch_documents w;
        inventory_transactions :=
          List.filter (λ row, negb (is_string product row.2)) (inventory_transactions w);
        finance_expenses := finance_expenses w;
        product_files := product_files w |})).

(** [.from('product_files').delete().eq('product_id', product.id)] *)
Definition delete_product_files (product : string) : Async Store (Reply unit) :=
  remote (λ w,
    (Data tt,
     {| products := products w;
        sales_invoice_items := sales_invoice_items w;
        delivery_challan_items := delivery_challan_items w;
        batches := batches w;
        batch_documents := batch_documents w;
        inventory_transactions := inventory_transactions w;
        finance_expenses := finance_expenses w;
        product_files := List.filter (λ p, negb (String.eqb p product)) (product_files w) |})).

(** [.from('products').delete().eq('id', product.id)] *)
Definition delete_product (product : string) : Async Store (Reply unit) :=
  remote (λ w,
    (Data tt,
     {| products := products w ∖ {[product]};
        sales_invoice_items := sales_invoice_items w;
        delivery_challan_items := delivery_challan_items w;
        batches := batches w;
        batch_documents := batch_documents w;
        inventory_transactions := inventory_transactions w;
        finance_expenses := finance_expenses w;
        product_files := product_files w |})).

(** The double quote and the line feed of the alert texts. *)
Definition quote : string := String "034"%char "".
Definition line_feed : string := String "010"%char "".

Definition used_in_invoices : string :=
  "Cannot delete this product. It has been used in sales invoices. Please use the "
  +:+ quote +:+ "Deactivate" +:+ quote
  +:+ " option instead or contact your administrator.".

Definition used_in_challans : string :=
  "Cannot delete this product. It has been used in delivery challans. Please use the "
  +:+ quote +:+ "Deactivate" +:+ quote +:+ " option instead.".

(** The alert of the [catch]. *)
Definition delete_failure_alert (message : string) : string :=
  let errorMessage := if truthy message then message else "Unknown error occurred" in
  "Failed to delete product: " +:+ errorMessage +:+ line_feed +:+ line_feed
  +:+ "If this product is in use, consider deactivating it instead.".

(** The body of [for (const batch of batches)]: three deletes whose answers
    are not looked at. *)
Definition delete_batch_rows (batch : string) : Async Store unit :=
  let* _ := delete_batch_documents batch in
  let* _ := delete_batch_transactions batch in
  let* _ := delete_batch_expenses batch in
  ret tt.

(** The part of [handleDelete(product)] that follows its two guards:
    the lookup of the batches, the [confirm], whose answer is [confirmed]
    whichever of the two questions is asked, and the deletes.  The lookup
    keeps [data] only, and of the deletes only the last one has its error
    looked at. *)
Definition delete_cascade (confirmed : bool) (product : string)
    : Async Store (option string) :=
  let* batches := select_batches product in
  if negb confirmed then ret None
  else
  let* _ :=
    match batches with
    | Data (batch :: others) =>
        let* _ := for_of (batch :: others) delete_batch_rows in
        let* _ := delete_batches product in
        ret tt
    | _ => ret tt
    end in
  let* _ := delete_product_transactions product in
  let* _ := delete_product_files product in
  let* deleted := delete_product product in
  match deleted with
  | Error error => throw error
  | Data _ => ret (Some "Product deleted successfully")
  end.

(** [handleDelete(product)]: the two guards, each on the [data] of its
    lookup only, so that a lookup that returns an error counts as nothing
    found, then the rest, all in one [try].  The answer is the text of the
    alert shown, if any. *)
Definition handleDelete (confirmed : bool) (product : string)
    : Async Store (option string) :=
  try_catch
    (let* salesItems := select_sales_items product in
     match salesItems with
     | Data (_ :: _) => ret (Some used_in_invoices)
     | _ =>
         let* challanItems := select_challan_items product in
         match challanItems with
         | Data (_ :: _) => ret (Some used_in_challans)
         | _ => delete_cascade confirmed product
         end
     end)
    (λ message, ret (Some (delete_failure_alert message))).

(** *** Vocabulary of the properties *)

(** The rows that belong neither to [product] nor to one of the batches
    [gone] are in [w'] as they are in [w]. *)
Definition kept (product : string) (gone : list string) (w w' : Store) : Prop :=
  sales_invoice_items w' = sales_invoice_items w
  ∧ delivery_challan_items w' = delivery_challan_items w
  ∧ (∀ other, other ≠ product → other ∈ products w' ↔ other ∈ products w)
  ∧ (∀ batch owner, owner ≠ product →
       batches w !! batch = Some owner → batches w' !! batch = Some owner)
  ∧ (∀ file, file ≠ product → file ∈ product_files w → file ∈ product_files w')
  ∧ (∀ batch, batch ∉ gone → batch ∈ batch_documents w → batch ∈ batch_documents w')
  ∧ (∀ expense, (∀ batch, expense = Some batch → batch ∉ gone) →
       expense ∈ finance_expenses w → expense ∈ finance_expenses w')
  ∧ (∀ row, (∀ batch, row.1 = Some batch → batch ∉ gone) →
       row.2 ≠ Some product →
       row ∈ inventory_transactions w → row ∈ inventory_transactions w').

(** The same with the batches of [product] in [w] for [gone]: what does
    not belong to the product or to a batch of it is kept. *)
Definition others_kept (product : string) (w w' : Store) : Prop :=
  kept product (batches_of product w) w w'.

(** No row of a batch of [gone] is left in the three tables the loop
    deletes from. *)
Definition batch_rows_gone (gone : list string) (w : Store) : Prop :=
  ∀ batch, batch ∈ gone →
    (batch ∉ batch_documents w)
    ∧ (Some batch ∉ finance_expenses w)
    ∧ (∀ row, row ∈ inventory_transactions w → row.1 ≠ Some batch).

(** The tables of [w1] once the deletes that come before the delete of the
    product have gone through from [w]: the products and the documents that
    guard them are as in [w], and of the product's batches [gone], its
    files and its transactions nothing is left. *)
Definition cascaded (product : string) (gone : list string) (w w1 : Store) : Prop :=
  products w1 = products w
  ∧ sales_invoice_items w1 = sales_invoice_items w
  ∧ delivery_challan_items w1 = delivery_challan_items w
  ∧ (∀ batch, batches w1 !! batch ≠ Some product)
  ∧ (product ∉ product_files w1)
  ∧ (∀ row, row ∈ inventory_transactions w1 → row.2 ≠ Some product)
  ∧ batch_rows_gone gone w1.

(** The number of backend calls of [delete_cascade] before the product
    itself is deleted: the lookup of the batches, three deletes for each
    batch and one for the batches when there is a batch, and two deletes
    for the product. *)
Definition cascade_calls (gone : list string) : nat :=
  1 + 3 * length gone + (if gone is [] then 0 else 1) + 2.

(** Nothing of [product] is left: not the product, none of its batches,
    none of its files, no transaction of the product. *)
Definition product_gone (product : string) (w : Store) : Prop :=
  (product ∉ products w)
  ∧ (∀ batch, batches w !! batch ≠ Some product)
  ∧ (product ∉ product_files w)
  ∧ (∀ row, row ∈ inventory_transactions w → row.2 ≠ Some product).

(** *** Sample data *)

(** Product P with the batches A and B, a document and an expense of A, an
    opening transaction of B; product Q with batch C. *)
Definition sample_store : Store :=
  {| products := {[ "P"; "Q" ]};
     sales_invoice_items := [];
     delivery_challan_items := [];
     batches := <["A" := "P"]> (<["B" := "P"]> (<["C" := "Q"]> ∅));
     batch_documents := ["A"; "C"];
     inventory_transactions := [(Some "B", Some "P"); (Some "C", Some "Q")];
     finance_expenses := [Some "A"; None];
     product_files := ["P"; "Q"] |}.

End Products.

(** * Properties *)

(** ** The stable sort *)

Section SortFacts.
Context {A : Type} (compareFn : A → A → Z).

Lemma sort_insert_In x y l :
  In y (sort_insert compareFn x l) ↔ y = x ∨ In y l.
Proof.
  induction l as [|z l IH]; simpl.
  - intuition.
  - destruct (compareFn x z <=? 0); simpl; rewrite ?IH; intuition.
Qed.

Lemma sort_In y l : In y (sort compareFn l) ↔ In y l.
Proof.
  induction l as [|x l IH]; simpl; [tauto|].
  rewrite sort_insert_In, IH. intuition.
Qed.

Lemma head_sort_insert x l :
  head (sort_insert compareFn x l) =
  match head l with
  | None => Some x
  | Some y => if compareFn x y <=? 0 then Some x else Some y
  end.
Proof. destruct l as [|y l]; simpl; [done|]. by destruct (compareFn x y <=? 0). Qed.

Lemma head_sort_None l : head (sort compareFn l) = None → l = [].
Proof.
  destruct l as [|x l]; [done|]. simpl. rewrite head_sort_insert.
  destruct (head (sort compareFn l)); [|done].
  by destruct (compareFn x a <=? 0).
Qed.

(** With a comparator that subtracts keys, the first element of the sorted
    array is an element of the array with the least key. *)
Lemma head_sort_least (key : A → Z) l x :
  (∀ a b, compareFn a b = key a - key b) →
  head (sort compareFn l) = Some x →
  In x l ∧ ∀ y, In y l → key x ≤ key y.
Proof.
  intros Hcmp. revert x. induction l as [|z l IH]; intros x; simpl; [done|].
  rewrite head_sort_insert.
  destruct (head (sort compareFn l)) as [h|] eqn:Hh.
  - destruct (IH h eq_refl) as [Hin Hmin].
    destruct (compareFn z h <=? 0) eqn:Hle; intros [= <-].
    + apply Z.leb_le in Hle. rewrite Hcmp in Hle. split; [by left|].
      intros y [<-|Hy]; [lia|]. specialize (Hmin y Hy). lia.
    + apply Z.leb_gt in Hle. rewrite Hcmp in Hle. split; [by right|].
      intros y [<-|Hy]; [lia|]. by apply Hmin.
  - intros [= <-]. apply head_sort_None in Hh as ->. split; [by left|].
    intros y [<-|[]]. lia.
Qed.
End SortFacts.

(** ** FIFO batch selection *)

Module FIFOAllocator.
Import DeliveryChallan.

Lemma query_batches_In (table : gmap string BatchRow) b :
  In b (query_batches table) ↔
  ∃ key r, table !! key = Some r ∧ b = select_batch key r
           ∧ row_is_active r = true ∧ 0 < row_current_stock r.
Proof.
  unfold query_batches. rewrite sort_In, filter_In, in_map_iff. split.
  - intros [[[key r] [<- Hin]] Hstock]. apply filter_In in Hin as [Hin Hact].
    apply list_elem_of_In, elem_of_map_to_list in Hin. simpl in *.
    exists key, r. repeat split; try done. by apply Z.ltb_lt in Hstock.
  - intros (key & r & Hlook & -> & Hact & Hstock). split.
    + exists (key, r). split; [done|]. apply filter_In. split; [|done].
      by apply list_elem_of_In, elem_of_map_to_list.
    + by apply Z.ltb_lt.
Qed.

(** C1 (as the code has it): over the batches loaded from any table, the
    FIFO selection for a product returns a loaded batch of that product
    that is active, has current_stock above zero and is not expired, and
    whose import date (a missing one counting as the epoch) is the earliest
    among all such batches; it returns none exactly when the table has no
    such batch.  Reserved stock plays no part. *)
Theorem getFIFOBatch_earliest_eligible (now : Z) (table : gmap string BatchRow)
    (productId : string) :
  match getFIFOBatch now (loadBatches (Data table) []) productId with
  | Some b =>
      (∃ r, table !! id b = Some r ∧ b = select_batch (id b) r
            ∧ eligible now productId r = true)
      ∧ ∀ key r, table !! key = Some r → eligible now productId r = true →
                 import_time b ≤ import_time (select_batch key r)
  | None => ∀ key r, table !! key = Some r → eligible now productId r = false
  end.
Proof.
  unfold getFIFOBatch, loadBatches.
  set (keep := λ b : Batch, String.eqb (product_id b) productId
                            && negb (isExpired now (expiry_date b))).
  set (cmp := λ a b : Batch, import_time a - import_time b).
  assert (Hel : ∀ key r, table !! key = Some r → eligible now productId r = true →
                         In (select_batch key r) (List.filter keep (query_batches table))).
  { intros key r Hlook Hel. unfold eligible in Hel.
    apply andb_prop in Hel as [Hel Hexp]. apply andb_prop in Hel as [Hel Hprod].
    apply andb_prop in Hel as [Hact Hstock]. apply Z.ltb_lt in Hstock.
    apply filter_In. split.
    - apply query_batches_In. by exists key, r.
    - unfold keep. simpl. by rewrite Hprod, Hexp. }
  destruct (head (sort cmp (List.filter keep (query_batches table)))) as [b|] eqn:Hhead.
  - apply (head_sort_least cmp import_time) in Hhead as [Hin Hmin]; [|done].
    apply filter_In in Hin as [Hin Hkeep].
    apply query_batches_In in Hin as (key & r & Hlook & -> & Hact & Hstock).
    split.
    + exists r. simpl. repeat split; try done. unfold eligible.
      unfold keep in Hkeep. simpl in Hkeep.
      apply andb_prop in Hkeep as [-> ->].
      rewrite Hact. by apply Z.ltb_lt in Hstock as ->.
    + intros key' r' Hlook' Hel'. apply Hmin. by apply Hel.
  - apply head_sort_None in Hhead. intros key r Hlook.
    destruct (eligible now productId r) eqn:Helig; [|done].
    specialize (Hel key r Hlook Helig). rewrite Hhead in Hel. destruct Hel.
Qed.

(** C1 (as stated) fails: batch A is fully reserved, so only batch B has
    available stock above zero; the selection still returns A, the older
    batch. *)
Lemma getFIFOBatch_ignores_reserved_stock :
  let rowA := {| row_batch_number := "A-001"; row_product_id := "P";
                 row_current_stock := 10; row_reserved_stock := 10;
                 row_expiry_date := None; row_packaging_details := None;
                 row_import_date := Some 1000; row_is_active := true |} in
  let rowB := {| row_batch_number := "B-001"; row_product_id := "P";
                 row_current_stock := 50; row_reserved_stock := 0;
                 row_expiry_date := None; row_packaging_details := None;
                 row_import_date := Some 2000; row_is_active := true |} in
  let table : gmap string BatchRow := <["a" := rowA]> (<["b" := rowB]> ∅) in
  available_stock rowA = 0
  ∧ 0 < available_stock rowB
  ∧ getFIFOBatch 1500 (loadBatches (Data table) []) "P" = Some (select_batch "a" rowA).
Proof. vm_compute. repeat split. Qed.


(** The selection over the sample store: a batch is found, and it is not
    younger than batch B. *)
Lemma getFIFOBatch_earliest_eligible_witness :
  let table := batches sample_store in
  ∃ b, getFIFOBatch 1500 (loadBatches (Data table) []) "P" = Some b
       ∧ import_time b ≤ import_time (select_batch "B" (sample_batch 100 0 2000)).
Proof.
  intros table.
  pose proof (getFIFOBatch_earliest_eligible 1500 table "P") as H.
  destruct (getFIFOBatch 1500 (loadBatches (Data table) []) "P") as [b|].
  - exists b. split; [reflexivity|].
    exact (proj2 H "B" (sample_batch 100 0 2000) eq_refl eq_refl).
  - discriminate (H "B" (sample_batch 100 0 2000) eq_refl).
Defined.
End FIFOAllocator.

(** ** Remote calls that go through *)

Section RemoteFacts.
Context {W : Type}.

Lemma remote_all_succeed {A} (effect : W → Reply A * W) (s : Sys W) :
  all_succeed s →
  ∃ rest, remote effect s
          = (Returned (effect (store s)).1, mkSys (effect (store s)).2 rest)
          ∧ all_succeed (mkSys (effect (store s)).2 rest).
Proof.
  unfold all_succeed, remote. intros Hall.
  destruct (script s) as [|o rest] eqn:Hs.
  - exists []. destruct (effect (store s)). simpl. split; [done|constructor].
  - inversion Hall as [|? ? -> Hrest]; subst. exists rest.
    destruct (effect (store s)). simpl. by split.
Qed.

Lemma bind_unfold {A B} (m : Async W A) (k : A → Async W B) (s : Sys W) :
  bind m k s = match m s with
               | (Returned a, s') => k a s'
               | (Thrown e, s') => (Thrown e, s')
               end.
Proof. reflexivity. Qed.

Lemma remote_no_rejection {A} (effect : W → Reply A * W) (s : Sys W) :
  no_rejection s →
  ∃ r s', remote effect s = (Returned r, s') ∧ no_rejection s'.
Proof.
  unfold no_rejection, remote. intros Hno.
  destruct (script s) as [|o rest] eqn:Hs.
  - destruct (effect (store s)) as [r w]. exists r, (mkSys w []). split; [done|constructor].
  - inversion Hno as [|? ? Ho Hrest]; subst.
    destruct o as [|m|m]; [| |done].
    + destruct (effect (store s)) as [r w]. by exists r, (mkSys w rest).
    + by exists (Error m), (mkSys (store s) rest).
Qed.

Lemma all_succeed_no_rejection (s : Sys W) : all_succeed s → no_rejection s.
Proof.
  unfold all_succeed, no_rejection. intros Hall.
  eapply Forall_impl; [exact Hall|]. by intros o ->.
Qed.

(** The three ways a remote call ends. *)
Lemma remote_cases {A} (effect : W → Reply A * W) (s : Sys W) :
  (∃ rest, remote effect s
           = (Returned (effect (store s)).1, mkSys (effect (store s)).2 rest))
  ∨ (∃ m rest, remote effect s = (Returned (Error m), mkSys (store s) rest))
  ∨ (∃ m rest, remote effect s = (Thrown m, mkSys (store s) rest)).
Proof.
  unfold remote. destruct (script s) as [|[|m|m] rest].
  - left. exists []. by destruct (effect (store s)).
  - left. exists rest. by destruct (effect (store s)).
  - right. left. by exists m, rest.
  - right. right. by exists m, rest.
Qed.

Lemma all_succeed_nil (w : W) : all_succeed (mkSys w []).
Proof. constructor. Qed.
End RemoteFacts.

(** ** Remote calls with the outcome at hand *)

Section RemoteScripted.
Context {W : Type}.

Lemma remote_Succeeds {A} (effect : W → Reply A * W) (w : W) rest :
  remote effect (mkSys w (Succeeds :: rest))
  = (Returned (effect w).1, mkSys (effect w).2 rest).
Proof. unfold remote. simpl. by destruct (effect w). Qed.

Lemma remote_ReturnsError {A} (effect : W → Reply A * W) (w : W) m rest :
  remote effect (mkSys w (ReturnsError m :: rest))
  = (Returned (Error m), mkSys w rest).
Proof. done. Qed.

Lemma remote_Rejects {A} (effect : W → Reply A * W) (w : W) m rest :
  remote effect (mkSys w (Rejects m :: rest)) = (Thrown m, mkSys w rest).
Proof. done. Qed.

Lemma remote_nil {A} (effect : W → Reply A * W) (w : W) :
  remote effect (mkSys w []) = (Returned (effect w).1, mkSys (effect w).2 []).
Proof. unfold remote. simpl. by destruct (effect w). Qed.
End RemoteScripted.

(** ** What a piece of asynchronous code leaves in place *)

Section Preservation.
Context {W : Type} (R : W → W → Prop) `{!Reflexive R, !Transitive R}.

Lemma preserves_ret {A} (a : A) : preserves R (ret a).
Proof. intros s. simpl. reflexivity. Qed.

Lemma preserves_throw {A} message : preserves R (throw (A:=A) message).
Proof. intros s. simpl. reflexivity. Qed.

Lemma preserves_bind {A B} (m : Async W A) (k : A → Async W B) :
  preserves R m → (∀ a, preserves R (k a)) → preserves R (bind m k).
Proof.
  intros Hm Hk s. unfold bind. specialize (Hm s).
  destruct (m s) as [[a|e] s']; simpl in *; [|done].
  etransitivity; [exact Hm|apply Hk].
Qed.

Lemma preserves_try_catch {A} (body : Async W A) handler :
  preserves R body → (∀ e, preserves R (handler e)) → preserves R (try_catch body handler).
Proof.
  intros Hm Hk s. unfold try_catch. specialize (Hm s).
  destruct (body s) as [[a|e] s']; simpl in *; [done|].
  etransitivity; [exact Hm|apply Hk].
Qed.

Lemma preserves_remote {A} (effect : W → Reply A * W) :
  (∀ w, R w (effect w).2) → preserves R (remote effect).
Proof.
  intros He s. unfold remote. specialize (He (store s)).
  destruct (script s) as [|[| |] rest]; destruct (effect (store s));
    simpl in *; done.
Qed.

Lemma preserves_for_of {A} (xs : list A) body :
  (∀ x, preserves R (body x)) → preserves R (for_of xs body).
Proof.
  intros Hb. induction xs as [|x xs IH]; simpl.
  - apply preserves_ret.
  - apply preserves_bind; [apply Hb|]. intros _. apply IH.
Qed.
End Preservation.

(** Splits a handler along its binds, catches and loops, leaving one goal
    for each remote call. *)
Ltac preserve_step :=
  match goal with
  | |- Reflexive _ => assumption
  | |- Transitive _ => assumption
  | |- ∀ _, _ => intro
  | |- preserves _ (ret _) => apply preserves_ret
  | |- preserves _ (throw _) => apply preserves_throw
  | |- preserves _ (bind _ _) => apply preserves_bind
  | |- preserves _ (try_catch _ _) => apply preserves_try_catch
  | |- preserves _ (for_of _ _) => apply preserves_for_of
  | |- preserves _ (match ?x with _ => _ end) => destruct x
  end.

(** Runs the next remote call of the goal in each of the three ways it can
    end. *)
Ltac remote_step :=
  rewrite ?bind_unfold;
  match goal with
  | |- context [remote ?e ?s] =>
      let rest := fresh "rest" in
      let m := fresh "m" in
      destruct (remote_cases e s) as [(rest & ->)|[(m & rest & ->)|(m & rest & ->)]]
  end; simpl.

(** ** Dispatch reconciliation *)

Module DispatchReconciler.
Import DeliveryChallan.

Lemma add_stock_0 r : add_stock 0 r = r.
Proof. destruct r. unfold add_stock, set_current_stock. simpl. f_equal. lia. Qed.

Lemma add_stock_add q1 q2 r : add_stock q2 (add_stock q1 r) = add_stock (q1 + q2) r.
Proof. unfold add_stock, set_current_stock. simpl. f_equal. lia. Qed.

Lemma net_adjustment_app b l1 l2 :
  net_adjustment b (l1 ++ l2) = net_adjustment b l1 + net_adjustment b l2.
Proof.
  induction l1 as [|a l1 IH]; simpl; [done|].
  destruct (decide (adj_batch_id a = b)); lia.
Qed.

Lemma net_adjustment_insert b adjs i e e' :
  adjs !! i = Some e →
  adj_batch_id e' = adj_batch_id e →
  net_adjustment b (<[i := e']> adjs)
  = net_adjustment b adjs
    + (if decide (adj_batch_id e = b) then adjustment e' - adjustment e else 0).
Proof.
  intros Hi Hid. revert i Hi. induction adjs as [|a adjs IH]; intros [|i] Hi; try done.
  - injection Hi as ->. simpl. rewrite Hid.
    destruct (decide (adj_batch_id e = b)); lia.
  - simpl in *. rewrite (IH i Hi).
    destruct (decide (adj_batch_id a = b)); lia.
Qed.

Lemma net_adjustment_subtract b adjs item :
  net_adjustment b (subtract_new_item adjs item)
  = net_adjustment b adjs - (if decide (batch_id item = b) then quantity item else 0).
Proof.
  unfold subtract_new_item.
  destruct (list_find _ adjs) as [[i e]|] eqn:Hfind.
  - apply list_find_Some in Hfind as (Hi & Hid & _).
    rewrite (net_adjustment_insert b adjs i e); [|done|done].
    simpl. rewrite Hid. destruct (decide (batch_id item = b)); lia.
  - rewrite net_adjustment_app. simpl.
    destruct (decide (batch_id item = b)); lia.
Qed.

Lemma net_adjustment_foldl b items adjs :
  net_adjustment b (foldl subtract_new_item adjs items)
  = net_adjustment b adjs - line_quantity b items.
Proof.
  revert adjs. induction items as [|item items IH]; intros adjs; simpl; [lia|].
  rewrite IH, net_adjustment_subtract.
  destruct (decide (batch_id item = b)); lia.
Qed.

Lemma net_adjustment_originals b originalItems :
  net_adjustment b
    (List.map (λ originalItem, {| adj_batch_id := batch_id originalItem;
                                  adjustment := quantity originalItem |})
              originalItems)
  = line_quantity b originalItems.
Proof.
  induction originalItems as [|item items IH]; simpl; [done|].
  destruct (decide (batch_id item = b)); lia.
Qed.

(** The entries of a batch add up to what the claim calls its net
    adjustment. *)
Lemma net_adjustment_compute b originalItems items :
  net_adjustment b (compute_stockAdjustments originalItems items)
  = line_quantity b originalItems - line_quantity b items.
Proof.
  unfold compute_stockAdjustments.
  by rewrite net_adjustment_foldl, net_adjustment_originals.
Qed.

Lemma adjusted_lookup adjs m b :
  adjusted adjs m !! b = add_stock (net_adjustment b adjs) <$> m !! b.
Proof.
  revert m. induction adjs as [|a adjs IH]; intros m; simpl.
  - destruct (m !! b) as [r|]; simpl; [|done]. by rewrite add_stock_0.
  - fold (adjusted adjs). rewrite IH.
    destruct (Z.eqb_spec (adjustment a) 0) as [Hz|Hz].
    + destruct (decide (adj_batch_id a = b)); [|done].
      rewrite Hz. by rewrite Z.add_0_l.
    + destruct (decide (adj_batch_id a = b)) as [<-|Hne].
      * rewrite lookup_alter_eq. destruct (m !! adj_batch_id a) as [r|]; simpl; [|done].
        by rewrite add_stock_add.
      * by rewrite lookup_alter_ne.
Qed.

Lemma apply_stockAdjustment_all_succeed adj (s : Sys Store) :
  all_succeed s →
  ∃ s', apply_stockAdjustment adj s = (Returned tt, s')
        ∧ all_succeed s'
        ∧ batches (store s') = adjusted [adj] (batches (store s))
        ∧ same_documents (store s) (store s').
Proof.
  intros Hall. unfold apply_stockAdjustment. simpl.
  destruct (adjustment adj =? 0).
  - exists s. repeat split; done.
  - unfold bind, update_batch_stock.
    destruct (remote_all_succeed
                (λ w, (Data tt,
                       with_batches
                         (alter (λ r, set_current_stock
                                        (row_current_stock r + adjustment adj) r)
                                (adj_batch_id adj)) w)) s Hall)
      as (rest & -> & Hrest).
    simpl. eexists. repeat split; done.
Qed.

Lemma apply_all_succeed adjs (s : Sys Store) :
  all_succeed s →
  ∃ s', for_of adjs apply_stockAdjustment s = (Returned tt, s')
        ∧ all_succeed s'
        ∧ batches (store s') = adjusted adjs (batches (store s))
        ∧ same_documents (store s) (store s').
Proof.
  revert s. induction adjs as [|adj adjs IH]; intros s Hall; simpl.
  - exists s. repeat split; done.
  - destruct (apply_stockAdjustment_all_succeed adj s Hall)
      as (s1 & Heq1 & Hall1 & Hb1 & Hd1).
    destruct (IH s1 Hall1) as (s2 & Heq2 & Hall2 & Hb2 & Hd2).
    exists s2. unfold bind. rewrite Heq1, Heq2. split; [done|]. split; [done|].
    split.
    + rewrite Hb2, Hb1. done.
    + destruct Hd1 as (?&?&?&?&?), Hd2 as (?&?&?&?&?).
      repeat split; congruence.
Qed.

Lemma validation_passes items :
  Forall (λ item, valid_item item = true) items →
  List.filter (λ item, negb (truthy (item_product_id item))
                       || negb (truthy (batch_id item))
                       || (quantity item <=? 0)) items = []
  ∧ List.filter (λ item, String.eqb (batch_id item) "") items = [].
Proof.
  induction 1 as [|item items Hv _ [IH1 IH2]]; simpl; [done|].
  unfold valid_item in Hv.
  apply andb_prop in Hv as [Hv Hq]. apply andb_prop in Hv as [Hp Hb].
  rewrite Hp, Hb, IH1, IH2. apply Z.ltb_lt in Hq.
  destruct (Z.leb_spec (quantity item) 0) as [?|_]; [lia|].
  unfold truthy in Hb. destruct (String.eqb (batch_id item) ""); done.
Qed.

(** The writes that follow the adjustment loop never touch [batches]. *)
Lemma document_writes_keep_batches editingChallan formData user_id items :
  preserves (λ w w', batches w' = batches w)
    (let* updatedChallan := update_challan editingChallan formData user_id in
     match updatedChallan with
     | Error updateError => throw updateError
     | Data challanId =>
         let* deleteItems := delete_challan_items editingChallan in
         match deleteItems with
         | Error deleteItemsError => throw deleteItemsError
         | Data _ =>
             let* inserted := insert_challan_items challanId items in
             match inserted with
             | Error itemsError => throw itemsError
             | Data _ => ret (Some "Delivery Challan updated successfully!")
             end
         end
     end).
Proof.
  assert (Reflexive (λ w w' : Store, batches w' = batches w)) by (intros ?; done).
  assert (Transitive (λ w w' : Store, batches w' = batches w))
    by (intros ? ? ? ? ?; congruence).
  repeat preserve_step; apply preserves_remote; intros w; simpl; try done.
  by destruct (delivery_challans w !! editingChallan).
Qed.

(** Saving an edit when every remote call goes through: the stock of each
    batch moves by the entries of the batch in [stockAdjustments]. *)
Lemma handleSubmit_editing_batches editingChallan originalItems formData items
    user_id (s : Sys Store) :
  Forall (λ item, valid_item item = true) items →
  auth_user (store s) = Some user_id →
  all_succeed s →
  batches (store (handleSubmit_editing editingChallan originalItems formData items s).2)
  = adjusted (compute_stockAdjustments originalItems items) (batches (store s)).
Proof.
  intros Hvalid Hauth Hall. unfold handleSubmit_editing.
  destruct (validation_passes items Hvalid) as [-> ->]. simpl.
  unfold try_catch, bind at 1, getUser.
  destruct (remote_all_succeed (λ w : Store, (Data (auth_user w), w)) s Hall)
    as (rest & -> & Hrest).
  simpl in *. rewrite Hauth. unfold bind at 1.
  destruct (apply_all_succeed (compute_stockAdjustments originalItems items) _ Hrest)
    as (s1 & -> & Hall1 & Hb1 & _).
  simpl in Hb1. rewrite <- Hb1.
  pose proof (document_writes_keep_batches editingChallan formData user_id items s1) as Hk.
  simpl in Hk.
  match goal with |- context [match ?m with _ => _ end] => destruct m as [[a|e] s2] end;
    simpl in *; done.
Qed.

(** Without the assumption that the form is valid or the user signed in:
    the stock either stays or moves as above. *)
Lemma handleSubmit_editing_batches_cases editingChallan originalItems formData
    items (s : Sys Store) :
  all_succeed s →
  batches (store (handleSubmit_editing editingChallan originalItems formData items s).2)
  = batches (store s)
  ∨ batches (store (handleSubmit_editing editingChallan originalItems formData items s).2)
    = adjusted (compute_stockAdjustments originalItems items) (batches (store s)).
Proof.
  intros Hall. unfold handleSubmit_editing.
  destruct (0 <? length _)%nat; [by left|].
  destruct (0 <? length _)%nat; [by left|].
  unfold try_catch, getUser. rewrite bind_unfold.
  destruct (remote_all_succeed (λ w : Store, (Data (auth_user w), w)) s Hall)
    as (rest & -> & Hrest).
  simpl in *. destruct (auth_user (store s)) as [user_id|]; [|by left].
  right. rewrite bind_unfold.
  destruct (apply_all_succeed (compute_stockAdjustments originalItems items) _ Hrest)
    as (s1 & -> & Hall1 & Hb1 & _).
  simpl in Hb1. rewrite <- Hb1.
  pose proof (document_writes_keep_batches editingChallan formData user_id items s1) as Hk.
  simpl in Hk.
  match goal with |- context [match ?m with _ => _ end] => destruct m as [[a|e] s2] end;
    simpl in *; done.
Qed.

Lemma stock_moved_add_stock delta r : stock_moved delta r (add_stock delta r).
Proof. by repeat split. Qed.

(** The loops of the embedding are the loops over any number, read over the
    whole numbers. *)
Lemma compute_stockAdjustments_whole originalItems items :
  (λ adj, (adj_batch_id adj, adjustment adj))
    <$> compute_stockAdjustments originalItems items
  = stockAdjustments_of Z.sub Z.opp (line <$> originalItems) (line <$> items).
Proof.
  unfold compute_stockAdjustments, stockAdjustments_of.
  replace (line <$> originalItems)
    with ((λ adj, (adj_batch_id adj, adjustment adj))
            <$> List.map (λ originalItem,
                            {| adj_batch_id := batch_id originalItem;
                               adjustment := quantity originalItem |})
                         originalItems)
    by (induction originalItems as [|x l IH]; simpl; [done|f_equal; exact IH]).
  generalize (List.map (λ originalItem,
                          {| adj_batch_id := batch_id originalItem;
                             adjustment := quantity originalItem |})
                       originalItems).
  induction items as [|item items IH]; intros adjs; simpl; [done|].
  rewrite IH. f_equal. clear IH.
  unfold subtract_new_item, subtract_new_line. rewrite list_find_fmap. simpl.
  destruct (list_find _ adjs) as [[i e]|] eqn:Hfind; simpl.
  - by rewrite list_fmap_insert.
  - by rewrite fmap_app.
Qed.

(** An entry that is written through the fallback: the stored procedure
    returns an error, the stock is read and the sum is written. *)
Lemma apply_stockAdjustment_fallback adj message (w : Store) tail :
  is_Some (batches w !! adj_batch_id adj) →
  ∃ w', apply_stockAdjustment adj (mkSys w (fallback_outcomes message [adj] ++ tail))
        = (Returned tt, mkSys w' tail)
        ∧ batches w' = adjusted [adj] (batches w)
        ∧ same_documents w w'.
Proof.
  intros [r Hr]. unfold apply_stockAdjustment, fallback_outcomes, adjusted. simpl.
  destruct (adjustment adj =? 0); simpl; [by exists w|].
  unfold update_batch_stock, select_current_stock, update_current_stock.
  rewrite bind_unfold, remote_ReturnsError, bind_unfold, remote_Succeeds.
  cbn [fst snd]. rewrite Hr. cbn [fst snd]. rewrite bind_unfold, remote_Succeeds.
  simpl. eexists. split; [reflexivity|]. split; [|done]. simpl.
  apply map_eq. intros b. destruct (decide (adj_batch_id adj = b)) as [<-|Hne].
  - by rewrite !lookup_alter_eq, Hr.
  - by rewrite !lookup_alter_ne.
Qed.

Lemma adjusted_keeps_rows adjs (m : gmap string BatchRow) b :
  is_Some (m !! b) → is_Some (adjusted adjs m !! b).
Proof. rewrite adjusted_lookup. intros [r ->]. by eexists. Qed.

Lemma apply_all_fallback adjs message (w : Store) tail :
  Forall (λ adj, is_Some (batches w !! adj_batch_id adj)) adjs →
  ∃ w', for_of adjs apply_stockAdjustment (mkSys w (fallback_outcomes message adjs ++ tail))
        = (Returned tt, mkSys w' tail)
        ∧ batches w' = adjusted adjs (batches w)
        ∧ same_documents w w'.
Proof.
  revert w. induction adjs as [|adj adjs IH]; intros w Hrows.
  - by exists w.
  - apply Forall_cons in Hrows as [Hadj Hrows]. cbn [for_of].
    assert (fallback_outcomes message (adj :: adjs)
            = fallback_outcomes message [adj] ++ fallback_outcomes message adjs)
      as -> by (unfold fallback_outcomes; simpl; by rewrite app_nil_r).
    rewrite <- app_assoc.
    destruct (apply_stockAdjustment_fallback adj message w
                (fallback_outcomes message adjs ++ tail) Hadj)
      as (w1 & Heq1 & Hb1 & Hd1).
    rewrite bind_unfold, Heq1.
    destruct (IH w1) as (w2 & Heq2 & Hb2 & Hd2).
    { eapply Forall_impl; [exact Hrows|]. intros a Ha. simpl.
      rewrite Hb1. by apply adjusted_keeps_rows. }
    exists w2. split; [exact Heq2|]. split.
    + rewrite Hb2, Hb1. done.
    + destruct Hd1 as (?&?&?&?&?), Hd2 as (?&?&?&?&?). repeat split; congruence.
Qed.

(** Saving an edit when the stored procedure fails for every entry and the
    fallback goes through: the stock moves as it does through the stored
    procedure. *)
Lemma handleSubmit_editing_batches_fallback editingChallan originalItems formData
    items user_id message (w : Store) rest :
  Forall (λ item, valid_item item = true) items →
  auth_user w = Some user_id →
  Forall (λ adj, is_Some (batches w !! adj_batch_id adj))
    (compute_stockAdjustments originalItems items) →
  batches (store (handleSubmit_editing editingChallan originalItems formData items
                    (mkSys w (Succeeds
                              :: fallback_outcomes message
                                   (compute_stockAdjustments originalItems items)
                                 ++ rest))).2)
  = adjusted (compute_stockAdjustments originalItems items) (batches w).
Proof.
  intros Hvalid Hauth Hrows. unfold handleSubmit_editing.
  destruct (validation_passes items Hvalid) as [-> ->]. simpl.
  unfold try_catch, getUser. rewrite bind_unfold, remote_Succeeds.
  cbn [fst snd]. rewrite Hauth, bind_unfold.
  destruct (apply_all_fallback (compute_stockAdjustments originalItems items)
              message w rest Hrows) as (w1 & -> & Hb1 & _).
  rewrite <- Hb1.
  pose proof (document_writes_keep_batches editingChallan formData user_id items
                (mkSys w1 rest)) as Hk.
  simpl in Hk.
  match goal with |- context [match ?m with _ => _ end] => destruct m as [[a|e] s2] end;
    simpl in *; done.
Qed.

(** C3 (as the code has it): the quantities being whole numbers that the
    page counts exactly, the entries of a batch in the adjustment array add
    up to (the quantities of the batch over the original lines) minus (the
    quantities of the batch over the new lines), and on saving an edit that
    passes validation, with the user signed in, the one loop over the array
    leaves the stock of every batch at its current_stock plus that
    difference, its other columns untouched: through the stored procedure
    when the calls go through, and through the read and the direct write of
    the page when the stored procedure fails for every entry.  From
    [batch A qty 20] to [batch A qty 35] the array is the single entry
    (A, -15), over the whole numbers and over the doubles of the page. *)
Theorem edit_applies_net_adjustment editingChallan originalItems formData items :
  (counted_exactly originalItems items →
   ∀ b, net_adjustment b (compute_stockAdjustments originalItems items)
        = line_quantity b originalItems - line_quantity b items)
  ∧ (∀ user_id (s : Sys Store) b r,
       counted_exactly originalItems items →
       Forall (λ item, valid_item item = true) items →
       auth_user (store s) = Some user_id →
       all_succeed s →
       batches (store s) !! b = Some r →
       ∃ r',
         batches (store (handleSubmit_editing editingChallan originalItems
                           formData items s).2) !! b = Some r'
         ∧ stock_moved (line_quantity b originalItems - line_quantity b items) r r')
  ∧ (∀ user_id (w : Store) message rest b r,
       stock_counted_exactly w originalItems items →
       Forall (λ item, valid_item item = true) items →
       auth_user w = Some user_id →
       Forall (λ adj, is_Some (batches w !! adj_batch_id adj))
         (compute_stockAdjustments originalItems items) →
       batches w !! b = Some r →
       ∃ r',
         batches
           (store (handleSubmit_editing editingChallan originalItems formData items
                     (mkSys w (Succeeds
                               :: fallback_outcomes message
                                    (compute_stockAdjustments originalItems items)
                                  ++ rest))).2) !! b = Some r'
         ∧ stock_moved (line_quantity b originalItems - line_quantity b items) r r')
  ∧ (∀ a20 a35 : ChallanItem,
       batch_id a35 = batch_id a20 → quantity a20 = 20 → quantity a35 = 35 →
       compute_stockAdjustments [a20] [a35]
       = [{| adj_batch_id := batch_id a20; adjustment := -15 |}])
  ∧ (∀ A : string,
       stockAdjustments_of_doubles [(A, 20%float)] [(A, 35%float)]
       = [(A, (-15)%float)]).
Proof.
  split; [|split; [|split; [|split]]].
  - intros _ b. apply net_adjustment_compute.
  - intros user_id s b r _ Hvalid Hauth Hall Hb.
    rewrite (handleSubmit_editing_batches _ _ _ _ user_id); try done.
    rewrite adjusted_lookup, Hb, net_adjustment_compute. simpl.
    eexists. split; [reflexivity|]. apply stock_moved_add_stock.
  - intros user_id w message rest b r _ Hvalid Hauth Hrows Hb.
    rewrite (handleSubmit_editing_batches_fallback _ _ _ _ user_id); try done.
    rewrite adjusted_lookup, Hb, net_adjustment_compute. simpl.
    eexists. split; [reflexivity|]. apply stock_moved_add_stock.
  - intros a20 a35 Hid H20 H35. unfold compute_stockAdjustments. simpl.
    unfold subtract_new_item. simpl. rewrite Hid.
    destruct (decide (batch_id a20 = batch_id a20)); [|done].
    simpl. rewrite H20, H35. done.
  - intros A. unfold stockAdjustments_of_doubles, stockAdjustments_of,
      subtract_new_line. simpl.
    destruct (decide (A = A)); [|done]. simpl. done.
Qed.

(** C3 (as stated) fails for quantities with decimals, which the page
    subtracts one by one as doubles.  An edit from [batch A qty 0.3] to
    [batch A qty 0.1, batch A qty 0.2] has the same quantity on batch A
    before and after; the entry of the array is 0.3 - 0.1 - 0.2, which is
    neither zero, so that it is written to the stock, nor the difference
    of the two sums as doubles. *)
Lemma decimal_edit_is_not_the_difference :
  let originalItems := [("A", 0.3%float)] in
  let items := [("A", 0.1%float); ("A", 0.2%float)] in
  stockAdjustments_of_doubles originalItems items
  = [("A", (0.3 - 0.1 - 0.2)%float)]
  ∧ is_written (0.3 - 0.1 - 0.2)%float = true
  ∧ PrimFloat.eqb (0.3 - 0.1 - 0.2)%float (0.3 - (0.1 + 0.2))%float = false.
Proof. vm_compute. done. Qed.

Lemma for_of_zero adjs (s : Sys Store) :
  Forall (λ adj, adjustment adj = 0) adjs →
  for_of adjs apply_stockAdjustment s = (Returned tt, s).
Proof.
  induction 1 as [|adj adjs Hadj _ IH]; simpl; [done|].
  rewrite bind_unfold. unfold apply_stockAdjustment at 1. rewrite Hadj. simpl.
  exact IH.
Qed.

(** The array of a no-op edit whose lines are on different batches, the
    lines before [todo] being subtracted already. *)
Lemma noop_entries_zero (done todo : list ChallanItem) :
  NoDup (batch_id <$> (done ++ todo)) →
  foldl subtract_new_item
    (((λ item, {| adj_batch_id := batch_id item; adjustment := 0 |}) <$> done)
     ++ ((λ item, {| adj_batch_id := batch_id item; adjustment := quantity item |})
           <$> todo))
    todo
  = (λ item, {| adj_batch_id := batch_id item; adjustment := 0 |}) <$> (done ++ todo).
Proof.
  set (zero := λ item : ChallanItem,
                 {| adj_batch_id := batch_id item; adjustment := 0 |}).
  set (entry := λ item : ChallanItem,
                  {| adj_batch_id := batch_id item; adjustment := quantity item |}).
  revert done. induction todo as [|x todo IH]; intros done Hnodup.
  - simpl. by rewrite !app_nil_r.
  - rewrite fmap_cons. cbn [foldl].
    assert (Hfind : list_find (λ adj, adj_batch_id adj = batch_id x)
                      ((zero <$> done) ++ entry x :: (entry <$> todo))
                    = Some (length done, entry x)).
    { apply list_find_Some. split; [|split; [done|]].
      - rewrite lookup_app_r by (by rewrite length_fmap).
        by rewrite length_fmap, Nat.sub_diag.
      - intros j y Hj Hlt. rewrite lookup_app_l in Hj by (by rewrite length_fmap).
        apply list_lookup_fmap_Some in Hj as (item & -> & Hitem). simpl.
        intros Heq. rewrite fmap_app, fmap_cons in Hnodup.
        apply NoDup_app in Hnodup as (_ & Hdisjoint & _).
        apply (Hdisjoint (batch_id item)).
        + apply list_elem_of_fmap. exists item. split; [done|].
          by eapply list_elem_of_lookup_2.
        + rewrite Heq. by left. }
    unfold subtract_new_item at 2. rewrite Hfind. cbn [adj_batch_id adjustment entry].
    rewrite insert_app_r_alt by (by rewrite length_fmap).
    rewrite length_fmap, Nat.sub_diag. cbn [insert list_insert].
    rewrite Z.sub_diag.
    replace (done ++ x :: todo) with ((done ++ [x]) ++ todo) in *
      by (by rewrite <- app_assoc).
    specialize (IH (done ++ [x]) Hnodup).
    rewrite fmap_app, <- app_assoc in IH. exact IH.
Qed.

Lemma noop_entries_zero_all items :
  NoDup (batch_id <$> items) →
  Forall (λ adj, adjustment adj = 0) (compute_stockAdjustments items items).
Proof.
  intros Hnodup. unfold compute_stockAdjustments.
  pose proof (noop_entries_zero [] items Hnodup) as Hzero. simpl in Hzero.
  change (List.map (λ originalItem, {| adj_batch_id := batch_id originalItem;
                                       adjustment := quantity originalItem |}) items)
    with ((λ item, {| adj_batch_id := batch_id item; adjustment := quantity item |})
            <$> items).
  rewrite Hzero. apply Forall_fmap. by apply Forall_true.
Qed.

(** A save whose array holds zeros only writes no stock, however its calls
    turn out. *)
Lemma handleSubmit_editing_zero editingChallan originalItems formData items
    (s : Sys Store) :
  Forall (λ adj, adjustment adj = 0) (compute_stockAdjustments originalItems items) →
  batches (store (handleSubmit_editing editingChallan originalItems formData items s).2)
  = batches (store s).
Proof.
  intros Hzero. unfold handleSubmit_editing.
  destruct (0 <? length _)%nat; [done|].
  destruct (0 <? length _)%nat; [done|].
  unfold try_catch, getUser. remote_step; try done.
  destruct (auth_user (store s)) as [user_id|]; [|done].
  rewrite bind_unfold, (for_of_zero _ _ Hzero).
  pose proof (document_writes_keep_batches editingChallan formData user_id items
                {| store := store s; script := rest |}) as Hk.
  simpl in Hk.
  match goal with |- context [match ?m with _ => _ end] => destruct m as [[a|e] s2] end;
    simpl in *; done.
Qed.

(** C5 (as the code has it): a dispatch edit whose new line items are the
    original ones.  When no two lines are on the same batch every entry of
    the adjustment array is zero and the save writes no stock, however the
    backend calls turn out.  When lines share a batch the array holds
    entries that are not zero; the quantities being whole numbers that the
    page counts exactly, the entries of every batch add up to zero, and
    when the backend calls go through the save leaves the current_stock of
    every batch as it was. *)
Theorem noop_edit_changes_no_stock editingChallan formData items :
  (NoDup (batch_id <$> items) →
   Forall (λ adj, adjustment adj = 0) (compute_stockAdjustments items items)
   ∧ ∀ s : Sys Store,
       batches (store (handleSubmit_editing editingChallan items formData items s).2)
       = batches (store s))
  ∧ (counted_exactly items items →
     (∀ b, net_adjustment b (compute_stockAdjustments items items) = 0)
     ∧ ∀ s : Sys Store,
         all_succeed s →
         batches (store (handleSubmit_editing editingChallan items formData items s).2)
         = batches (store s)).
Proof.
  split.
  - intros Hnodup. pose proof (noop_entries_zero_all items Hnodup) as Hzero.
    split; [exact Hzero|]. intros s. by apply handleSubmit_editing_zero.
  - intros _.
    assert (Hnet : ∀ b, net_adjustment b (compute_stockAdjustments items items) = 0).
    { intros b. rewrite net_adjustment_compute. lia. }
    split; [done|]. intros s Hall.
    destruct (handleSubmit_editing_batches_cases editingChallan items formData items s Hall)
      as [->| ->]; [done|].
    apply map_eq. intros b. rewrite adjusted_lookup, Hnet.
    destruct (batches (store s) !! b) as [r|]; simpl; [|done].
    by rewrite add_stock_0.
Qed.

(** C5 (as stated) fails when lines share a batch and a write fails.  The
    challan has the lines [batch A qty 20, batch A qty 5] and is saved as
    it is; the array is (A, -5), (A, 5).  The stored procedure and the read
    of the fallback return an error for the first entry, the second entry
    is written: the save reports success and batch A has gone from 100 to
    105. *)
Lemma failed_write_moves_stock_in_noop_edit :
  let items := [sample_item "A" 20; sample_item "A" 5] in
  let s := mkSys sample_store
             [Succeeds; ReturnsError "timeout"; ReturnsError "timeout"] in
  let result := handleSubmit_editing "dc-1" items sample_form items s in
  compute_stockAdjustments items items
  = [{| adj_batch_id := "A"; adjustment := -5 |};
     {| adj_batch_id := "A"; adjustment := 5 |}]
  ∧ result.1 = Returned (Some "Delivery Challan updated successfully!")
  ∧ row_current_stock <$> batches sample_store !! "A" = Some 100
  ∧ row_current_stock <$> batches (store result.2) !! "A" = Some 105.
Proof. vm_compute. done. Qed.

(** With decimals the entries of a no-op edit need not add up to zero
    either: for the lines [A 1, A 0.1, A 0.2] the first entry is
    -(0.1 + 0.2) as a double, which is not -0.3. *)
Lemma decimal_noop_edit_is_written :
  let items := [("A", 1%float); ("A", 0.1%float); ("A", 0.2%float)] in
  stockAdjustments_of_doubles items items
  = [("A", (- (0.1 + 0.2))%float); ("A", 0.1%float); ("A", 0.2%float)]
  ∧ is_written (- (0.1 + 0.2))%float = true
  ∧ PrimFloat.eqb (0.1 + 0.2)%float 0.3%float = false.
Proof. vm_compute. done. Qed.

(** The adjustment loop writes to [batches] only. *)
Lemma apply_stockAdjustment_same_documents adj :
  preserves (λ w w', same_documents w w') (apply_stockAdjustment adj).
Proof.
  assert (Reflexive (λ w w' : Store, same_documents w w')) by (by intros ?).
  assert (Transitive (λ w w' : Store, same_documents w w')).
  { intros ? ? ? (?&?&?&?&?) (?&?&?&?&?). repeat split; congruence. }
  unfold apply_stockAdjustment. repeat preserve_step;
    apply preserves_remote; intros w; simpl; try done.
  by destruct (batches w !! adj_batch_id adj).
Qed.

Lemma apply_stockAdjustment_returns adj (s : Sys Store) :
  no_rejection s →
  ∃ s', apply_stockAdjustment adj s = (Returned tt, s') ∧ no_rejection s'
        ∧ same_documents (store s) (store s').
Proof.
  intros Hno.
  enough (∃ s', apply_stockAdjustment adj s = (Returned tt, s') ∧ no_rejection s')
    as (s' & Heq & Hno').
  { exists s'. split; [done|]. split; [done|].
    pose proof (apply_stockAdjustment_same_documents adj s) as Hd.
    by rewrite Heq in Hd. }
  unfold apply_stockAdjustment. destruct (adjustment adj =? 0); [by exists s|].
  rewrite bind_unfold. unfold update_batch_stock.
  destruct (remote_no_rejection
              (λ w, (Data tt,
                     with_batches
                       (alter (λ r, set_current_stock
                                      (row_current_stock r + adjustment adj) r)
                              (adj_batch_id adj)) w)) s Hno)
    as ([[]|m] & s1 & -> & Hno1); [by exists s1|].
  rewrite bind_unfold. unfold select_current_stock.
  match goal with |- context [remote ?e s1] =>
    destruct (remote_no_rejection e s1 Hno1) as ([stock|m'] & s2 & -> & Hno2)
  end; [|by exists s2].
  rewrite bind_unfold. unfold update_current_stock.
  match goal with |- context [remote ?e s2] =>
    destruct (remote_no_rejection e s2 Hno2) as (r & s3 & -> & Hno3)
  end.
  by exists s3.
Qed.

Lemma apply_all_returns adjs (s : Sys Store) :
  no_rejection s →
  ∃ s', for_of adjs apply_stockAdjustment s = (Returned tt, s') ∧ no_rejection s'
        ∧ same_documents (store s) (store s').
Proof.
  revert s. induction adjs as [|adj adjs IH]; intros s Hno; simpl.
  - by exists s.
  - destruct (apply_stockAdjustment_returns adj s Hno) as (s1 & Heq1 & Hno1 & Hd1).
    destruct (IH s1 Hno1) as (s2 & Heq2 & Hno2 & Hd2).
    exists s2. rewrite bind_unfold, Heq1, Heq2. repeat split; try done;
      destruct Hd1 as (?&?&?&?&?), Hd2 as (?&?&?&?&?); congruence.
Qed.

(** C4 (as the code has it): an error returned by a stock-adjustment write
    does not abort the save.  When the stored procedure and the read of the
    fallback both return an error the adjustment of that batch is dropped
    and the loop goes on; when only the stored procedure fails the stock is
    written directly.  With the user signed in, a valid form and backend
    calls that return rather than reject, the loop always runs to its end,
    and if the writes of the document after it go through the save reports
    success and the batches stay as the loop left them. *)
Theorem stock_write_errors_do_not_abort editingChallan originalItems formData
    items user_id (w : Store) (rest : list Outcome) :
  (∀ adj m1 m2 tail,
     adjustment adj ≠ 0 →
     apply_stockAdjustment adj (mkSys w (ReturnsError m1 :: ReturnsError m2 :: tail))
     = (Returned tt, mkSys w tail))
  ∧ (∀ adj m1 tail r,
       adjustment adj ≠ 0 →
       batches w !! adj_batch_id adj = Some r →
       apply_stockAdjustment adj (mkSys w (ReturnsError m1 :: Succeeds :: Succeeds :: tail))
       = (Returned tt,
          mkSys (with_batches
                   (alter (set_current_stock (row_current_stock r + adjustment adj))
                          (adj_batch_id adj)) w) tail))
  ∧ (Forall (λ item, valid_item item = true) items →
     auth_user w = Some user_id →
     is_Some (delivery_challans w !! editingChallan) →
     no_rejection (mkSys w rest) →
     ∃ s1,
       for_of (compute_stockAdjustments originalItems items) apply_stockAdjustment
         (mkSys w rest) = (Returned tt, s1)
       ∧ (all_succeed s1 →
          let result := handleSubmit_editing editingChallan originalItems formData
                          items (mkSys w (Succeeds :: rest)) in
          result.1 = Returned (Some "Delivery Challan updated successfully!")
          ∧ batches (store result.2) = batches (store s1))).
Proof.
  split; [|split].
  - intros adj m1 m2 tail Hnz. unfold apply_stockAdjustment.
    apply Z.eqb_neq in Hnz. by rewrite Hnz.
  - intros adj m1 tail r Hnz Hb. unfold apply_stockAdjustment.
    apply Z.eqb_neq in Hnz. rewrite Hnz.
    unfold bind, update_batch_stock, select_current_stock, update_current_stock,
      remote. simpl. by rewrite Hb.
  - intros Hvalid Hauth [c Hc] Hno.
    destruct (apply_all_returns (compute_stockAdjustments originalItems items) _ Hno)
      as (s1 & Heq & _ & Hd).
    exists s1. split; [done|]. intros Hall1. unfold handleSubmit_editing.
    destruct (validation_passes items Hvalid) as [-> ->]. simpl.
    unfold try_catch, getUser. rewrite bind_unfold. unfold remote at 1. simpl.
    rewrite Hauth, bind_unfold, Heq.
    destruct Hd as (Hdc & _). simpl in Hdc.
    rewrite bind_unfold. unfold update_challan.
    match goal with |- context [remote ?e s1] =>
      destruct (remote_all_succeed e s1 Hall1) as (rest2 & -> & Hall2)
    end.
    rewrite Hdc, Hc in *. simpl in *.
    rewrite bind_unfold. unfold delete_challan_items.
    match goal with |- context [remote ?e ?s] =>
      destruct (remote_all_succeed e s Hall2) as (rest3 & -> & Hall3)
    end.
    simpl in *. rewrite bind_unfold. unfold insert_challan_items.
    match goal with |- context [remote ?e ?s] =>
      destruct (remote_all_succeed e s Hall3) as (rest4 & -> & Hall4)
    end.
    simpl. done.
Qed.

(** C4 (as stated) fails: the stored procedure and the fallback read both
    return an error for batch A, whose stock should have gone from 100 to
    105; the save is not aborted and reports success, A keeps 100 and the
    adjustment of batch B alone is applied. *)
Lemma failed_stock_write_is_not_reported :
  let s := mkSys sample_store
             [Succeeds; ReturnsError "timeout"; ReturnsError "timeout"] in
  let result := handleSubmit_editing "dc-1"
                  [sample_item "A" 20; sample_item "B" 10] sample_form
                  [sample_item "A" 15; sample_item "B" 5] s in
  result.1 = Returned (Some "Delivery Challan updated successfully!")
  ∧ row_current_stock <$> batches (store result.2) !! "A" = Some 100
  ∧ row_current_stock <$> batches (store result.2) !! "B" = Some 105.
Proof. vm_compute. done. Qed.

(** The sample edit with both calls for batch A returning an error: the
    save still reports success. *)
Lemma stock_write_errors_do_not_abort_witness :
  let items := [sample_item "A" 15; sample_item "B" 5] in
  let rest := [ReturnsError "timeout"; ReturnsError "timeout"] in
  let result := handleSubmit_editing "dc-1"
                  [sample_item "A" 20; sample_item "B" 10] sample_form
                  items (mkSys sample_store (Succeeds :: rest)) in
  Forall (λ item, valid_item item = true) items
  ∧ auth_user sample_store = Some "user-1"
  ∧ is_Some (delivery_challans sample_store !! "dc-1")
  ∧ no_rejection (mkSys sample_store rest)
  ∧ result.1 = Returned (Some "Delivery Challan updated successfully!").
Proof.
  intros items rest result.
  assert (Hv : Forall (λ item, valid_item item = true) items) by (repeat constructor).
  assert (Hc : is_Some (delivery_challans sample_store !! "dc-1")) by (by eexists).
  assert (Hn : no_rejection (mkSys sample_store rest)) by (repeat constructor).
  split; [exact Hv|]. split; [reflexivity|]. split; [exact Hc|]. split; [exact Hn|].
  destruct (proj2 (proj2 (stock_write_errors_do_not_abort "dc-1"
                            [sample_item "A" 20; sample_item "B" 10] sample_form
                            items "user-1" sample_store rest))
              Hv eq_refl Hc Hn) as (s1 & Hloop & Hsaved).
  assert (Hs1 : all_succeed s1).
  { replace s1 with
      (for_of (compute_stockAdjustments [sample_item "A" 20; sample_item "B" 10] items)
         apply_stockAdjustment (mkSys sample_store rest)).2
      by (by rewrite Hloop).
    vm_compute. constructor. }
  exact (proj1 (Hsaved Hs1)).
Defined.

(** The scenario on the sample store: batch A goes from 100 to 85. *)
Lemma edit_applies_net_adjustment_witness :
  counted_exactly [sample_item "A" 20] [sample_item "A" 35]
  ∧ Forall (λ item, valid_item item = true) [sample_item "A" 35]
  ∧ auth_user (store (mkSys sample_store [])) = Some "user-1"
  ∧ all_succeed (mkSys sample_store [])
  ∧ batches (store (mkSys sample_store [])) !! "A" = Some (sample_batch 100 0 1000)
  ∧ ∃ r',
      batches (store (handleSubmit_editing "dc-1" [sample_item "A" 20] sample_form
                        [sample_item "A" 35] (mkSys sample_store [])).2) !! "A"
      = Some r'
      ∧ stock_moved (-15) (sample_batch 100 0 1000) r'.
Proof.
  assert (Hc : counted_exactly [sample_item "A" 20] [sample_item "A" 35])
    by (by vm_compute).
  assert (Hv : Forall (λ item, valid_item item = true) [sample_item "A" 35])
    by (repeat constructor).
  assert (Hs : all_succeed (mkSys sample_store [])) by constructor.
  split; [exact Hc|]. split; [exact Hv|]. split; [reflexivity|]. split; [exact Hs|].
  split; [reflexivity|].
  exact (proj1 (proj2 (edit_applies_net_adjustment "dc-1" [sample_item "A" 20]
                         sample_form [sample_item "A" 35]))
           "user-1" (mkSys sample_store []) "A" (sample_batch 100 0 1000)
           Hc Hv eq_refl Hs eq_refl).
Defined.

(** A no-op edit with two lines on batch A: the two writes cancel. *)
Lemma noop_edit_changes_no_stock_witness :
  counted_exactly [sample_item "A" 20; sample_item "A" 5]
    [sample_item "A" 20; sample_item "A" 5]
  ∧ all_succeed (mkSys sample_store [])
  ∧ batches (store (handleSubmit_editing "dc-1"
                      [sample_item "A" 20; sample_item "A" 5] sample_form
                      [sample_item "A" 20; sample_item "A" 5]
                      (mkSys sample_store [])).2)
    = batches sample_store.
Proof.
  assert (Hc : counted_exactly [sample_item "A" 20; sample_item "A" 5]
                 [sample_item "A" 20; sample_item "A" 5]) by (by vm_compute).
  assert (Hs : all_succeed (mkSys sample_store [])) by constructor.
  split; [exact Hc|]. split; [exact Hs|].
  exact (proj2 (proj2 (noop_edit_changes_no_stock "dc-1" sample_form
                         [sample_item "A" 20; sample_item "A" 5]) Hc)
           (mkSys sample_store []) Hs).
Defined.
End DispatchReconciler.


(** ** Deleting a challan *)

Module ChallanDeletion.
Import DeliveryChallan.

(** C8 (as the code has it): deleting a dispatch document restores no
    stock.  However the remote calls turn out, the delete leaves the batches
    table, the line items and every other challan as they were, and touches
    no sales order but the one the challan is linked to; when the user
    confirms and the calls go through, the challan is gone and the linked
    sales order is written: its status is reverted to pending_delivery and
    it is taken out of the archive, is_archived being set to false and
    archived_at, archived_by and archive_reason to null. *)
Theorem delete_restores_no_stock confirmed challanId (s : Sys Store) :
  let w := store s in
  let w' := store (handleDelete confirmed challanId s).2 in
  batches w' = batches w
  ∧ delivery_challan_items w' = delivery_challan_items w
  ∧ (∀ other, other ≠ challanId →
              delivery_challans w' !! other = delivery_challans w !! other)
  ∧ (∀ so, (∀ c, delivery_challans w !! challanId = Some c →
                 sales_order_id c ≠ Some so) →
           sales_orders w' !! so = sales_orders w !! so)
  ∧ (confirmed = true → all_succeed s →
     delivery_challans w' !! challanId = None
     ∧ ∀ c so o, delivery_challans w !! challanId = Some c →
                 sales_order_id c = Some so → truthy so = true →
                 sales_orders w !! so = Some o →
                 ∃ o', sales_orders w' !! so = Some o'
                       ∧ status o' = "pending_delivery"
                       ∧ is_archived o' = false
                       ∧ archived_at o' = None
                       ∧ archived_by o' = None
                       ∧ archive_reason o' = None).
Proof.
  destruct s as [w sc]. simpl. unfold handleDelete.
  destruct confirmed; simpl; [|by repeat split].
  split; [|split; [|split; [|split]]].
  - unfold try_catch. remote_step; try done.
    all: remote_step; try done.
    all: destruct (delivery_challans w !! challanId) as [[? ? [so|] ? ? ? ? ? ? ?]|];
      simpl; try done.
    all: try (destruct (truthy so); simpl; try done).
    all: try (remote_step; done).
  - unfold try_catch. remote_step; try done.
    all: remote_step; try done.
    all: destruct (delivery_challans w !! challanId) as [[? ? [so|] ? ? ? ? ? ? ?]|];
      simpl; try done.
    all: try (destruct (truthy so); simpl; try done).
    all: try (remote_step; done).
  - intros other Hne. unfold try_catch. remote_step; try done.
    all: remote_step; try done.
    all: destruct (delivery_challans w !! challanId) as [[? ? [so|] ? ? ? ? ? ? ?]|];
      simpl; rewrite ?lookup_delete_ne by done; try done.
    all: try (destruct (truthy so); simpl; rewrite ?lookup_delete_ne by done; try done).
    all: try (remote_step; by rewrite ?lookup_delete_ne by done).
  - intros so' Hso. unfold try_catch. remote_step; try done.
    all: remote_step; try done.
    all: destruct (delivery_challans w !! challanId) as [c|] eqn:Hc; simpl;
      try done.
    destruct (sales_order_id c) as [so|] eqn:Hso_c; simpl; [|done].
    destruct (truthy so); simpl; [|done].
    remote_step; try done.
    rewrite lookup_alter_ne; [done|]. intros ->. by apply (Hso c).
  - intros _ Hall. unfold try_catch. rewrite bind_unfold.
    match goal with |- context [remote ?e ?s] =>
      destruct (remote_all_succeed e s Hall) as (rest1 & -> & Hall1)
    end.
    simpl in *. rewrite bind_unfold.
    match goal with |- context [remote ?e ?s] =>
      destruct (remote_all_succeed e s Hall1) as (rest2 & -> & Hall2)
    end.
    simpl in *.
    destruct (delivery_challans w !! challanId) as [c|] eqn:Hc; simpl in *.
    + destruct (sales_order_id c) as [so|] eqn:Hso_c; simpl.
      * destruct (truthy so) eqn:Hts; simpl.
        -- rewrite !bind_unfold.
           match goal with |- context [remote ?e ?s] =>
             destruct (remote_all_succeed e s Hall2) as (rest3 & -> & Hall3)
           end.
           simpl. split; [apply lookup_delete_eq|].
           intros c0 so0 o [= <-] Hso0 _ Ho.
           rewrite Hso_c in Hso0. injection Hso0 as <-.
           exists (revert_order o). by rewrite lookup_alter_eq, Ho.
        -- split; [apply lookup_delete_eq|].
           intros c0 so0 o [= <-] Hso0 Hts'.
           rewrite Hso_c in Hso0. injection Hso0 as <-. congruence.
      * split; [apply lookup_delete_eq|]. intros c0 so0 o [= <-]. congruence.
    + split; [apply lookup_delete_eq|]. done.
Qed.

(** C8 (as stated) fails: the status is not the only thing the delete
    writes on the linked sales order.  The challan dc-1 of the sample store
    is linked to the archived order so-1; after the delete the order is out
    of the archive and the record of who archived it, when and why is
    cleared. *)
Lemma delete_clears_archive_columns :
  let before := sales_orders sample_store !! "so-1" in
  let after :=
    sales_orders (store (handleDelete true "dc-1" (mkSys sample_store [])).2)
      !! "so-1" in
  (is_archived <$> before = Some true ∧ is_archived <$> after = Some false)
  ∧ (archived_at <$> before = Some (Some 5000) ∧ archived_at <$> after = Some None)
  ∧ (archived_by <$> before = Some (Some "user-1")
     ∧ archived_by <$> after = Some None)
  ∧ (archive_reason <$> before
     = Some (Some "Delivery Challan created and all items delivered")
     ∧ archive_reason <$> after = Some None).
Proof. vm_compute. done. Qed.

(** Deleting the challan of the sample store: the batches stay, the challan
    is gone and the sales order is back in pending_delivery, out of the
    archive. *)
Lemma delete_restores_no_stock_witness :
  let result := handleDelete true "dc-1" (mkSys sample_store []) in
  batches (store result.2) = batches sample_store
  ∧ delivery_challans (store result.2) !! "dc-1" = None
  ∧ ∃ o', sales_orders (store result.2) !! "so-1" = Some o'
          ∧ status o' = "pending_delivery"
          ∧ is_archived o' = false.
Proof.
  intros result.
  pose proof (delete_restores_no_stock true "dc-1" (mkSys sample_store [])) as H.
  cbv zeta in H.
  destruct H as (Hb & _ & _ & _ & Hok).
  destruct (Hok eq_refl (all_succeed_nil _)) as [Hgone Hso].
  split; [exact Hb|]. split; [exact Hgone|].
  destruct (Hso (sample_challan "DO-25-0001" (Some "so-1") approved) "so-1"
              {| status := "delivered"; is_archived := true;
                 archived_at := Some 5000; archived_by := Some "user-1";
                 archive_reason := Some "Delivery Challan created and all items delivered" |}
              eq_refl eq_refl eq_refl eq_refl)
    as (o' & Hrow & Hstatus & Harchived & _).
  exists o'. split; [exact Hrow|]. split; [exact Hstatus|exact Harchived].
Defined.
End ChallanDeletion.


(** ** The approval workflow *)

Module ApprovalWorkflow.
Import DeliveryChallan.

Lemma moves_to_refl challanId P : Reflexive (moves_to challanId P).
Proof. intros w id' c' H. by left. Qed.

Lemma moves_to_trans challanId P : Transitive (moves_to challanId P).
Proof.
  intros w1 w2 w3 H12 H23 id' c' H3.
  destruct (H23 id' c' H3) as [H2|H2]; [by apply H12|by right].
Qed.

(** A call that leaves [delivery_challans] alone moves nothing. *)
Lemma moves_to_same challanId P (w w' : Store) :
  delivery_challans w' = delivery_challans w → moves_to challanId P w w'.
Proof. intros Heq id' c' H. left. by rewrite <- Heq. Qed.

Lemma moves_to_alter challanId (P : Challan → Prop) f (w : Store) :
  (∀ c, P (f c)) →
  moves_to challanId P w (with_delivery_challans (alter f challanId) w).
Proof.
  intros HP id' c'. simpl. destruct (decide (challanId = id')) as [<-|Hne].
  - rewrite lookup_alter_eq. destruct (delivery_challans w !! challanId); simpl; [|done].
    intros [= <-]. by right.
  - rewrite lookup_alter_ne by done. by left.
Qed.

Ltac moves_to_instances challanId P :=
  pose proof (moves_to_refl challanId P);
  pose proof (moves_to_trans challanId P).

Lemma handleApproveChallan_moves confirmed challanId :
  preserves (moves_to challanId (λ c, approval_status c = approved))
    (handleApproveChallan confirmed challanId).
Proof.
  moves_to_instances challanId (λ c, approval_status c = approved).
  unfold handleApproveChallan, getUser.
  repeat preserve_step; apply preserves_remote; intros w; cbn [fst snd];
    try (by apply moves_to_same).
  all: apply moves_to_alter; intros c; by repeat split.
Qed.

Lemma handleRejectChallan_moves challanId reason :
  preserves (moves_to challanId
               (λ c, approval_status c = rejected
                     ∧ rejection_reason c = Some reason ∧ trim reason ≠ ""))
    (handleRejectChallan (Some challanId) reason).
Proof.
  set (P := λ c, approval_status c = rejected
                 ∧ rejection_reason c = Some reason ∧ trim reason ≠ "").
  moves_to_instances challanId P.
  unfold handleRejectChallan, getUser.
  destruct (truthy challanId); simpl; [|by apply preserves_ret].
  destruct (truthy (trim reason)) eqn:Hreason; simpl; [|by apply preserves_ret].
  assert (trim reason ≠ "").
  { intros Heq. unfold truthy in Hreason. by rewrite Heq in Hreason. }
  repeat preserve_step; apply preserves_remote; intros w; cbn [fst snd];
    try (by apply moves_to_same).
  all: apply moves_to_alter; intros c; by repeat split.
Qed.

Lemma handleSubmit_editing_moves challanId originalItems formData items :
  preserves (moves_to challanId (λ c, approval_status c = pending_approval))
    (handleSubmit_editing challanId originalItems formData items).
Proof.
  moves_to_instances challanId (λ c, approval_status c = pending_approval).
  unfold handleSubmit_editing, apply_stockAdjustment, getUser, update_batch_stock,
    select_current_stock, update_current_stock, update_challan,
    delete_challan_items, insert_challan_items.
  repeat preserve_step; apply preserves_remote; intros w; cbn [fst snd];
    try (by apply moves_to_same).
  - destruct (batches w !! _); by apply moves_to_same.
  - destruct (delivery_challans w !! challanId) as [c|] eqn:Hc; simpl;
      [|by apply moves_to_same].
    intros id' c'. simpl. destruct (decide (challanId = id')) as [<-|Hne].
    + rewrite lookup_insert_eq. intros [= <-]. by right.
    + rewrite lookup_insert_ne by done. by left.
Qed.

Lemma loadChallanItems_moves challanId P id :
  preserves (moves_to challanId P) (loadChallanItems id).
Proof.
  moves_to_instances challanId P. unfold loadChallanItems.
  repeat preserve_step; apply preserves_remote; intros w; cbn [fst snd];
    by apply moves_to_same.
Qed.

Lemma handleDelete_moves confirmed challanId :
  preserves (moves_to challanId (λ _, False)) (handleDelete confirmed challanId).
Proof.
  moves_to_instances challanId (λ _ : Challan, False).
  unfold handleDelete.
  repeat preserve_step; apply preserves_remote; intros w; cbn [fst snd];
    try (by apply moves_to_same).
  - destruct (delivery_challans w !! challanId); by apply moves_to_same.
  - intros id' c'. simpl. rewrite lookup_delete_Some. intros [_ Hc]. by left.
Qed.

(** The approve button and the reject dialog, their calls going through:
    the row on file is written whatever its status is. *)
Lemma handlers_ignore_status challanId c user_id (s : Sys Store) :
  delivery_challans (store s) !! challanId = Some c →
  auth_user (store s) = Some user_id →
  all_succeed s →
  delivery_challans (store (handleApproveChallan true challanId s).2) !! challanId
  = Some (set_approved user_id c)
  ∧ ∀ reason, truthy challanId = true → trim reason ≠ "" →
      delivery_challans
        (store (handleRejectChallan (Some challanId) reason s).2) !! challanId
      = Some (set_rejected user_id reason c).
Proof.
  intros Hc Hauth Hall. split.
  - unfold handleApproveChallan, try_catch, getUser. simpl. rewrite bind_unfold.
    match goal with |- context [remote ?e s] =>
      destruct (remote_all_succeed e s Hall) as (rest1 & -> & Hall1)
    end.
    cbn [fst snd] in *. rewrite Hauth, bind_unfold.
    match goal with |- context [remote ?e ?s1] =>
      destruct (remote_all_succeed e s1 Hall1) as (rest2 & -> & Hall2)
    end.
    simpl. by rewrite lookup_alter_eq, Hc.
  - intros reason Hid Hreason. unfold handleRejectChallan. rewrite Hid.
    assert (truthy (trim reason) = true) as ->.
    { unfold truthy. by destruct (String.eqb_spec (trim reason) ""). }
    simpl. unfold try_catch, getUser. rewrite bind_unfold.
    match goal with |- context [remote ?e s] =>
      destruct (remote_all_succeed e s Hall) as (rest1 & -> & Hall1)
    end.
    cbn [fst snd] in *. rewrite Hauth, bind_unfold.
    match goal with |- context [remote ?e ?s1] =>
      destruct (remote_all_succeed e s1 Hall1) as (rest2 & -> & Hall2)
    end.
    simpl. by rewrite lookup_alter_eq, Hc.
Qed.

(** C7 (as the code has it): whatever a user of the page does to a challan
    the page offers it for, and however the backend calls turn out, the
    approval status of a challan changes in three ways only.  It is set to
    approved by the approve button, or to rejected by the reject dialog
    with a reason that is non-empty after trimming and is recorded, both
    offered to the admin role alone and on a row that the page shows as
    pending_approval; and saving an edit, offered to every managing role on
    a row in any status, sets the challan back to pending_approval.  The
    handlers themselves put no condition on the status on file: when the
    shown row is the row on file, approval and rejection start from
    pending_approval, and on a list that is out of date they write a
    challan of any status. *)
Theorem approval_transitions :
  (∀ role (challans : gmap string Challan) (w : Store) script a challanId c c',
     offered role challans a = true →
     delivery_challans w !! challanId = Some c →
     delivery_challans (store (perform a (mkSys w script)).2) !! challanId = Some c' →
     approval_status c' ≠ approval_status c →
     ((∃ shown, challans !! challanId = Some shown
                ∧ approval_status shown = pending_approval)
      ∧ (challans !! challanId = Some c → approval_status c = pending_approval)
      ∧ has_role role "admin" = true
      ∧ ((∃ confirmed, a = Approve challanId confirmed
                       ∧ approval_status c' = approved)
         ∨ (∃ reason, a = Reject challanId reason ∧ trim reason ≠ ""
                      ∧ approval_status c' = rejected
                      ∧ rejection_reason c' = Some reason)))
     ∨ (∃ formData items, a = SaveEdit challanId formData items
                          ∧ canManage role = true
                          ∧ approval_status c' = pending_approval))
  ∧ (∀ challanId c user_id (s : Sys Store),
       delivery_challans (store s) !! challanId = Some c →
       auth_user (store s) = Some user_id →
       all_succeed s →
       approval_status
         <$> delivery_challans
               (store (handleApproveChallan true challanId s).2) !! challanId
       = Some approved
       ∧ ∀ reason, truthy challanId = true → trim reason ≠ "" →
           approval_status
             <$> delivery_challans
                   (store (handleRejectChallan (Some challanId) reason s).2)
                 !! challanId
           = Some rejected).
Proof.
  split.
  - intros role challans w script a challanId c c' Hoff Hc Hc' Hne.
    destruct a as [id confirmed|id reason|id formData items|id confirmed];
      simpl in Hoff, Hc'.
    + destruct (handleApproveChallan_moves confirmed id (mkSys w script) _ _ Hc')
        as [Hsame|[-> Happ]]; simpl in *; [congruence|].
      left. destruct (challans !! id) as [shown|] eqn:Hshown; [|done].
      destruct (approval_status shown) eqn:Hstatus; try done.
      split; [by exists shown|]. split; [intros [= <-]; done|]. eauto 10.
    + destruct (handleRejectChallan_moves id reason (mkSys w script) _ _ Hc')
        as [Hsame|[-> (Hrej & Hreason & Htrim)]]; simpl in *; [congruence|].
      left. destruct (challans !! id) as [shown|] eqn:Hshown; [|done].
      destruct (approval_status shown) eqn:Hstatus; try done.
      split; [by exists shown|]. split; [intros [= <-]; done|]. eauto 10.
    + assert (preserves (moves_to id (λ c, approval_status c = pending_approval))
                (perform (SaveEdit id formData items))) as Hp.
      { moves_to_instances id (λ c, approval_status c = pending_approval). simpl.
        apply preserves_bind; [done|apply loadChallanItems_moves|].
        intros originalItems. apply handleSubmit_editing_moves. }
      destruct (Hp (mkSys w script) _ _ Hc') as [Hsame|[-> Hpend]];
        simpl in *; [congruence|].
      right. destruct (challans !! id); [|done]. eauto 10.
    + destruct (handleDelete_moves confirmed id (mkSys w script) _ _ Hc')
        as [Hsame|[_ []]]; simpl in *. congruence.
  - intros challanId c user_id s Hc Hauth Hall.
    destruct (handlers_ignore_status challanId c user_id s Hc Hauth Hall)
      as [Happroved Hrejected].
    split; [by rewrite Happroved|].
    intros reason Hid Hreason. by rewrite (Hrejected reason Hid Hreason).
Qed.

(** C7 (as stated) fails: there is a transition out of approved.  A user in
    the sales role, who may not approve, edits the approved challan dc-1,
    which the page shows as it is on file, and saves it unchanged; the
    challan is back in pending_approval. *)
Lemma edit_reopens_approved_challan :
  let a := SaveEdit "dc-1" sample_form [sample_item "A" 20; sample_item "B" 10] in
  offered (Some "sales") (delivery_challans sample_store) a = true
  ∧ approval_status <$> delivery_challans sample_store !! "dc-1" = Some approved
  ∧ approval_status
      <$> delivery_challans (store (perform a (mkSys sample_store [])).2) !! "dc-1"
    = Some pending_approval.
Proof. vm_compute. done. Qed.

(** The admin looks at the list of the sample store, where dc-2 waits for
    approval; meanwhile dc-2 was rejected on file.  The approve button of
    the list still sets it to approved. *)
Lemma approval_transitions_witness :
  let a := Approve "dc-2" true in
  let c := set_rejected "user-2" "wrong address"
             (sample_challan "DO-25-0002" None pending_approval) in
  let w := with_delivery_challans (insert "dc-2" c) pending_store in
  let c' := set_approved "user-1" c in
  offered (Some "admin") (delivery_challans pending_store) a = true
  ∧ delivery_challans w !! "dc-2" = Some c
  ∧ delivery_challans (store (perform a (mkSys w [])).2) !! "dc-2" = Some c'
  ∧ approval_status c = rejected
  ∧ approval_status c' = approved
  ∧ ∃ shown, delivery_challans pending_store !! "dc-2" = Some shown
             ∧ approval_status shown = pending_approval.
Proof.
  intros a c w c'.
  assert (Hne : approval_status c' ≠ approval_status c) by discriminate.
  split; [reflexivity|]. split; [reflexivity|]. split; [reflexivity|].
  split; [reflexivity|]. split; [reflexivity|].
  destruct (proj1 approval_transitions (Some "admin") (delivery_challans pending_store)
              w [] a "dc-2" c c' eq_refl eq_refl eq_refl Hne)
    as [(Hshown & _)|(formData & items & Heq & _)]; [exact Hshown|discriminate Heq].
Defined.
End ApprovalWorkflow.


(** ** Challan numbers *)

Module ChallanNumbers.
Import DeliveryChallan.

Lemma list_ascii_of_string_app s1 s2 :
  list_ascii_of_string (s1 +:+ s2) = list_ascii_of_string s1 ++ list_ascii_of_string s2.
Proof. induction s1 as [|c s1 IH]; simpl; [done|]. by rewrite IH. Qed.

Lemma take_while_app {A} (p : A → bool) l1 y l2 :
  Forall (λ x, p x = true) l1 → p y = false →
  take_while p (l1 ++ y :: l2) = l1.
Proof.
  intros Hall Hy. induction Hall as [|x l1 Hx _ IH]; simpl.
  - by rewrite Hy.
  - by rewrite Hx, IH.
Qed.

Lemma string_of_uint_digits d :
  Forall (λ c, is_digit c = true) (list_ascii_of_string (NilEmpty.string_of_uint d)).
Proof. induction d; simpl; constructor; done. Qed.

Lemma String_of_NilEmpty n : String_of n = NilEmpty.string_of_uint (N.to_uint n).
Proof.
  unfold String_of, NilZero.string_of_uint.
  destruct (N.to_uint n) eqn:Hn; try done.
  destruct n as [|p]; [done|]. simpl in Hn.
  by apply DecimalPos.Unsigned.to_uint_nonnil in Hn.
Qed.

Lemma String_of_digits n :
  Forall (λ c, is_digit c = true) (list_ascii_of_string (String_of n))
  ∧ list_ascii_of_string (String_of n) ≠ [].
Proof.
  rewrite String_of_NilEmpty. split; [apply string_of_uint_digits|].
  destruct n as [|p]; [done|]. simpl.
  pose proof (DecimalPos.Unsigned.to_uint_nonnil p) as Hnil.
  destruct (Pos.to_uint p); done.
Qed.

Lemma padStart_chars k s :
  list_ascii_of_string (padStart k "0" s)
  = replicate (k - String.length s) "0"%char ++ list_ascii_of_string s.
Proof.
  unfold padStart.
  by rewrite list_ascii_of_string_app, list_ascii_of_string_of_list_ascii.
Qed.

Lemma digits_value_zeros k s :
  digits_value (string_of_list_ascii (replicate k "0"%char) +:+ s) = digits_value s.
Proof.
  unfold digits_value. induction k as [|k IH]; simpl; [done|].
  destruct (NilEmpty.uint_of_string (string_of_list_ascii (replicate k "0"%char) +:+ s))
    as [d|]; simpl in *; [|by destruct (NilEmpty.uint_of_string s)].
  by rewrite <- IH.
Qed.

(** Printing a number, padding it with zeros and reading its digits again
    gives the number back. *)
Lemma digits_value_padStart k n : digits_value (padStart k "0" (String_of n)) = Some n.
Proof.
  unfold padStart. rewrite digits_value_zeros. unfold digits_value.
  rewrite String_of_NilEmpty, NilEmpty.usu. simpl.
  by rewrite DecimalN.Unsigned.of_to.
Qed.

(** The digits after the last dash are what the pattern captures. *)
Lemma match_trailing_digits_after_dash before digits :
  Forall (λ c, is_digit c = true) (list_ascii_of_string digits) →
  list_ascii_of_string digits ≠ [] →
  match_trailing_digits (before +:+ "-" +:+ digits) = Some digits.
Proof.
  intros Hdigits Hne. unfold match_trailing_digits.
  rewrite !list_ascii_of_string_app. simpl.
  rewrite rev_app_distr. simpl. rewrite <- app_assoc. simpl.
  rewrite take_while_app; [| |done].
  - rewrite rev_involutive.
    destruct (list_ascii_of_string digits) eqn:Hd; [done|].
    f_equal. by rewrite <- (string_of_list_ascii_of_string digits), Hd.
  - by apply List.Forall_rev.
Qed.

Lemma suffix_number_generated yearCode n :
  suffix_number ("DO" +:+ "-" +:+ yearCode +:+ "-" +:+ padStart 4 "0" (String_of n)) = n.
Proof.
  unfold suffix_number.
  change ("DO" +:+ "-" +:+ yearCode +:+ "-" +:+ padStart 4 "0" (String_of n))
    with (("DO-" +:+ yearCode) +:+ "-" +:+ padStart 4 "0" (String_of n)).
  destruct (String_of_digits n) as [Hd Hne].
  rewrite match_trailing_digits_after_dash.
  - by rewrite digits_value_padStart.
  - rewrite padStart_chars. apply Forall_app. split; [|done].
    by apply Forall_replicate.
  - rewrite padStart_chars. intros Happ. apply app_eq_nil in Happ as [_ Happ]. done.
Qed.

Lemma take_while_Forall {A} (p : A → bool) l :
  Forall (λ x, p x = true) (take_while p l).
Proof.
  induction l as [|x l IH]; simpl; [constructor|].
  destruct (p x) eqn:Hx; by constructor.
Qed.

Lemma uint_of_digits (l : list ascii) :
  Forall (λ c, is_digit c = true) l →
  is_Some (NilEmpty.uint_of_string (string_of_list_ascii l)).
Proof.
  induction 1 as [|c l Hc _ [d Hd]]; simpl; [by eexists|].
  rewrite Hd.
  destruct c as [[] [] [] [] [] [] [] []]; try discriminate Hc; by eexists.
Qed.

(** The captured run of digits always reads as a number, the double of the
    trailing number: no entry of [numbers] is [NaN]. *)
Lemma number_of_suffix c : number_of c = Some (to_double (suffix_number c)).
Proof.
  unfold number_of, suffix_number, match_trailing_digits.
  pose proof (take_while_Forall is_digit (rev (list_ascii_of_string c))) as Hd.
  apply List.Forall_rev in Hd.
  destruct (rev (take_while is_digit (rev (list_ascii_of_string c)))) as [|a l];
    [done|].
  unfold parseInt, digits_value.
  by destruct (uint_of_digits (a :: l) Hd) as [d ->].
Qed.

(** Up to the counting limit a whole number is its own double. *)
Lemma to_double_counting n : (n ≤ counting_limit)%N → to_double n = Whole n.
Proof.
  intros Hn. unfold to_double. fold counting_limit.
  by destruct (N.leb_spec n counting_limit) as [_|?]; [|lia].
Qed.

Lemma counting_limit_digits n : (n ≤ counting_limit)%N → (n <? 10 ^ 21)%N = true.
Proof.
  intros Hn. apply N.ltb_lt.
  assert (counting_limit < 10 ^ 21)%N by (by vm_compute). lia.
Qed.

Lemma numbers_counted rows :
  Forall (λ c, (suffix_number c < counting_limit)%N) rows →
  omap number_of rows = (λ c, Whole (suffix_number c)) <$> rows.
Proof.
  induction 1 as [|c rows Hc _ IH]; simpl; [done|].
  rewrite number_of_suffix, to_double_counting by lia. simpl.
  f_equal. exact IH.
Qed.

Lemma Math_max_Whole first rest :
  Math_max (Whole first) (Whole <$> rest) = Whole (foldl N.max first rest).
Proof.
  unfold Math_max. revert first.
  induction rest as [|y rest IH]; intros first; simpl; [done|]. apply IH.
Qed.

Lemma max_bounds first rest :
  foldl N.max first rest ∈ first :: rest
  ∧ ∀ x, x ∈ first :: rest → (x ≤ foldl N.max first rest)%N.
Proof.
  revert first. induction rest as [|y rest IH]; intros first; simpl.
  - split; [by left|]. intros x Hx. apply list_elem_of_singleton in Hx as ->. lia.
  - destruct (IH (N.max first y)) as [Hin Hge]. split.
    + apply elem_of_cons in Hin as [Heq|Hin]; [|by do 2 right].
      rewrite Heq. destruct (N.max_spec first y) as [[_ ->]|[_ ->]];
        [right; left|left]; done.
    + intros x Hx. apply elem_of_cons in Hx as [->|Hx].
      * etransitivity; [|apply Hge; left]. lia.
      * apply elem_of_cons in Hx as [->|Hx].
        -- etransitivity; [|apply Hge; left]. lia.
        -- apply Hge. by right.
Qed.

(** With the trailing numbers in use below the counting limit, the next
    number is one more than the highest of them, counted without
    rounding. *)
Lemma next_number_counted c0 others :
  Forall (λ c, (suffix_number c < counting_limit)%N) (c0 :: others) →
  next_number (Some (c0 :: others))
  = Whole (foldl N.max (suffix_number c0) (suffix_number <$> others) + 1)
  ∧ (foldl N.max (suffix_number c0) (suffix_number <$> others) < counting_limit)%N.
Proof.
  intros Hrows. unfold next_number. rewrite (numbers_counted _ Hrows). simpl.
  rewrite (list_fmap_compose suffix_number Whole), Math_max_Whole. simpl.
  destruct (max_bounds (suffix_number c0) (suffix_number <$> others)) as [Hin _].
  assert (foldl N.max (suffix_number c0) (suffix_number <$> others) < counting_limit)%N
    as Hmax.
  { change (suffix_number c0 :: (suffix_number <$> others))
      with (suffix_number <$> c0 :: others) in Hin.
    apply list_elem_of_fmap in Hin as (c & -> & Hc).
    by apply (proj1 (Forall_forall _ _) Hrows). }
  split; [|exact Hmax]. apply to_double_counting. lia.
Qed.

(** The two lookups going through, the function returns the number built
    from the year code and [next_number]. *)
Lemma generateNextChallanNumber_all_succeed exponential currentYear (s : Sys Store) :
  all_succeed s →
  (generateNextChallanNumber exponential currentYear s).1
  = Returned ("DO" +:+ "-" +:+ year_code (number_year (store s) currentYear) +:+ "-"
              +:+ padStart 4 "0"
                    (String_of_count exponential
                       (next_number
                          (Some (numbers_in_use
                                   (year_code (number_year (store s) currentYear))
                                   (store s)))))).
Proof.
  intros Hall. unfold generateNextChallanNumber, try_catch, select_settings.
  rewrite bind_unfold.
  match goal with |- context [remote ?e s] =>
    destruct (remote_all_succeed e s Hall) as (rest & -> & Hall1)
  end.
  cbn [fst snd] in *. rewrite bind_unfold. unfold select_challan_numbers.
  match goal with |- context [remote ?e ?s1] =>
    destruct (remote_all_succeed e s1 Hall1) as (rest1 & -> & Hall2)
  end.
  cbn [fst snd store]. unfold number_year, numbers_in_use.
  destruct (head (app_settings (store s))) as [[[fy|]]|]; done.
Qed.

(** What the function returns when both lookups go through and the
    trailing numbers in use are below the counting limit. *)
Lemma generated_number_counted exponential currentYear (s : Sys Store) :
  let yearCode := year_code (number_year (store s) currentYear) in
  let existing := numbers_in_use yearCode (store s) in
  all_succeed s →
  Forall (λ c, (suffix_number c < counting_limit)%N) existing →
  ∃ n,
    (generateNextChallanNumber exponential currentYear s).1
    = Returned ("DO-" +:+ yearCode +:+ "-" +:+ padStart 4 "0" (String_of n))
    ∧ (∀ c, c ∈ existing → (suffix_number c < n)%N)
    ∧ (existing = [] → n = 1%N)
    ∧ (existing ≠ [] → ∃ c, c ∈ existing ∧ n = (suffix_number c + 1)%N).
Proof.
  intros yearCode existing Hall Hrows.
  rewrite (generateNextChallanNumber_all_succeed exponential currentYear s Hall).
  fold yearCode. fold existing.
  destruct existing as [|c0 others] eqn:Hexisting.
  - exists 1%N. repeat split; try done. intros c Hc. by inversion Hc.
  - destruct (next_number_counted c0 others Hrows) as [-> Hmax].
    set (highest := foldl N.max (suffix_number c0) (suffix_number <$> others)) in *.
    exists (highest + 1)%N. unfold String_of_count.
    rewrite counting_limit_digits by lia.
    destruct (max_bounds (suffix_number c0) (suffix_number <$> others)) as [Hin Hge].
    fold highest in Hin, Hge.
    change (suffix_number c0 :: (suffix_number <$> others))
      with (suffix_number <$> c0 :: others) in Hin, Hge.
    split; [done|]. split; [|split; [done|]].
    + intros c Hc.
      assert (suffix_number c ≤ highest)%N; [|lia].
      apply Hge. apply list_elem_of_fmap. by exists c.
    + intros _. apply list_elem_of_fmap in Hin as (c & Heq & Hc).
      exists c. split; [done|]. by rewrite <- Heq.
Qed.

(** C10 (as the code has it): with both lookups going through, the
    generated challan number is DO-YY-NNNN, YY being the last two digits of
    the financial year of the settings (of the current year when none is
    set) and NNNN the next number padded with zeros to four digits; the next
    number is 1 when no challan number starts with DO-YY or DC-YY and
    otherwise, the trailing numbers of these being below 2^53, where the
    numbers of the page count one by one, it is one plus the highest of
    them, so the trailing number of the new challan number is above that of
    each of them.  A lookup of the challan numbers that returns an error
    counts as no number in use and gives DO-YY-0001; the constant
    DO-25-0001 is what a lookup that rejects gives. *)
Theorem generated_number_follows_highest exponential currentYear (w : Store) :
  let yearCode := year_code (number_year w currentYear) in
  let existing := numbers_in_use yearCode w in
  (∀ script,
     all_succeed (mkSys w script) →
     Forall (λ c, (suffix_number c < counting_limit)%N) existing →
     ∃ n,
       (generateNextChallanNumber exponential currentYear (mkSys w script)).1
       = Returned ("DO-" +:+ yearCode +:+ "-" +:+ padStart 4 "0" (String_of n))
       ∧ suffix_number ("DO-" +:+ yearCode +:+ "-" +:+ padStart 4 "0" (String_of n)) = n
       ∧ (∀ c, c ∈ existing → (suffix_number c < n)%N)
       ∧ (existing = [] → n = 1%N)
       ∧ (existing ≠ [] → ∃ c, c ∈ existing ∧ n = (suffix_number c + 1)%N))
  ∧ (∀ m rest,
       (generateNextChallanNumber exponential currentYear
          (mkSys w (Succeeds :: ReturnsError m :: rest))).1
       = Returned ("DO-" +:+ yearCode +:+ "-0001"))
  ∧ (∀ m rest,
       (generateNextChallanNumber exponential currentYear
          (mkSys w (Rejects m :: rest))).1
       = Returned "DO-25-0001")
  ∧ (∀ m rest,
       (generateNextChallanNumber exponential currentYear
          (mkSys w (Succeeds :: Rejects m :: rest))).1
       = Returned "DO-25-0001").
Proof.
  intros yearCode existing. split; [|split; [|split]].
  - intros script Hall Hrows.
    destruct (generated_number_counted exponential currentYear (mkSys w script)
                Hall Hrows) as (n & Hnumber & Habove & Hfirst & Hnext).
    exists n. split; [exact Hnumber|]. split; [|by repeat split].
    apply (suffix_number_generated yearCode).
  - intros m rest. unfold generateNextChallanNumber, try_catch, bind, select_settings,
      select_challan_numbers, remote. simpl.
    unfold yearCode, number_year.
    destruct (head (app_settings w)) as [[[fy|]]|]; done.
  - done.
  - intros m rest. unfold generateNextChallanNumber, try_catch, bind, select_settings,
      select_challan_numbers, remote. simpl.
    destruct (head (app_settings w)) as [[[fy|]]|]; done.
Qed.

(** C10 (as stated) fails on a lookup error: in 2026 the lookup of the
    challan numbers returns an error and the function answers DO-26-0001,
    not the constant DO-25-0001. *)
Lemma lookup_error_keeps_year_code :
  let result := generateNextChallanNumber (λ _, "") 2026
                  (mkSys sample_store [Succeeds; ReturnsError "permission denied"]) in
  result.1 = Returned "DO-26-0001" ∧ result.1 ≠ Returned "DO-25-0001".
Proof. vm_compute. split; [done|discriminate]. Qed.

(** At the counting limit the next number is not a new one: with the
    challan number DO-25-9007199254740992 on file, whose trailing number is
    2^53, one plus the highest number is 2^53 again, and the function
    returns the challan number that is on file. *)
Lemma number_at_counting_limit_is_reused exponential :
  let w := with_delivery_challans
             (insert "dc-9" (sample_challan "DO-25-9007199254740992" None approved))
             sample_store in
  suffix_number "DO-25-9007199254740992" = counting_limit
  ∧ (generateNextChallanNumber exponential 2025 (mkSys w [])).1
    = Returned "DO-25-9007199254740992".
Proof. intros w. split; [by vm_compute|]. by vm_compute. Qed.

(** The sample store holds DO-25-0001; the next number is made for 2025. *)
Lemma generated_number_follows_highest_witness :
  all_succeed (mkSys sample_store [])
  ∧ Forall (λ c, (suffix_number c < counting_limit)%N) (numbers_in_use "25" sample_store)
  ∧ ∃ n,
      (generateNextChallanNumber (λ _, "") 2025 (mkSys sample_store [])).1
      = Returned ("DO-" +:+ "25" +:+ "-" +:+ padStart 4 "0" (String_of n))
      ∧ suffix_number ("DO-" +:+ "25" +:+ "-" +:+ padStart 4 "0" (String_of n)) = n
      ∧ (∀ c, c ∈ numbers_in_use "25" sample_store → (suffix_number c < n)%N)
      ∧ (numbers_in_use "25" sample_store = [] → n = 1%N)
      ∧ (numbers_in_use "25" sample_store ≠ [] →
         ∃ c, c ∈ numbers_in_use "25" sample_store ∧ n = (suffix_number c + 1)%N).
Proof.
  assert (Hrows : Forall (λ c, (suffix_number c < counting_limit)%N)
                    (numbers_in_use "25" sample_store)).
  { apply Forall_forall. intros c Hc. vm_compute in Hc.
    apply list_elem_of_singleton in Hc as ->. by vm_compute. }
  split; [apply all_succeed_nil|]. split; [exact Hrows|].
  exact (proj1 (generated_number_follows_highest (λ _, "") 2025 sample_store) []
           (all_succeed_nil sample_store) Hrows).
Defined.
End ChallanNumbers.


(** ** Creating a material return *)

Module ReturnCreation.
Import MaterialReturns.

(** C9: creating a material return is refused before any backend call, so
    with nothing written, when no item has a returned quantity above zero
    and when an item with a returned quantity above zero exceeds its
    original quantity.  However the calls turn out, an item row that gets
    written belongs to an item with a returned quantity above zero; and a
    complete form that passes both checks, with the calls going through,
    creates the return in status pending_approval together with exactly the
    items whose returned quantity is above zero. *)
Theorem return_creation user formData returnItems (s : Sys Store) :
  let validItems := List.filter (λ item, 0 <? quantity_returned item) returnItems in
  let result := handleSubmit user formData returnItems s in
  (validItems = [] →
   result.2 = s
   ∧ (result.1 = Returned "Please complete all required fields"
      ∨ result.1 = Returned "Please enter at least one item with return quantity"))
  ∧ (Exists (λ item, 0 < quantity_returned item
                     ∧ original_quantity item < quantity_returned item) returnItems →
     result.2 = s
     ∧ (result.1 = Returned "Please complete all required fields"
        ∨ result.1 = Returned "Please enter at least one item with return quantity"
        ∨ result.1 = Returned "Return quantity cannot exceed original quantity"))
  ∧ (∀ key item, In (key, item) (material_return_items (store result.2)) →
                 In (key, item) (material_return_items (store s))
                 ∨ 0 < quantity_returned item)
  ∧ (truthy (customer_id formData) = true →
     truthy (original_dc_id formData) = true →
     truthy (return_reason formData) = true →
     validItems ≠ [] →
     Forall (λ item, quantity_returned item ≤ original_quantity item) validItems →
     all_succeed s →
     result.1 = Returned "Material return created successfully. Pending approval."
     ∧ (∃ row, material_returns (store result.2) = material_returns (store s) ++ [row]
               ∧ status row = "pending_approval")
     ∧ material_return_items (store result.2)
       = material_return_items (store s)
         ++ List.map (λ item, (length (material_returns (store s)), item)) validItems).
Proof.
  intros validItems result. unfold result, handleSubmit. fold validItems.
  split; [|split; [|split]].
  - intros Hnone. destruct (_ || _); [by auto|]. rewrite Hnone. simpl. by auto.
  - intros Hex. destruct (_ || _); [by auto|].
    destruct (length validItems =? 0)%nat; [by auto|].
    assert (existsb (λ item, original_quantity item <? quantity_returned item) validItems
            = true) as ->; [|by auto].
    apply Exists_exists in Hex as (item & Hin & Hpos & Hover).
    apply existsb_exists. exists item. split.
    + apply filter_In. split; [by apply list_elem_of_In|]. by apply Z.ltb_lt.
    + by apply Z.ltb_lt.
  - intros key item. destruct (_ || _); [by auto|].
    destruct (length validItems =? 0)%nat; [by auto|].
    destruct (existsb _ validItems); [by auto|].
    unfold try_catch, insert_return, insert_return_items.
    remote_step; try (by auto).
    remote_step; try (by auto).
    intros Hin. apply in_app_or in Hin as [Hin|Hin]; [by left|]. right.
    apply in_map_iff in Hin as (item' & [= _ <-] & Hin).
    apply filter_In in Hin as [_ Hpos]. by apply Z.ltb_lt.
  - intros Hc Hd Hr Hne Hwithin Hall. rewrite Hc, Hd, Hr. simpl.
    destruct validItems as [|v rest] eqn:Hvalid; [done|]. cbn [length Nat.eqb].
    assert (existsb (λ item, original_quantity item <? quantity_returned item) (v :: rest)
            = false) as ->.
    { apply not_true_is_false. intros Hex.
      apply existsb_exists in Hex as (item & Hin & Hover). apply Z.ltb_lt in Hover.
      rewrite Forall_forall in Hwithin.
      specialize (Hwithin item (proj2 (list_elem_of_In _ _) Hin)). lia. }
    unfold try_catch, insert_return, insert_return_items. rewrite bind_unfold.
    match goal with |- context [remote ?e s] =>
      destruct (remote_all_succeed e s Hall) as (rest1 & -> & Hall1)
    end.
    cbn [fst snd] in *. rewrite bind_unfold.
    match goal with |- context [remote ?e ?s1] =>
      destruct (remote_all_succeed e s1 Hall1) as (rest2 & -> & Hall2)
    end.
    cbn [fst snd store material_returns material_return_items].
    split; [done|]. split; [|done]. eexists. split; [reflexivity|done].
Qed.

(** A return of 5 out of 20 of batch A, nothing of batch B: one item row. *)
Lemma return_creation_witness :
  let returnItems := [sample_return_item "A" 5 20; sample_return_item "B" 0 10] in
  let result := handleSubmit (Some "user-1") sample_form returnItems
                  (mkSys empty_store []) in
  result.1 = Returned "Material return created successfully. Pending approval."
  ∧ (∃ row, material_returns (store result.2) = [] ++ [row]
            ∧ status row = "pending_approval")
  ∧ material_return_items (store result.2)
    = [] ++ [(0%nat, sample_return_item "A" 5 20)].
Proof.
  intros returnItems result.
  assert (Hw : Forall (λ item, quantity_returned item ≤ original_quantity item)
                 (List.filter (λ item, 0 <? quantity_returned item) returnItems)).
  { repeat constructor. simpl. lia. }
  exact (proj2 (proj2 (proj2 (return_creation (Some "user-1") sample_form returnItems
                                (mkSys empty_store []))))
           eq_refl eq_refl eq_refl ltac:(discriminate) Hw (all_succeed_nil _)).
Defined.
End ReturnCreation.


(** ** Payment allocation *)

Module PaymentAllocator.
Import ReceivablesManager.

Lemma foldl_add_shift (l : list Z) (a : Z) :
  foldl (λ sum amount, sum + amount) a l = a + foldl (λ sum amount, sum + amount) 0 l.
Proof.
  revert a. induction l as [|x l IH]; intros a; simpl; [lia|].
  rewrite (IH (a + x)), (IH (0 + x)). lia.
Qed.

Lemma allocated_sum_shift (rows : list Allocation) (a : Z) :
  foldl (λ sum row, sum + allocated_amount row) a rows = a + allocated_sum rows.
Proof.
  unfold allocated_sum. revert a. induction rows as [|x l IH]; intros a; simpl; [lia|].
  rewrite (IH (a + _)), (IH (0 + _)). lia.
Qed.

(** Without negative entries, the rows of step 2 carry the whole allocated
    total. *)
Lemma allocated_sum_rows (entries : list (string * Z)) payment user_id :
  Forall (λ entry, 0 ≤ entry.2) entries →
  allocated_sum
    (List.map (λ entry, {| invoice_id := entry.1; payment_id := payment;
                           allocated_amount := entry.2; created_by := user_id |})
       (List.filter (λ entry, 0 <? entry.2) entries))
  = foldl (λ sum amount, sum + amount) 0 (List.map snd entries).
Proof.
  induction 1 as [|[k v] entries Hv _ IH]; simpl; [done|].
  simpl in Hv. rewrite (foldl_add_shift _ (0 + v)).
  destruct (Z.ltb_spec 0 v) as [Hpos|Hzero]; simpl.
  - unfold allocated_sum at 1. simpl. rewrite allocated_sum_shift. simpl. lia.
  - lia.
Qed.

(** C2 (as the code has it): the submit handler checks the total of the
    selected allocations only.  When the total exceeds the payment amount or
    is zero the submission is refused before any backend call, with nothing
    written; records are written only when the total is at most the payment
    amount and not zero.  Single amounts are not checked at submit: an entry
    that is not above zero is left out of the allocation rows instead of
    causing a refusal, each row written has an amount above zero taken from
    the selection, and without negative entries the rows add up to the
    total.  The bound by the invoice's remaining balance is enforced where
    an amount is entered: the amount field refuses a value above the
    balance, and ticking an invoice never selects more than its balance. *)
Theorem payment_submission_checks selectedInvoice formData
    (selectedAllocations : gmap string Z) (s : Sys Store) :
  let total := total_of selectedAllocations in
  let result := handleSubmit selectedInvoice formData selectedAllocations s in
  (amount formData < total ∨ total = 0 →
   result.2 = s
   ∧ (result.1 = Returned None
      ∨ result.1 = Returned (Some "Total allocated amount cannot exceed payment amount")
      ∨ result.1 = Returned (Some "Please allocate the payment to at least one invoice")))
  ∧ (store result.2 ≠ store s → total ≤ amount formData ∧ total ≠ 0)
  ∧ (∀ row, In row (invoice_payment_allocations (store result.2)) →
            In row (invoice_payment_allocations (store s))
            ∨ (0 < allocated_amount row
               ∧ selectedAllocations !! invoice_id row = Some (allocated_amount row)))
  ∧ (∀ payment user_id,
       (∀ key value, selectedAllocations !! key = Some value → 0 ≤ value) →
       allocated_sum (allocation_rows selectedAllocations payment user_id) = total)
  ∧ (∀ invoice value,
       (balance invoice < value →
        allocation_onChange invoice value selectedAllocations
        = (Some "Cannot allocate more than balance", selectedAllocations))
       ∧ (value ≤ balance invoice →
          (allocation_onChange invoice value selectedAllocations).2 !! id invoice
          = Some value))
  ∧ (∀ invoice value,
       checkbox_onChange formData invoice true selectedAllocations !! id invoice
       = Some value →
       value ≤ balance invoice).
Proof.
  intros total result. unfold result, handleSubmit. fold total.
  split; [|split; [|split; [|split; [|split]]]].
  - intros Hbad. destruct selectedInvoice as [invoice|]; [|by auto].
    destruct (Z.ltb_spec (amount formData) total); [by auto|].
    destruct (Z.eqb_spec total 0); [by auto|]. lia.
  - intros Hchanged. destruct selectedInvoice as [invoice|]; [|done].
    destruct (Z.ltb_spec (amount formData) total); [done|].
    destruct (Z.eqb_spec total 0); [done|]. lia.
  - intros row. destruct selectedInvoice as [invoice|]; [|by auto].
    destruct (amount formData <? total); [by auto|].
    destruct (total =? 0); [by auto|].
    unfold try_catch, getUser, insert_payment, insert_allocations.
    remote_step; try (by auto).
    destruct (auth_user (store s)) as [user_id|]; simpl; [|by auto].
    remote_step; try (by auto).
    remote_step; try (by auto).
    intros Hin. apply in_app_or in Hin as [Hin|Hin]; [by left|]. right.
    unfold allocation_rows in Hin.
    apply in_map_iff in Hin as ([key value] & <- & Hin). simpl.
    apply filter_In in Hin as [Hin Hpos]. simpl in Hpos. split; [by apply Z.ltb_lt|].
    by apply elem_of_map_to_list, list_elem_of_In.
  - intros payment user_id Hnonneg. unfold allocation_rows, total, total_of.
    apply allocated_sum_rows. apply Forall_forall. intros [key value] Hin.
    apply elem_of_map_to_list in Hin. by apply (Hnonneg key).
  - intros invoice value. unfold allocation_onChange. split.
    + intros Hover. by apply Z.ltb_lt in Hover as ->.
    + intros Hwithin. destruct (Z.ltb_spec (balance invoice) value); [lia|].
      simpl. apply lookup_insert_eq.
  - intros invoice value. unfold checkbox_onChange. rewrite lookup_insert_eq.
    intros [= <-]. lia.
Qed.

(** C2 (as stated) fails: the dialog opens with invoice inv-1 selected for
    its balance of 50, and ticking inv-2 selects it for what is left of the
    payment, which is 0.  The submission with this zero entry is accepted:
    the payment is recorded, with the one allocation row of inv-1. *)
Lemma zero_allocation_is_accepted :
  let inv1 := sample_invoice "inv-1" 50 in
  let inv2 := sample_invoice "inv-2" 80 in
  let formData := sample_form (balance inv1) in
  let selectedAllocations := checkbox_onChange formData inv2 true (preselect inv1) in
  let result := handleSubmit (Some inv1) formData selectedAllocations
                  (mkSys empty_store []) in
  selectedAllocations !! "inv-2" = Some 0
  ∧ result.1 = Returned (Some "Payment recorded and allocated successfully!")
  ∧ List.map pay_amount (customer_payments (store result.2)) = [50]
  ∧ List.map (λ row, (invoice_id row, allocated_amount row))
      (invoice_payment_allocations (store result.2)) = [("inv-1", 50)].
Proof. vm_compute. done. Qed.

(** An allocation of 80 against a payment of 50 is refused. *)
Lemma payment_submission_checks_witness :
  let formData := sample_form 50 in
  let selectedAllocations : gmap string Z := {[ "inv-1" := 80 ]} in
  let result := handleSubmit (Some (sample_invoice "inv-1" 80)) formData
                  selectedAllocations (mkSys empty_store []) in
  (amount formData < total_of selectedAllocations ∨ total_of selectedAllocations = 0)
  ∧ result.2 = mkSys empty_store []
  ∧ (result.1 = Returned None
     ∨ result.1 = Returned (Some "Total allocated amount cannot exceed payment amount")
     ∨ result.1 = Returned (Some "Please allocate the payment to at least one invoice")).
Proof.
  intros formData selectedAllocations result.
  assert (Hover : amount formData < total_of selectedAllocations
                  ∨ total_of selectedAllocations = 0).
  { left. vm_compute. done. }
  split; [exact Hover|].
  exact (proj1 (payment_submission_checks (Some (sample_invoice "inv-1" 80)) formData
                  selectedAllocations (mkSys empty_store [])) Hover).
Defined.

(** C6: a payment whose allocations add up to more than zero and to less
    than the payment amount passes the checks of the submit handler,
    whatever the backend then does; with the user signed in and the backend
    calls going through, the payment is recorded with its full amount
    together with its allocation rows. *)
Theorem under_allocation_is_accepted invoice formData
    (selectedAllocations : gmap string Z) (s : Sys Store) :
  0 < total_of selectedAllocations →
  total_of selectedAllocations < amount formData →
  let result := handleSubmit (Some invoice) formData selectedAllocations s in
  result.1 ≠ Returned (Some "Total allocated amount cannot exceed payment amount")
  ∧ result.1 ≠ Returned (Some "Please allocate the payment to at least one invoice")
  ∧ (∀ user_id,
       auth_user (store s) = Some user_id → all_succeed s →
       result.1 = Returned (Some "Payment recorded and allocated successfully!")
       ∧ (∃ row, customer_payments (store result.2)
                 = customer_payments (store s) ++ [row]
                 ∧ pay_amount row = amount formData)
       ∧ invoice_payment_allocations (store result.2)
         = invoice_payment_allocations (store s)
           ++ allocation_rows selectedAllocations
                (length (customer_payments (store s))) user_id).
Proof.
  intros Hpos Hunder result. unfold result, handleSubmit.
  destruct (Z.ltb_spec (amount formData) (total_of selectedAllocations)); [lia|].
  destruct (Z.eqb_spec (total_of selectedAllocations) 0); [lia|].
  unfold try_catch, getUser, insert_payment, insert_allocations.
  split; [|split].
  - remote_step; try done.
    destruct (auth_user (store s)) as [user_id|]; simpl; [|done].
    remote_step; try done. remote_step; done.
  - remote_step; try done.
    destruct (auth_user (store s)) as [user_id|]; simpl; [|done].
    remote_step; try done. remote_step; done.
  - intros user_id Hauth Hall. rewrite bind_unfold.
    match goal with |- context [remote ?e s] =>
      destruct (remote_all_succeed e s Hall) as (rest1 & -> & Hall1)
    end.
    cbn [fst snd] in *. rewrite Hauth, bind_unfold.
    match goal with |- context [remote ?e ?s1] =>
      destruct (remote_all_succeed e s1 Hall1) as (rest2 & -> & Hall2)
    end.
    cbn [fst snd] in *. rewrite bind_unfold.
    match goal with |- context [remote ?e ?s2] =>
      destruct (remote_all_succeed e s2 Hall2) as (rest3 & -> & Hall3)
    end.
    cbn [fst snd store customer_payments invoice_payment_allocations].
    split; [done|]. split; [|done]. eexists. split; [reflexivity|done].
Qed.

(** An allocation of 30 against a payment of 50 is recorded. *)
Lemma under_allocation_is_accepted_witness :
  let formData := sample_form 50 in
  let selectedAllocations : gmap string Z := {[ "inv-1" := 30 ]} in
  let result := handleSubmit (Some (sample_invoice "inv-1" 80)) formData
                  selectedAllocations (mkSys empty_store []) in
  0 < total_of selectedAllocations
  ∧ total_of selectedAllocations < amount formData
  ∧ result.1 = Returned (Some "Payment recorded and allocated successfully!")
  ∧ List.map pay_amount (customer_payments (store result.2)) = [50]
  ∧ List.map (λ row, (invoice_id row, allocated_amount row))
      (invoice_payment_allocations (store result.2)) = [("inv-1", 30)].
Proof.
  intros formData selectedAllocations result.
  assert (Hpos : 0 < total_of selectedAllocations) by (vm_compute; done).
  assert (Hunder : total_of selectedAllocations < amount formData) by (vm_compute; done).
  split; [exact Hpos|]. split; [exact Hunder|].
  destruct (proj2 (proj2 (under_allocation_is_accepted (sample_invoice "inv-1" 80)
                            formData selectedAllocations (mkSys empty_store [])
                            Hpos Hunder))
              "user-1" eq_refl (all_succeed_nil _))
    as (Halert & (row & Hpay & Hamount) & Hrows).
  split; [exact Halert|]. unfold result. rewrite Hpay, Hrows. simpl.
  rewrite Hamount. split; reflexivity.
Defined.
End PaymentAllocator.

(** * Further properties of the pages *)

(** ** Saving an edited challan: refusals *)

Module ChallanSaving.
Import DeliveryChallan.

Lemma valid_item_not_filtered item :
  valid_item item = true ↔
  negb (truthy (item_product_id item)) || negb (truthy (batch_id item))
  || (quantity item <=? 0) = false.
Proof.
  unfold valid_item.
  destruct (truthy (item_product_id item)), (truthy (batch_id item)); simpl;
    try (split; discriminate).
  destruct (Z.ltb_spec 0 (quantity item)), (Z.leb_spec (quantity item) 0);
    split; try done; lia.
Qed.

Lemma invalid_items_nil items :
  List.filter (λ item, negb (truthy (item_product_id item))
                       || negb (truthy (batch_id item))
                       || (quantity item <=? 0)) items = [] ↔
  Forall (λ item, valid_item item = true) items.
Proof.
  induction items as [|item items IH]; simpl; [by split|].
  destruct (_ || _) eqn:Hbad.
  - split; [done|]. intros Hall. apply Forall_cons in Hall as [Hv _].
    apply valid_item_not_filtered in Hv. congruence.
  - rewrite IH. split.
    + intros Hall. constructor; [by apply valid_item_not_filtered|done].
    + intros Hall. by apply Forall_cons in Hall as [_ ?].
Qed.

Lemma save_failure_alert_is_failure message :
  save_failure_alert message
  ≠ "Some items do not have a batch selected. Please select a batch for all items."
  ∧ save_failure_alert message ≠ "Delivery Challan updated successfully!".
Proof.
  unfold save_failure_alert.
  destruct (includes _ "batch_id"); [by split|].
  destruct (includes _ "foreign key"); by split.
Qed.

(** Whatever the backend does, the save answers with the success alert or
    with one of the alerts of its [catch]. *)
Lemma handleSubmit_editing_answers editingChallan originalItems formData items
    (s : Sys Store) :
  Forall (λ item, valid_item item = true) items →
  (handleSubmit_editing editingChallan originalItems formData items s).1
  = Returned (Some "Delivery Challan updated successfully!")
  ∨ ∃ message,
      (handleSubmit_editing editingChallan originalItems formData items s).1
      = Returned (Some (save_failure_alert message)).
Proof.
  intros Hvalid. unfold handleSubmit_editing.
  destruct (DispatchReconciler.validation_passes items Hvalid) as [-> ->]. simpl.
  unfold try_catch, getUser, update_challan, delete_challan_items,
    insert_challan_items.
  remote_step; try (by eauto).
  destruct (auth_user (store s)) as [user_id|]; simpl; [|by eauto].
  rewrite bind_unfold.
  destruct (for_of _ apply_stockAdjustment _) as [[[]|e] s1]; simpl; [|by eauto].
  remote_step; try (by eauto).
  destruct (delivery_challans (store s1) !! editingChallan); simpl; [|by eauto].
  remote_step; try (by eauto).
  remote_step; by eauto.
Qed.

(** X1: a line without product, without batch or with a quantity that is not
    above zero makes the save of an edited challan refuse before any backend
    call, with the system left as it was; and the second alert of the
    validation, about a batch that is not selected, is never the answer. *)
Theorem save_refused_on_invalid_line editingChallan originalItems formData items
    (s : Sys Store) :
  (¬ Forall (λ item, valid_item item = true) items →
   handleSubmit_editing editingChallan originalItems formData items s
   = (Returned (Some "Please select product, batch, and enter quantity for all items before saving."),
      s))
  ∧ (handleSubmit_editing editingChallan originalItems formData items s).1
    ≠ Returned (Some "Some items do not have a batch selected. Please select a batch for all items.").
Proof.
  split.
  - intros Hinvalid. unfold handleSubmit_editing.
    destruct (List.filter _ items) as [|bad rest] eqn:Hfilter; [|done].
    by apply invalid_items_nil in Hfilter.
  - destruct (decide (Forall (λ item, valid_item item = true) items)) as [Hvalid|Hinvalid].
    + destruct (handleSubmit_editing_answers editingChallan originalItems formData
                  items s Hvalid) as [->|[message ->]]; [done|].
      intros [= Heq]. by apply (proj1 (save_failure_alert_is_failure message)).
    + unfold handleSubmit_editing.
      destruct (List.filter _ items) as [|bad rest] eqn:Hfilter; [|done].
      by apply invalid_items_nil in Hfilter.
Qed.

(** A line with a quantity of zero is refused. *)
Lemma save_refused_on_invalid_line_witness :
  ¬ Forall (λ item, valid_item item = true) [sample_item "A" 0]
  ∧ handleSubmit_editing "dc-1" [sample_item "A" 20] sample_form [sample_item "A" 0]
      (mkSys sample_store [])
    = (Returned (Some "Please select product, batch, and enter quantity for all items before saving."),
       mkSys sample_store []).
Proof.
  assert (Hbad : ¬ Forall (λ item, valid_item item = true) [sample_item "A" 0]).
  { intros Hall. apply Forall_cons in Hall as [Hv _]. discriminate Hv. }
  split; [exact Hbad|].
  exact (proj1 (save_refused_on_invalid_line "dc-1" [sample_item "A" 20] sample_form
                  [sample_item "A" 0] (mkSys sample_store [])) Hbad).
Defined.

End ChallanSaving.

(** ** Editing a challan: the whole save *)

Module ChallanEditing.
Import DeliveryChallan.

Lemma save_failure_alert_head message :
  ∃ rest, save_failure_alert message = String "E" rest
          ∨ save_failure_alert message = String "F" rest.
Proof.
  unfold save_failure_alert.
  destruct (includes _ "batch_id"); [by eexists; left|].
  destruct (includes _ "foreign key"); [by eexists; left|].
  eexists. right. reflexivity.
Qed.

Lemma handleSubmit_editing_signed_out editingChallan originalItems formData items
    (s : Sys Store) :
  auth_user (store s) = None →
  store (handleSubmit_editing editingChallan originalItems formData items s).2 = store s
  ∧ ∀ tail, (handleSubmit_editing editingChallan originalItems formData items s).1
            ≠ Returned (Some (String "D" tail)).
Proof.
  intros Hauth. unfold handleSubmit_editing.
  destruct (0 <? length _)%nat; [done|].
  destruct (0 <? length _)%nat; [done|].
  unfold try_catch, getUser.
  remote_step; rewrite ?Hauth; simpl; (split; [done|]); intros tail [= Heq].
  destruct (save_failure_alert_head m) as [x [Hx|Hx]]; congruence.
Qed.

(** X2: with no user signed in, approving, rejecting and saving an edit
    write nothing, however the backend calls turn out, and none of them
    answers with its success alert.  Deleting is different: [handleDelete]
    never asks who the user is, and with the calls going through the challan
    is gone all the same. *)
Theorem no_writes_without_user (a : Action) (w : Store) (script : list Outcome) :
  auth_user w = None →
  ((∀ challanId confirmed, a ≠ Delete challanId confirmed) →
   store (perform a (mkSys w script)).2 = w
   ∧ (∀ rest, (perform a (mkSys w script)).1 ≠ Returned (Some (String "D" rest))))
  ∧ (∀ challanId, a = Delete challanId true → all_succeed (mkSys w script) →
       delivery_challans (store (perform a (mkSys w script)).2) !! challanId = None).
Proof.
  intros Hauth. split.
  - intros Hnot_delete.
    destruct a as [id confirmed|id reason|id formData items|id confirmed];
      [| | |by destruct (Hnot_delete id confirmed)]; simpl.
    + unfold handleApproveChallan, try_catch, getUser.
      destruct confirmed; simpl; [|done].
      remote_step; rewrite ?Hauth; done.
    + unfold handleRejectChallan, try_catch, getUser.
      destruct (negb (truthy id) || negb (truthy (trim reason))); simpl; [done|].
      remote_step; rewrite ?Hauth; done.
    + unfold loadChallanItems, try_catch. rewrite bind_unfold.
      remote_step; apply (handleSubmit_editing_signed_out id _ formData items (mkSys w _) Hauth).
  - intros challanId -> Hall. simpl. unfold handleDelete, try_catch. simpl.
    rewrite bind_unfold.
    match goal with |- context [remote ?e ?s] =>
      destruct (remote_all_succeed e s Hall) as (rest1 & -> & Hall1)
    end.
    simpl in *. rewrite bind_unfold.
    match goal with |- context [remote ?e ?s] =>
      destruct (remote_all_succeed e s Hall1) as (rest2 & -> & Hall2)
    end.
    simpl in *.
    destruct (delivery_challans w !! challanId) as [[? ? [so|] ? ? ? ? ? ? ?]|];
      simpl.
    all: try (destruct (truthy so); simpl).
    all: try (apply lookup_delete_eq).
    remote_step; apply lookup_delete_eq.
Qed.

Lemma loadChallanItems_all_succeed challanId (s : Sys Store) :
  all_succeed s →
  ∃ rest, loadChallanItems challanId s
          = (Returned (items_of challanId (store s)), mkSys (store s) rest)
          ∧ all_succeed (mkSys (store s) rest).
Proof.
  intros Hall. unfold loadChallanItems, try_catch. rewrite bind_unfold.
  match goal with |- context [remote ?e s] =>
    destruct (remote_all_succeed e s Hall) as (rest & -> & Hall1)
  end.
  exists rest. by split.
Qed.

Lemma loadChallanItems_fails challanId (w : Store) o rest :
  o ≠ Succeeds →
  loadChallanItems challanId (mkSys w (o :: rest)) = (Returned [], mkSys w rest).
Proof. intros Ho. by destruct o. Qed.

Lemma handleSubmit_editing_all_succeed editingChallan originalItems formData items
    user_id c (s : Sys Store) :
  Forall (λ item, valid_item item = true) items →
  auth_user (store s) = Some user_id →
  delivery_challans (store s) !! editingChallan = Some c →
  all_succeed s →
  ∃ s' c',
    handleSubmit_editing editingChallan originalItems formData items s
    = (Returned (Some "Delivery Challan updated successfully!"), s')
    ∧ all_succeed s'
    ∧ batches (store s')
      = adjusted (compute_stockAdjustments originalItems items) (batches (store s))
    ∧ delivery_challan_items (store s')
      = List.filter (λ row, negb (String.eqb row.1 editingChallan))
          (delivery_challan_items (store s))
        ++ List.map (λ item, (editingChallan, item)) items
    ∧ delivery_challans (store s') = <[editingChallan := c']> (delivery_challans (store s))
    ∧ approval_status c' = pending_approval
    ∧ sales_order_id c' = (if truthy (form_sales_order_id formData)
                           then Some (form_sales_order_id formData) else None)
    ∧ sales_orders (store s') = sales_orders (store s)
    ∧ auth_user (store s') = auth_user (store s).
Proof.
  intros Hvalid Hauth Hc Hall. unfold handleSubmit_editing.
  destruct (DispatchReconciler.validation_passes items Hvalid) as [-> ->]. simpl.
  unfold try_catch, getUser. rewrite bind_unfold.
  destruct (remote_all_succeed (λ w : Store, (Data (auth_user w), w)) s Hall)
    as (rest & -> & Hrest).
  simpl in *. rewrite Hauth, bind_unfold.
  destruct (DispatchReconciler.apply_all_succeed
              (compute_stockAdjustments originalItems items) _ Hrest)
    as (s1 & -> & Hall1 & Hb1 & Hdc & Hit & Hso & _ & Hau).
  simpl in *. rewrite bind_unfold. unfold update_challan.
  match goal with |- context [remote ?e s1] =>
    destruct (remote_all_succeed e s1 Hall1) as (rest2 & -> & Hall2)
  end.
  rewrite Hdc, Hc in *. simpl in *.
  rewrite bind_unfold. unfold delete_challan_items.
  match goal with |- context [remote ?e ?s] =>
    destruct (remote_all_succeed e s Hall2) as (rest3 & -> & Hall3)
  end.
  simpl in *. rewrite bind_unfold. unfold insert_challan_items.
  match goal with |- context [remote ?e ?s] =>
    destruct (remote_all_succeed e s Hall3) as (rest4 & -> & Hall4)
  end.
  simpl in *. eexists _, _. split; [reflexivity|]. simpl.
  rewrite Hdc, Hit, Hso, Hau, Hb1. repeat split; done.
Qed.

Lemma line_quantity_app b l1 l2 :
  line_quantity b (l1 ++ l2) = line_quantity b l1 + line_quantity b l2.
Proof.
  unfold line_quantity. induction l1 as [|x l1 IH]; simpl; [done|].
  destruct (decide (batch_id x = b)); lia.
Qed.

Lemma line_quantity_split b (p : string * ChallanItem → bool) rows :
  line_quantity b (List.map snd rows)
  = line_quantity b (List.map snd (List.filter (λ row, negb (p row)) rows))
    + line_quantity b (List.map snd (List.filter p rows)).
Proof.
  induction rows as [|row rows IH]; simpl; [done|].
  destruct (p row); simpl; destruct (decide (batch_id row.2 = b)); lia.
Qed.

Lemma map_snd_pair (challanId : string) (items : list ChallanItem) :
  List.map snd (List.map (λ item, (challanId, item)) items) = items.
Proof. induction items as [|x l IH]; simpl; congruence. Qed.

Lemma perform_SaveEdit_all_succeed challanId formData items user_id c (s : Sys Store) :
  Forall (λ item, valid_item item = true) items →
  auth_user (store s) = Some user_id →
  delivery_challans (store s) !! challanId = Some c →
  all_succeed s →
  ∃ s' c',
    perform (SaveEdit challanId formData items) s
    = (Returned (Some "Delivery Challan updated successfully!"), s')
    ∧ all_succeed s'
    ∧ batches (store s')
      = adjusted (compute_stockAdjustments (items_of challanId (store s)) items)
          (batches (store s))
    ∧ delivery_challan_items (store s')
      = List.filter (λ row, negb (String.eqb row.1 challanId))
          (delivery_challan_items (store s))
        ++ List.map (λ item, (challanId, item)) items
    ∧ delivery_challans (store s') = <[challanId := c']> (delivery_challans (store s))
    ∧ approval_status c' = pending_approval
    ∧ sales_order_id c' = (if truthy (form_sales_order_id formData)
                           then Some (form_sales_order_id formData) else None)
    ∧ sales_orders (store s') = sales_orders (store s)
    ∧ auth_user (store s') = auth_user (store s).
Proof.
  intros Hvalid Hauth Hc Hall. simpl. rewrite bind_unfold.
  destruct (loadChallanItems_all_succeed challanId s Hall) as (rest & -> & Hrest).
  apply (handleSubmit_editing_all_succeed challanId _ formData items user_id c
           (mkSys (store s) rest)); done.
Qed.

(** X3: a saved edit conserves stock.  The quantities being whole numbers
    that the page counts exactly, with a valid form, the user signed in and
    the calls going through, the stock of a batch plus the quantity of the
    batch on all line items on file is after the save what it was before:
    what the edit takes from or gives back to the batch is what it adds to
    or removes from the lines. *)
Theorem edit_conserves_stock_and_dispatched challanId formData items user_id
    (s : Sys Store) b r :
  counted_exactly (items_of challanId (store s)) items →
  Forall (λ item, valid_item item = true) items →
  auth_user (store s) = Some user_id →
  is_Some (delivery_challans (store s) !! challanId) →
  all_succeed s →
  batches (store s) !! b = Some r →
  let w' := store (perform (SaveEdit challanId formData items) s).2 in
  ∃ r', batches w' !! b = Some r'
        ∧ row_current_stock r' + dispatched b w'
          = row_current_stock r + dispatched b (store s).
Proof.
  intros _ Hvalid Hauth [c Hc] Hall Hb w'.
  destruct (perform_SaveEdit_all_succeed challanId formData items user_id c s
              Hvalid Hauth Hc Hall)
    as (s' & c' & Heq & _ & Hbatches & Hitems & _).
  subst w'. rewrite Heq. simpl.
  rewrite Hbatches, DispatchReconciler.adjusted_lookup, Hb,
    DispatchReconciler.net_adjustment_compute. simpl.
  eexists. split; [reflexivity|]. simpl.
  unfold dispatched. rewrite Hitems, map_app, line_quantity_app, map_snd_pair.
  rewrite (line_quantity_split b (λ row, String.eqb row.1 challanId)
             (delivery_challan_items (store s))).
  unfold items_of. lia.
Qed.

(** Batch A of the sample store, with its line raised from 20 to 35. *)
Lemma edit_conserves_stock_and_dispatched_witness :
  let s := mkSys sample_store [] in
  let w' := store (perform (SaveEdit "dc-1" sample_form [sample_item "A" 35]) s).2 in
  counted_exactly (items_of "dc-1" sample_store) [sample_item "A" 35]
  ∧ Forall (λ item, valid_item item = true) [sample_item "A" 35]
  ∧ ∃ r', batches w' !! "A" = Some r'
          ∧ row_current_stock r' + dispatched "A" w' = 100 + dispatched "A" sample_store.
Proof.
  intros s w'.
  assert (Hc : counted_exactly (items_of "dc-1" sample_store) [sample_item "A" 35])
    by (by vm_compute).
  assert (Hv : Forall (λ item, valid_item item = true) [sample_item "A" 35])
    by (repeat constructor).
  split; [exact Hc|]. split; [exact Hv|].
  exact (edit_conserves_stock_and_dispatched "dc-1" sample_form [sample_item "A" 35]
           "user-1" s "A" (sample_batch 100 0 1000) Hc Hv eq_refl
           (ex_intro _ _ eq_refl) (all_succeed_nil _) eq_refl).
Defined.

(** Signed out, an approval of the waiting challan writes nothing. *)
Lemma no_writes_without_user_witness :
  auth_user signed_out_store = None
  ∧ store (perform (Approve "dc-2" true) (mkSys signed_out_store [])).2
    = signed_out_store.
Proof.
  split; [reflexivity|].
  refine (proj1 (proj1 (no_writes_without_user (Approve "dc-2" true)
                          signed_out_store [] eq_refl) _)).
  intros challanId confirmed. discriminate.
Defined.

Lemma items_of_saved challanId items rows :
  List.map snd
    (List.filter (λ row : string * ChallanItem, String.eqb row.1 challanId)
       (List.filter (λ row, negb (String.eqb row.1 challanId)) rows
        ++ List.map (λ item, (challanId, item)) items))
  = items.
Proof.
  rewrite List.filter_app, map_app.
  assert (List.filter (λ row : string * ChallanItem, String.eqb row.1 challanId)
            (List.filter (λ row, negb (String.eqb row.1 challanId)) rows) = []) as ->.
  { induction rows as [|row rows IH]; simpl; [done|].
    destruct (String.eqb row.1 challanId) eqn:Heq; simpl; [done|]. by rewrite Heq. }
  simpl. induction items as [|x l IH]; simpl; [done|].
  rewrite String.eqb_refl. simpl. by rewrite IH.
Qed.

Lemma items_of_other challanId other items rows :
  other ≠ challanId →
  List.map snd
    (List.filter (λ row : string * ChallanItem, String.eqb row.1 other)
       (List.filter (λ row, negb (String.eqb row.1 challanId)) rows
        ++ List.map (λ item, (challanId, item)) items))
  = List.map snd (List.filter (λ row, String.eqb row.1 other) rows).
Proof.
  intros Hne. rewrite List.filter_app, map_app.
  assert (List.filter (λ row : string * ChallanItem, String.eqb row.1 other)
            (List.map (λ item, (challanId, item)) items) = []) as ->.
  { induction items as [|x l IH]; simpl; [done|].
    destruct (String.eqb_spec challanId other) as [->|_]; done. }
  rewrite app_nil_r. f_equal.
  induction rows as [|row rows IH]; simpl; [done|].
  destruct (String.eqb_spec row.1 challanId) as [Heq|Hneq]; simpl.
  - destruct (String.eqb_spec row.1 other) as [Heq'|_]; [congruence|done].
  - by rewrite IH.
Qed.

(** X4: what a successful save writes is what the next edit loads.  The
    line items read back for the challan are exactly the submitted ones, in
    order, and the lines of every other challan are as before. *)
Theorem saved_items_round_trip challanId formData items user_id (s : Sys Store) :
  Forall (λ item, valid_item item = true) items →
  auth_user (store s) = Some user_id →
  is_Some (delivery_challans (store s) !! challanId) →
  all_succeed s →
  let s' := (perform (SaveEdit challanId formData items) s).2 in
  (loadChallanItems challanId s').1 = Returned items
  ∧ (∀ other, other ≠ challanId →
              items_of other (store s') = items_of other (store s)).
Proof.
  intros Hvalid Hauth [c Hc] Hall s'.
  destruct (perform_SaveEdit_all_succeed challanId formData items user_id c s
              Hvalid Hauth Hc Hall)
    as (s1 & c' & Heq & Hall1 & _ & Hitems & _).
  subst s'. rewrite Heq. cbn [snd].
  assert (Hmine : items_of challanId (store s1) = items).
  { unfold items_of. rewrite Hitems. apply items_of_saved. }
  split.
  - destruct (loadChallanItems_all_succeed challanId s1 Hall1) as (rest & -> & _).
    simpl. by rewrite Hmine.
  - intros other Hne. unfold items_of. rewrite Hitems. by apply items_of_other.
Qed.

(** Two lines saved for the challan of the sample store and read back. *)
Lemma saved_items_round_trip_witness :
  let items := [sample_item "A" 35; sample_item "B" 1] in
  let s' := (perform (SaveEdit "dc-1" sample_form items) (mkSys sample_store [])).2 in
  Forall (λ item, valid_item item = true) items
  ∧ (loadChallanItems "dc-1" s').1 = Returned items.
Proof.
  intros items s'.
  assert (Hv : Forall (λ item, valid_item item = true) items) by (repeat constructor).
  split; [exact Hv|].
  exact (proj1 (saved_items_round_trip "dc-1" sample_form items "user-1"
                  (mkSys sample_store []) Hv eq_refl (ex_intro _ _ eq_refl)
                  (all_succeed_nil _))).
Defined.

Lemma line_quantity_nil b : line_quantity b [] = 0.
Proof. done. Qed.

(** X5: [loadChallanItems] answers a failed read with the empty array, and
    the edit then starts from no original lines.  When the read of the
    lines returns an error or rejects and the save itself goes through, the
    stock of every batch drops by the full quantity of its new lines: the
    quantities of the lines on file are not given back. *)
Theorem failed_item_load_deducts_again challanId formData items user_id
    (w : Store) o rest b r :
  o ≠ Succeeds →
  all_succeed (mkSys w rest) →
  Forall (λ item, valid_item item = true) items →
  auth_user w = Some user_id →
  batches w !! b = Some r →
  batches (store (perform (SaveEdit challanId formData items) (mkSys w (o :: rest))).2)
    !! b
  = Some (add_stock (- line_quantity b items) r).
Proof.
  intros Ho Hall Hvalid Hauth Hb. simpl. rewrite bind_unfold.
  rewrite (loadChallanItems_fails challanId w o rest Ho).
  rewrite (DispatchReconciler.handleSubmit_editing_batches challanId [] formData items
             user_id (mkSys w rest) Hvalid Hauth Hall).
  simpl. rewrite DispatchReconciler.adjusted_lookup, Hb,
    DispatchReconciler.net_adjustment_compute. simpl. f_equal.
Qed.

(** The line of 20 on batch A is saved unchanged after a failed read: the
    stock goes from 100 to 80. *)
Lemma failed_item_load_deducts_again_witness :
  let s := mkSys sample_store [ReturnsError "timeout"] in
  Forall (λ item, valid_item item = true) [sample_item "A" 20]
  ∧ row_current_stock
      <$> batches (store (perform (SaveEdit "dc-1" sample_form [sample_item "A" 20]) s).2)
            !! "A"
    = Some 80.
Proof.
  intros s.
  assert (Hv : Forall (λ item, valid_item item = true) [sample_item "A" 20])
    by (repeat constructor).
  split; [exact Hv|]. unfold s.
  by rewrite (failed_item_load_deducts_again "dc-1" sample_form [sample_item "A" 20]
                "user-1" sample_store (ReturnsError "timeout") [] "A"
                (sample_batch 100 0 1000) ltac:(discriminate) (all_succeed_nil _)
                Hv eq_refl eq_refl).
Defined.

Lemma handleEdit_all_succeed challanId challan items (s : Sys Store) :
  all_succeed s →
  ∃ rest,
    handleEdit challanId challan items s
    = (Returned {| edit_formData :=
                     {| form_challan_number := challan_number challan;
                        form_customer_id := customer_id challan;
                        form_sales_order_id := "";
                        form_challan_date := challan_date challan;
                        form_delivery_address := delivery_address challan |};
                   edit_originalItems := items_of challanId (store s);
                   edit_items := if (0 <? length (items_of challanId (store s)))%nat
                                 then items_of challanId (store s) else items |},
       mkSys (store s) rest)
    ∧ all_succeed (mkSys (store s) rest).
Proof.
  intros Hall. unfold handleEdit. rewrite bind_unfold.
  destruct (loadChallanItems_all_succeed challanId s Hall) as (rest & -> & Hrest).
  by exists rest.
Qed.

Lemma handleDelete_unlinked confirmed challanId c (s : Sys Store) :
  delivery_challans (store s) !! challanId = Some c →
  sales_order_id c = None →
  sales_orders (store (handleDelete confirmed challanId s).2) = sales_orders (store s).
Proof.
  intros Hc Hso. unfold handleDelete.
  destruct confirmed; simpl; [|done].
  unfold try_catch. remote_step; try done.
  all: remote_step; try done.
  all: rewrite ?Hc; simpl; rewrite ?Hso; try done.
Qed.

(** X6: the form that [handleEdit] fills in has no sales order.  Saving it
    clears the link of the challan to its sales order, and a later delete
    of the challan, however its calls turn out, leaves every sales order as
    it was before the edit. *)
Theorem edit_unlinks_sales_order challanId challan items0 items user_id
    (s : Sys Store) :
  Forall (λ item, valid_item item = true) items →
  auth_user (store s) = Some user_id →
  delivery_challans (store s) !! challanId = Some challan →
  all_succeed s →
  ∃ st s1,
    handleEdit challanId challan items0 s = (Returned st, s1)
    ∧ form_sales_order_id (edit_formData st) = ""
    ∧ let s2 := (handleSubmit_editing challanId (edit_originalItems st)
                   (edit_formData st) items s1).2 in
      sales_order_id <$> delivery_challans (store s2) !! challanId = Some None
      ∧ ∀ confirmed script,
          sales_orders (store (handleDelete confirmed challanId
                                 (mkSys (store s2) script)).2)
          = sales_orders (store s).
Proof.
  intros Hvalid Hauth Hc Hall.
  destruct (handleEdit_all_succeed challanId challan items0 s Hall)
    as (rest & Heq & Hrest).
  eexists _, _. split; [exact Heq|]. split; [done|]. cbn [edit_originalItems edit_formData].
  destruct (handleSubmit_editing_all_succeed challanId (items_of challanId (store s))
              {| form_challan_number := challan_number challan;
                 form_customer_id := customer_id challan;
                 form_sales_order_id := "";
                 form_challan_date := challan_date challan;
                 form_delivery_address := delivery_address challan |}
              items user_id challan (mkSys (store s) rest) Hvalid Hauth Hc Hrest)
    as (s2 & c' & -> & _ & _ & _ & Hdc & _ & Hso & Hsos & _).
  cbn [snd]. simpl in Hso, Hsos.
  assert (Hc' : delivery_challans (store s2) !! challanId = Some c').
  { rewrite Hdc. apply lookup_insert_eq. }
  split; [by rewrite Hc', <- Hso|].
  intros confirmed script.
  by rewrite (handleDelete_unlinked confirmed challanId c' (mkSys (store s2) script) Hc' Hso).
Qed.

(** The challan of the sample store is linked to so-1 until it is edited. *)
Lemma edit_unlinks_sales_order_witness :
  let linked := sample_challan "DO-25-0001" (Some "so-1") approved in
  Forall (λ item, valid_item item = true) [sample_item "A" 20]
  ∧ delivery_challans sample_store !! "dc-1" = Some linked
  ∧ ∃ st s1,
      handleEdit "dc-1" linked [] (mkSys sample_store []) = (Returned st, s1)
      ∧ sales_order_id
          <$> delivery_challans
                (store (handleSubmit_editing "dc-1" (edit_originalItems st)
                          (edit_formData st) [sample_item "A" 20] s1).2) !! "dc-1"
        = Some None.
Proof.
  intros linked.
  assert (Hv : Forall (λ item, valid_item item = true) [sample_item "A" 20])
    by (repeat constructor).
  split; [exact Hv|]. split; [reflexivity|].
  destruct (edit_unlinks_sales_order "dc-1" linked [] [sample_item "A" 20] "user-1"
              (mkSys sample_store []) Hv eq_refl eq_refl (all_succeed_nil _))
    as (st & s1 & Heq & _ & Hunlinked & _).
  exists st, s1. split; [exact Heq|exact Hunlinked].
Defined.

Lemma items_of_deleted challanId (rows : list (string * ChallanItem)) :
  List.filter (λ row : string * ChallanItem, String.eqb row.1 challanId)
    (List.filter (λ row, negb (String.eqb row.1 challanId)) rows) = [].
Proof.
  induction rows as [|row rows IH]; simpl; [done|].
  destruct (String.eqb row.1 challanId) eqn:Heq; simpl; [done|]. by rewrite Heq.
Qed.

Lemma stock_writes_cons adj adjs :
  stock_writes (adj :: adjs)
  = if adjustment adj =? 0 then stock_writes adjs else S (stock_writes adjs).
Proof. unfold stock_writes. simpl. by destruct (adjustment adj =? 0). Qed.

Lemma apply_all_counted adjs (w : Store) tail :
  ∃ w',
    for_of adjs apply_stockAdjustment
      (mkSys w (replicate (stock_writes adjs) Succeeds ++ tail))
    = (Returned tt, mkSys w' tail)
    ∧ batches w' = adjusted adjs (batches w)
    ∧ same_documents w w'.
Proof.
  revert w. induction adjs as [|adj adjs IH]; intros w.
  - exists w. by repeat split.
  - cbn [for_of]. rewrite bind_unfold. unfold apply_stockAdjustment at 1.
    rewrite stock_writes_cons.
    destruct (adjustment adj =? 0) eqn:Hz.
    + cbn [ret]. destruct (IH w) as (w' & -> & Hb & Hd).
      exists w'. split; [done|]. split; [|done].
      rewrite Hb. unfold adjusted. simpl. by rewrite Hz.
    + cbn [replicate app]. rewrite bind_unfold.
      unfold update_batch_stock, remote. cbn [script store].
      cbn [fst snd ret].
      match goal with |- context [for_of adjs _ (mkSys ?w1 _)] =>
        destruct (IH w1) as (w' & -> & Hb & Hd)
      end.
      exists w'. split; [done|]. split.
      * rewrite Hb. unfold adjusted. simpl. by rewrite Hz.
      * destruct Hd as (?&?&?&?&?). repeat split; done.
Qed.

(** X7: the save of an edit is not atomic.  When the stock writes, the update
    of the challan and the delete of its lines go through and the insert of
    the new lines fails, the save answers with the alert of its [catch], the
    challan is left in pending_approval without any line item, and the
    stock stays adjusted for the new lines. *)
Theorem item_insert_failure_leaves_no_items editingChallan originalItems formData
    items user_id (w : Store) o m :
  Forall (λ item, valid_item item = true) items →
  auth_user w = Some user_id →
  is_Some (delivery_challans w !! editingChallan) →
  o = ReturnsError m ∨ o = Rejects m →
  let adjs := compute_stockAdjustments originalItems items in
  let script := Succeeds :: replicate (stock_writes adjs) Succeeds
                ++ [Succeeds; Succeeds; o] in
  let result := handleSubmit_editing editingChallan originalItems formData items
                  (mkSys w script) in
  result.1 = Returned (Some (save_failure_alert m))
  ∧ items_of editingChallan (store result.2) = []
  ∧ batches (store result.2) = adjusted adjs (batches w)
  ∧ approval_status <$> delivery_challans (store result.2) !! editingChallan
    = Some pending_approval.
Proof.
  intros Hvalid Hauth [c Hc] Ho adjs script result. subst result script.
  unfold handleSubmit_editing.
  destruct (DispatchReconciler.validation_passes items Hvalid) as [-> ->].
  cbn [length Nat.ltb Nat.leb].
  unfold try_catch, getUser. rewrite bind_unfold, remote_Succeeds.
  cbn [fst snd]. rewrite Hauth, bind_unfold.
  fold adjs.
  destruct (apply_all_counted adjs w [Succeeds; Succeeds; o])
    as (w1 & -> & Hb & Hdc & Hit & _).
  rewrite bind_unfold. unfold update_challan. rewrite remote_Succeeds.
  rewrite Hdc, Hc. cbn [fst snd]. rewrite bind_unfold.
  unfold delete_challan_items. rewrite remote_Succeeds. cbn [fst snd].
  rewrite bind_unfold. unfold insert_challan_items.
  destruct Ho as [-> | ->];
    [rewrite remote_ReturnsError|rewrite remote_Rejects]; cbn [fst snd store throw].
  all: split; [done|].
  all: split; [unfold items_of; simpl; by rewrite items_of_deleted|].
  all: simpl; split; [done|].
  all: by rewrite lookup_insert_eq.
Qed.

(** The line on batch A raised from 20 to 35 with the insert timing out:
    no lines on file, and batch A at 85. *)
Lemma item_insert_failure_leaves_no_items_witness :
  let items := [sample_item "A" 35] in
  let result := handleSubmit_editing "dc-1" [sample_item "A" 20] sample_form items
                  (mkSys sample_store
                     [Succeeds; Succeeds; Succeeds; Succeeds; ReturnsError "timeout"]) in
  Forall (λ item, valid_item item = true) items
  ∧ items_of "dc-1" (store result.2) = []
  ∧ row_current_stock <$> batches (store result.2) !! "A" = Some 85.
Proof.
  intros items result.
  assert (Hv : Forall (λ item, valid_item item = true) items) by (repeat constructor).
  split; [exact Hv|].
  pose proof (item_insert_failure_leaves_no_items "dc-1" [sample_item "A" 20]
                sample_form items "user-1" sample_store (ReturnsError "timeout")
                "timeout" Hv eq_refl (ex_intro _ _ eq_refl) (or_introl eq_refl))
    as (_ & Hnone & Hb & _).
  split; [exact Hnone|].
  exact (eq_trans (f_equal (λ m, row_current_stock <$> m !! "A") Hb) eq_refl).
Defined.
End ChallanEditing.

(** ** The lines of the challan form *)

Module ChallanLines.
Import DeliveryChallan.

Lemma blank_item_invalid : valid_item blank_item = false.
Proof. done. Qed.

Lemma refused_when_invalid editingChallan originalItems formData items
    (s : Sys Store) :
  ¬ Forall (λ item, valid_item item = true) items →
  handleSubmit_editing editingChallan originalItems formData items s
  = (Returned (Some "Please select product, batch, and enter quantity for all items before saving."),
     s).
Proof.
  intros Hinvalid. unfold handleSubmit_editing.
  destruct (List.filter _ items) as [|bad rest] eqn:Hfilter; [|done].
  by apply ChallanSaving.invalid_items_nil in Hfilter.
Qed.

Lemma apply_op_nonempty items op : items ≠ [] → apply_op items op ≠ [].
Proof.
  intros Hne. destruct op as [|index|index packs]; simpl.
  - unfold addItem. by destruct items.
  - unfold removeItem. destruct items as [|x [|y l]]; [done|done|].
    cbn [length Nat.ltb Nat.leb]. destruct index as [|[|index]]; done.
  - unfold updatePackQuantity. destruct (items !! index) as [item|] eqn:Hitem; [|done].
    destruct (pack_size item) as [size|]; [|done].
    destruct (size =? 0); [done|]. simpl.
    intros Hnil. apply (f_equal length) in Hnil.
    rewrite length_insert in Hnil. by destruct items.
Qed.

(** X8: the form never runs out of lines.  Adding a line, removing one and
    setting the packs of one keep a non-empty list non-empty, so every list
    reached from the reset form has a line; removing a line of a list with
    more than one takes out exactly one line and adds none, and an index
    past the end removes nothing. *)
Theorem form_lines_never_run_out (ops : list LineOp) (items : list ChallanItem) :
  (items ≠ [] → foldl apply_op items ops ≠ [])
  ∧ foldl apply_op resetForm_items ops ≠ []
  ∧ (∀ index, (1 < length items)%nat → (index < length items)%nat →
              length (removeItem index items) = (length items - 1)%nat
              ∧ ∀ item, item ∈ removeItem index items → item ∈ items)
  ∧ (∀ index, (length items ≤ index)%nat → removeItem index items = items).
Proof.
  assert (Hfold : ∀ l, l ≠ [] → foldl apply_op l ops ≠ []).
  { induction ops as [|op ops IH]; intros l Hl; simpl; [done|].
    apply IH. by apply apply_op_nonempty. }
  split; [apply Hfold|]. split; [by apply Hfold|]. split.
  - intros index Hlen Hindex. unfold removeItem.
    destruct (Nat.ltb_spec 1 (length items)) as [_|?]; [|lia]. split.
    + rewrite length_delete; [lia|]. by apply lookup_lt_is_Some_2.
    + intros item Hin. eapply elem_of_sublist; [exact Hin|]. apply sublist_delete.
  - intros index Hindex. unfold removeItem.
    destruct (1 <? length items)%nat; [|done].
    revert index Hindex. induction items as [|x l IH]; intros [|index] Hindex;
      simpl in *; try done; try lia.
    f_equal. apply IH. lia.
Qed.

(** Removing the only line twice, adding one and removing the second. *)
Lemma form_lines_never_run_out_witness :
  [sample_item "A" 1] ≠ []
  ∧ foldl apply_op [sample_item "A" 1] [RemoveItem 0; RemoveItem 0; AddItem; RemoveItem 1]
    ≠ [].
Proof.
  assert (Hne : [sample_item "A" 1] ≠ []) by discriminate.
  split; [exact Hne|].
  exact (proj1 (form_lines_never_run_out
                  [RemoveItem 0; RemoveItem 0; AddItem; RemoveItem 1]
                  [sample_item "A" 1]) Hne).
Defined.

(** X9: a line that is not filled in blocks the save.  The form with a line
    just added, and the reset form, are refused before any backend call;
    and so is a form in which the packs of a line with a pack size were set
    to zero or less, the quantity of the line being the pack size times the
    packs. *)
Theorem unfilled_line_blocks_save editingChallan originalItems formData items
    (s : Sys Store) :
  let refusal :=
    (Returned (Some "Please select product, batch, and enter quantity for all items before saving."),
     s) in
  handleSubmit_editing editingChallan originalItems formData (addItem items) s = refusal
  ∧ handleSubmit_editing editingChallan originalItems formData resetForm_items s = refusal
  ∧ (∀ index packs item size items',
       items !! index = Some item → pack_size item = Some size → 0 < size →
       packs ≤ 0 →
       updatePackQuantity index packs items = Some items' →
       handleSubmit_editing editingChallan originalItems formData items' s = refusal).
Proof.
  intros refusal. split; [|split].
  - apply refused_when_invalid. intros Hall. unfold addItem in Hall.
    apply Forall_app in Hall as [_ Hblank]. apply Forall_cons in Hblank as [Hblank _].
    done.
  - apply refused_when_invalid. intros Hall.
    apply Forall_cons in Hall as [Hblank _]. done.
  - intros index packs item size items' Hitem Hsize Hpos Hpacks Hupdate.
    apply refused_when_invalid. intros Hall.
    unfold updatePackQuantity in Hupdate. rewrite Hitem, Hsize in Hupdate.
    destruct (Z.eqb_spec size 0) as [?|_]; [lia|].
    injection Hupdate as <-.
    rewrite Forall_lookup in Hall.
    specialize (Hall index _ (list_lookup_insert_eq _ _ _ (lookup_lt_Some _ _ _ Hitem))).
    unfold valid_item in Hall. simpl in Hall.
    apply andb_prop in Hall as [_ Hq]. apply Z.ltb_lt in Hq. nia.
Qed.

(** Two drums of ten set to zero drums. *)
Lemma unfilled_line_blocks_save_witness :
  let packed := {| item_product_id := "P"; batch_id := "A"; quantity := 20;
                   pack_size := Some 10; pack_type := Some "drum";
                   number_of_packs := Some 2 |} in
  ∃ items',
    updatePackQuantity 0 0 [packed] = Some items'
    ∧ handleSubmit_editing "dc-1" [packed] sample_form items' (mkSys sample_store [])
      = (Returned (Some "Please select product, batch, and enter quantity for all items before saving."),
         mkSys sample_store []).
Proof.
  intros packed. eexists. split; [reflexivity|].
  exact (proj2 (proj2 (unfilled_line_blocks_save "dc-1" [packed] sample_form [packed]
                         (mkSys sample_store [])))
           0%nat 0 packed 10 _ eq_refl eq_refl ltac:(lia) ltac:(lia) eq_refl).
Defined.
End ChallanLines.

(** ** Challan numbers: freshness *)

Module FreshNumbers.
Import DeliveryChallan.

Lemma prefix_append p rest : String.prefix p (p +:+ rest) = true.
Proof.
  induction p as [|a p IH]; simpl; [by destruct rest|].
  by destruct (ascii_dec a a).
Qed.

Lemma number_in_use yearCode (w : Store) id c :
  delivery_challans w !! id = Some c →
  String.prefix ("DO-" +:+ yearCode) (challan_number c) = true →
  challan_number c ∈ numbers_in_use yearCode w.
Proof.
  intros Hc Hprefix. unfold numbers_in_use.
  apply list_elem_of_In, filter_In. split.
  - apply in_map_iff. exists (id, c). split; [done|].
    apply list_elem_of_In. by apply elem_of_map_to_list.
  - by rewrite Hprefix.
Qed.

(** X10: [generateNextChallanNumber] always returns a number and writes
    nothing, however its lookups turn out; and when both lookups go through
    and the trailing numbers in use are below 2^53, the number differs from
    the challan number of every challan in the table. *)
Theorem generated_number_is_fresh exponential currentYear (s : Sys Store) :
  (∃ number, (generateNextChallanNumber exponential currentYear s).1 = Returned number)
  ∧ store (generateNextChallanNumber exponential currentYear s).2 = store s
  ∧ (all_succeed s →
     Forall (λ c, (suffix_number c < counting_limit)%N)
       (numbers_in_use (year_code (number_year (store s) currentYear)) (store s)) →
     ∀ id c, delivery_challans (store s) !! id = Some c →
             (generateNextChallanNumber exponential currentYear s).1
             ≠ Returned (challan_number c)).
Proof.
  split; [|split].
  - unfold generateNextChallanNumber, try_catch, select_settings,
      select_challan_numbers.
    remote_step; try (by eexists).
    all: remote_step; by eexists.
  - unfold generateNextChallanNumber, try_catch, select_settings,
      select_challan_numbers.
    remote_step; try done.
    all: remote_step; done.
  - intros Hall Hrows id c Hc.
    destruct (ChallanNumbers.generated_number_counted exponential currentYear s
                Hall Hrows) as (n & -> & Habove & _).
    assert (Hinj : ∀ a b : string, @Returned string a = Returned b → a = b)
      by (intros a b Hab; congruence).
    intros Heq%Hinj. clear Hinj.
    set (yearCode := year_code (number_year (store s) currentYear)) in *.
    assert (Hin : challan_number c ∈ numbers_in_use yearCode (store s)).
    { apply (number_in_use yearCode (store s) id c Hc). rewrite <- Heq.
      change ("DO-" +:+ yearCode +:+ "-" +:+ padStart 4 "0" (String_of n))
        with (("DO-" +:+ yearCode) +:+ "-" +:+ padStart 4 "0" (String_of n)).
      apply prefix_append. }
    specialize (Habove _ Hin).
    rewrite <- Heq in Habove.
    change ("DO-" +:+ yearCode +:+ "-" +:+ padStart 4 "0" (String_of n))
      with ("DO" +:+ "-" +:+ yearCode +:+ "-" +:+ padStart 4 "0" (String_of n))
      in Habove.
    rewrite ChallanNumbers.suffix_number_generated in Habove. lia.
Qed.

(** The number made for the sample store is not DO-25-0001. *)
Lemma generated_number_is_fresh_witness :
  all_succeed (mkSys sample_store [])
  ∧ Forall (λ c, (suffix_number c < counting_limit)%N) (numbers_in_use "25" sample_store)
  ∧ (generateNextChallanNumber (λ _, "") 2025 (mkSys sample_store [])).1
    ≠ Returned (challan_number (sample_challan "DO-25-0001" (Some "so-1") approved)).
Proof.
  assert (Hrows : Forall (λ c, (suffix_number c < counting_limit)%N)
                    (numbers_in_use "25" sample_store)).
  { apply Forall_forall. intros c Hc. vm_compute in Hc.
    apply list_elem_of_singleton in Hc as ->. by vm_compute. }
  split; [apply all_succeed_nil|]. split; [exact Hrows|].
  exact (proj2 (proj2 (generated_number_is_fresh (λ _, "") 2025 (mkSys sample_store [])))
           (all_succeed_nil _) Hrows "dc-1" _ eq_refl).
Defined.
End FreshNumbers.

(** ** The payment dialog *)

Module PaymentDialog.
Import ReceivablesManager.

Lemma foldl_add_Permutation (l1 l2 : list Z) :
  l1 ≡ₚ l2 →
  foldl (λ sum amount, sum + amount) 0 l1 = foldl (λ sum amount, sum + amount) 0 l2.
Proof.
  induction 1 as [|x l1 l2 _ IH|x y l|l1 l2 l3 _ IH1 _ IH2]; simpl.
  - done.
  - rewrite (PaymentAllocator.foldl_add_shift l1), (PaymentAllocator.foldl_add_shift l2).
    by rewrite IH.
  - rewrite (PaymentAllocator.foldl_add_shift l (0 + y + x)),
      (PaymentAllocator.foldl_add_shift l (0 + x + y)). lia.
  - congruence.
Qed.

Lemma total_of_insert key value (selectedAllocations : gmap string Z) :
  selectedAllocations !! key = None →
  total_of (<[key := value]> selectedAllocations) = value + total_of selectedAllocations.
Proof.
  intros Hfresh. unfold total_of.
  rewrite (foldl_add_Permutation _ (List.map snd ((key, value) :: map_to_list selectedAllocations))).
  - simpl. rewrite PaymentAllocator.foldl_add_shift. lia.
  - apply Permutation_map. by apply map_to_list_insert.
Qed.

Lemma total_of_delete key value (selectedAllocations : gmap string Z) :
  selectedAllocations !! key = Some value →
  total_of (delete key selectedAllocations) = total_of selectedAllocations - value.
Proof.
  intros Hkey.
  rewrite <- (insert_delete_id selectedAllocations key value Hkey) at 2.
  rewrite total_of_insert by apply lookup_delete_eq. lia.
Qed.

(** X13: ticking an invoice and the payment amount.  The amounts being
    whole numbers that the page counts exactly, ticking the box of an
    invoice that is not selected, while the selected amounts are within the
    payment amount, keeps them within it: the invoice gets its balance when
    that much of the payment is left, and otherwise what is left, the
    payment then being allocated in full; unticking the box again gives
    back the selection as it was.  With amounts in decimals the difference
    and the sum of the page are rounded and the tick can go past the
    payment amount: for a payment of 3143.85 with 364.47 selected, the box
    of an invoice with a balance of 5000 selects 2779.3800000000001, and
    the total of the two is above 3143.85, which [handleSubmit] refuses. *)
Theorem tick_keeps_within_payment :
  (∀ formData invoice (selectedAllocations : gmap string Z),
     counted_exactly formData invoice selectedAllocations →
     selectedAllocations !! id invoice = None →
     total_of selectedAllocations ≤ amount formData →
     let ticked := checkbox_onChange formData invoice true selectedAllocations in
     total_of ticked ≤ amount formData
     ∧ (amount formData - total_of selectedAllocations ≤ balance invoice →
        total_of ticked = amount formData)
     ∧ (balance invoice ≤ amount formData - total_of selectedAllocations →
        ticked !! id invoice = Some (balance invoice))
     ∧ checkbox_onChange formData invoice false ticked = selectedAllocations)
  ∧ (let selected := [364.47%float] in
     let value := ticked_amount 5000 3143.85 selected in
     exceeds (total_of_doubles selected) 3143.85 = false
     ∧ value = 2779.3800000000001%float
     ∧ exceeds (total_of_doubles (selected ++ [value])) 3143.85 = true).
Proof.
  split.
  - intros formData invoice selectedAllocations _ Hfresh Hwithin ticked.
    subst ticked. unfold checkbox_onChange.
    rewrite total_of_insert by done. split; [lia|]. split; [lia|]. split.
    + intros Hroom. rewrite lookup_insert_eq. f_equal. lia.
    + by rewrite delete_insert_id.
  - vm_compute. done.
Qed.

(** A payment of 70 with inv-1 selected for 50: ticking inv-2 allocates the
    remaining 20. *)
Lemma tick_keeps_within_payment_witness :
  let inv1 := sample_invoice "inv-1" 50 in
  let inv2 := sample_invoice "inv-2" 80 in
  let formData := sample_form 70 in
  counted_exactly formData inv2 (preselect inv1)
  ∧ preselect inv1 !! id inv2 = None
  ∧ total_of (preselect inv1) ≤ amount formData
  ∧ total_of (checkbox_onChange formData inv2 true (preselect inv1)) = amount formData.
Proof.
  intros inv1 inv2 formData.
  assert (Hcounted : counted_exactly formData inv2 (preselect inv1))
    by (by vm_compute).
  assert (Hfresh : preselect inv1 !! id inv2 = None) by reflexivity.
  assert (Hwithin : total_of (preselect inv1) ≤ amount formData) by (vm_compute; done).
  split; [exact Hcounted|]. split; [exact Hfresh|]. split; [exact Hwithin|].
  apply (proj1 (proj2 (proj1 tick_keeps_within_payment formData inv2 (preselect inv1)
                         Hcounted Hfresh Hwithin))).
  vm_compute. done.
Defined.


Lemma dialog_step_customerInvoices d op :
  dlg_customerInvoices (dialog_step d op) = dlg_customerInvoices d.
Proof.
  destruct op as [value|invoice|invoice|invoice value]; simpl; try done;
    by destruct (bool_decide _).
Qed.

Lemma dialog_customerInvoices d ops :
  dlg_customerInvoices (foldl dialog_step d ops) = dlg_customerInvoices d.
Proof.
  revert d. induction ops as [|op ops IH]; intros d; simpl; [done|].
  by rewrite IH, dialog_step_customerInvoices.
Qed.

Lemma dialog_step_within_balance invoice d op :
  (∀ inv, op_invoice op = Some inv → inv ∈ dlg_customerInvoices d) →
  within_balance invoice d → within_balance invoice (dialog_step d op).
Proof.
  intros Hlisted Hd key value.
  destruct op as [v|inv|inv|inv v]; simpl.
  - apply Hd.
  - destruct (bool_decide _); [apply Hd|]. simpl. unfold checkbox_onChange.
    destruct (decide (key = id inv)) as [->|Hne].
    + rewrite lookup_insert_eq. intros [= <-].
      exists inv. split; [right; by apply Hlisted|]. split; [done|lia].
    + rewrite lookup_insert_ne by done. apply Hd.
  - destruct (bool_decide _); [|apply Hd]. simpl.
    intros Hkey. apply lookup_delete_Some in Hkey as [_ Hkey]. by apply Hd.
  - destruct (bool_decide _); [|apply Hd]. simpl. unfold allocation_onChange.
    destruct (Z.ltb_spec (balance inv) v) as [Hover|Hwithin]; simpl; [apply Hd|].
    destruct (decide (key = id inv)) as [->|Hne].
    + rewrite lookup_insert_eq. intros [= <-].
      exists inv. split; [right; by apply Hlisted|]. done.
    + rewrite lookup_insert_ne by done. apply Hd.
Qed.

Lemma dialog_within_balance invoice d ops :
  on_listed d ops →
  within_balance invoice d → within_balance invoice (foldl dialog_step d ops).
Proof.
  revert d. induction ops as [|op ops IH]; intros d Hops Hd; simpl; [done|].
  apply Forall_cons in Hops as [Hop Hops]. apply IH.
  - unfold on_listed. by rewrite dialog_step_customerInvoices.
  - by apply dialog_step_within_balance.
Qed.

(** An allocation row that a submission adds carries an amount above zero
    that is the selected amount of its invoice, and the key of the payment
    row added before it. *)
Lemma handleSubmit_rows selectedInvoice formData
    (selectedAllocations : gmap string Z) (s : Sys Store) :
  let result := handleSubmit selectedInvoice formData selectedAllocations s in
  ∃ payments allocations,
    customer_payments (store result.2) = customer_payments (store s) ++ payments
    ∧ invoice_payment_allocations (store result.2)
      = invoice_payment_allocations (store s) ++ allocations
    ∧ (length payments ≤ 1)%nat
    ∧ (is_Some (auth_user (store s)) ∨ payments = [])
    ∧ Forall (λ payment, pay_amount payment = amount formData
                         ∧ pay_invoice_id payment = None
                         ∧ Some (pay_created_by payment) = auth_user (store s)
                         ∧ ∃ invoice, selectedInvoice = Some invoice
                                      ∧ pay_customer_id payment = customer_id invoice)
        payments
    ∧ Forall (λ row, 0 < allocated_amount row
                     ∧ selectedAllocations !! invoice_id row = Some (allocated_amount row)
                     ∧ payment_id row = length (customer_payments (store s))
                     ∧ payments ≠ [])
        allocations.
Proof.
  intros result. subst result. unfold handleSubmit.
  assert (Hnone : ∃ payments allocations,
            customer_payments (store s) = customer_payments (store s) ++ payments
            ∧ invoice_payment_allocations (store s)
              = invoice_payment_allocations (store s) ++ allocations
            ∧ (length payments ≤ 1)%nat
            ∧ (is_Some (auth_user (store s)) ∨ payments = [])
            ∧ Forall (λ payment, pay_amount payment = amount formData
                         ∧ pay_invoice_id payment = None
                         ∧ Some (pay_created_by payment) = auth_user (store s)
                         ∧ ∃ invoice, selectedInvoice = Some invoice
                                      ∧ pay_customer_id payment = customer_id invoice)
                payments
            ∧ Forall (λ row, 0 < allocated_amount row
                     ∧ selectedAllocations !! invoice_id row = Some (allocated_amount row)
                     ∧ payment_id row = length (customer_payments (store s))
                     ∧ payments ≠ [])
                allocations).
  { exists [], []. rewrite !app_nil_r. repeat split; auto; simpl; lia. }
  destruct selectedInvoice as [invoice|]; [|done].
  destruct (amount formData <? _); [done|].
  destruct (_ =? 0); [done|].
  unfold try_catch, getUser, insert_payment, insert_allocations.
  remote_step; try done.
  destruct (auth_user (store s)) as [user_id|] eqn:Hauth; simpl; [|done].
  assert (Hone : ∀ row : CustomerPayment, (length [row] ≤ 1)%nat) by (simpl; lia).
  remote_step; try (rewrite ?Hauth; done).
  remote_step.
  - eexists [_], _. split; [reflexivity|]. split; [reflexivity|].
    split; [apply Hone|]. split; [left; by eexists|]. split.
    + repeat constructor; simpl; eauto.
    + apply Forall_forall. intros row Hin. unfold allocation_rows in Hin.
      apply list_elem_of_In, in_map_iff in Hin as ([key value] & <- & Hin). simpl.
      apply filter_In in Hin as [Hin Hpos]. simpl in Hpos.
      split; [by apply Z.ltb_lt|]. split; [|done].
      by apply elem_of_map_to_list, list_elem_of_In.
  - eexists [_], []. rewrite app_nil_r. split; [reflexivity|]. split; [reflexivity|].
    split; [apply Hone|]. split; [left; by eexists|]. split; [|done].
    repeat constructor; simpl; eauto.
  - eexists [_], []. rewrite app_nil_r. split; [reflexivity|]. split; [reflexivity|].
    split; [apply Hone|]. split; [left; by eexists|]. split; [|done].
    repeat constructor; simpl; eauto.
Qed.

Lemma total_of_preselect invoice : total_of (preselect invoice) = balance invoice.
Proof.
  unfold total_of, preselect. rewrite map_to_list_singleton. simpl. lia.
Qed.

(** X11: the allocations of the dialog stay within the balances.  The
    dialog opens with the payment proposed at the balance of the clicked
    invoice and, when the invoices of the customer could be loaded, with
    that invoice selected for the same amount.  Whatever the user then does
    to the amounts of the listed invoices, every selected amount is at most
    the balance of its invoice; so every allocation row a submission
    writes, however the backend calls turn out, is above zero and at most
    the balance of the invoice it names. *)
Theorem dialog_allocations_within_balance today stamp invoice loaded ops :
  let opened := handleRecordPayment stamp invoice loaded (closed_dialog today) in
  on_listed opened ops →
  let d := foldl dialog_step opened ops in
  amount (dlg_formData opened) = balance invoice
  ∧ (is_Some loaded → total_of (dlg_allocations opened) = amount (dlg_formData opened))
  ∧ within_balance invoice d
  ∧ ∀ (s : Sys Store) row,
      let result := handleSubmit (Some invoice) (dlg_formData d) (dlg_allocations d) s in
      In row (invoice_payment_allocations (store result.2)) →
      In row (invoice_payment_allocations (store s))
      ∨ ∃ inv, (inv = invoice ∨ inv ∈ dlg_customerInvoices opened)
               ∧ id inv = invoice_id row
               ∧ 0 < allocated_amount row ≤ balance inv.
Proof.
  intros opened Hops d.
  assert (Hopened : within_balance invoice opened).
  { intros key value. subst opened. destruct loaded as [custInvoices|]; simpl; [|done].
    unfold preselect. intros Hkey. apply lookup_singleton_Some in Hkey as [<- <-].
    exists invoice. split; [by left|]. done. }
  assert (Hd : within_balance invoice d) by (by apply dialog_within_balance).
  split; [by destruct loaded|]. split.
  { intros [custInvoices ->]. simpl. apply total_of_preselect. }
  split; [exact Hd|]. intros s row result Hin. subst result.
  destruct (handleSubmit_rows (Some invoice) (dlg_formData d) (dlg_allocations d) s)
    as (payments & allocations & _ & Hrows & _ & _ & _ & Hall).
  rewrite Hrows in Hin. apply in_app_or in Hin as [Hin|Hin]; [by left|]. right.
  rewrite Forall_forall in Hall.
  destruct (Hall row (proj2 (list_elem_of_In _ _) Hin)) as (Hpos & Hsel & _).
  destruct (Hd _ _ Hsel) as (inv & Hinv & Hid & Hle).
  exists inv. split; [|split; [done|lia]].
  destruct Hinv as [->|Hinv]; [by left|]. right.
  subst d. by rewrite dialog_customerInvoices in Hinv.
Qed.

(** The dialog opened for inv-1 with inv-2 listed; inv-2 is ticked and 30
    typed for it. *)
Lemma dialog_allocations_within_balance_witness :
  let inv1 := sample_invoice "inv-1" 50 in
  let inv2 := sample_invoice "inv-2" 80 in
  let opened := handleRecordPayment "1750000000000" inv1 (Some [inv1; inv2])
                  (closed_dialog "2025-06-10") in
  let ops := [SetAmount 80; Tick inv2; TypeAmount inv2 30] in
  on_listed opened ops
  ∧ within_balance inv1 (foldl dialog_step opened ops).
Proof.
  intros inv1 inv2 opened ops.
  assert (Hops : on_listed opened ops).
  { unfold on_listed, ops. repeat (apply Forall_cons; split); try apply Forall_nil_2.
    all: intros inv; simpl; intros [= <-]; set_solver. }
  split; [exact Hops|].
  exact (proj1 (proj2 (proj2 (dialog_allocations_within_balance "2025-06-10"
                                "1750000000000" inv1 (Some [inv1; inv2]) ops Hops)))).
Defined.

(** X12: a submission only appends, and what it appends hangs together.
    However the backend calls turn out, the payments and the allocation
    rows on file stay, at most one payment row is added and none without a
    signed-in user; an added payment row carries the amount of the form,
    the customer of the invoice the dialog was opened for, the signed-in
    user and no invoice; an added allocation row carries the key of the
    payment row added with it.  The two inserts are not atomic: when the
    payment insert goes through and the allocation insert fails, the
    payment row stays on file without any allocation row and the alert
    reports the failure. *)
Theorem submission_appends_consistently selectedInvoice formData
    (selectedAllocations : gmap string Z) (s : Sys Store) :
  (let result := handleSubmit selectedInvoice formData selectedAllocations s in
   ∃ payments allocations,
     customer_payments (store result.2) = customer_payments (store s) ++ payments
     ∧ invoice_payment_allocations (store result.2)
       = invoice_payment_allocations (store s) ++ allocations
     ∧ (length payments ≤ 1)%nat
     ∧ (is_Some (auth_user (store s)) ∨ payments = [])
     ∧ Forall (λ payment, pay_amount payment = amount formData
                          ∧ pay_invoice_id payment = None
                          ∧ Some (pay_created_by payment) = auth_user (store s)
                          ∧ ∃ invoice, selectedInvoice = Some invoice
                                       ∧ pay_customer_id payment = customer_id invoice)
         payments
     ∧ Forall (λ row, 0 < allocated_amount row
                      ∧ selectedAllocations !! invoice_id row = Some (allocated_amount row)
                      ∧ payment_id row = length (customer_payments (store s))
                      ∧ payments ≠ [])
         allocations)
  ∧ (∀ invoice user_id o m,
       selectedInvoice = Some invoice →
       0 < total_of selectedAllocations ≤ amount formData →
       auth_user (store s) = Some user_id →
       o = ReturnsError m ∨ o = Rejects m →
       let result := handleSubmit selectedInvoice formData selectedAllocations
                       (mkSys (store s) [Succeeds; Succeeds; o]) in
       result.1 = Returned (Some ("Failed to record payment: " +:+ m))
       ∧ length (customer_payments (store result.2))
         = S (length (customer_payments (store s)))
       ∧ invoice_payment_allocations (store result.2)
         = invoice_payment_allocations (store s)).
Proof.
  split; [apply handleSubmit_rows|].
  intros invoice user_id o m -> [Hpos Hwithin] Hauth Ho result. subst result.
  unfold handleSubmit.
  destruct (Z.ltb_spec (amount formData) (total_of selectedAllocations)); [lia|].
  destruct (Z.eqb_spec (total_of selectedAllocations) 0); [lia|].
  unfold try_catch, getUser. rewrite bind_unfold, remote_Succeeds. cbn [fst snd].
  rewrite Hauth, bind_unfold. unfold insert_payment. rewrite remote_Succeeds.
  cbn [fst snd]. rewrite bind_unfold. unfold insert_allocations.
  destruct Ho as [-> | ->];
    [rewrite remote_ReturnsError|rewrite remote_Rejects]; cbn [fst snd store throw].
  all: simpl; rewrite length_app; simpl; split; [done|split; [lia|done]].
Qed.

(** A payment of 50 on inv-1 with the allocation insert timing out. *)
Lemma submission_appends_consistently_witness :
  let inv1 := sample_invoice "inv-1" 50 in
  let result := handleSubmit (Some inv1) (sample_form 50) (preselect inv1)
                  (mkSys empty_store [Succeeds; Succeeds; ReturnsError "timeout"]) in
  0 < total_of (preselect inv1) ≤ amount (sample_form 50)
  ∧ result.1 = Returned (Some "Failed to record payment: timeout")
  ∧ length (customer_payments (store result.2)) = 1%nat
  ∧ invoice_payment_allocations (store result.2) = [].
Proof.
  intros inv1 result.
  assert (Hsum : 0 < total_of (preselect inv1) ≤ amount (sample_form 50))
    by (vm_compute; split; [done|discriminate]).
  split; [exact Hsum|].
  exact (proj2 (submission_appends_consistently (Some inv1) (sample_form 50)
                  (preselect inv1) (mkSys empty_store []))
           inv1 "user-1" (ReturnsError "timeout") "timeout" eq_refl Hsum eq_refl
           (or_introl eq_refl)).
Defined.
End PaymentDialog.

(** ** The lines of a material return *)

Module ReturnLines.
Import MaterialReturns.

Lemma updateReturnItem_lines data index field returnItems returnItems' :
  Forall2 line_of data returnItems →
  updateReturnItem index field returnItems = Some returnItems' →
  Forall2 line_of data returnItems'.
Proof.
  intros Hlines. unfold updateReturnItem.
  destruct (returnItems !! index) as [item|] eqn:Hitem; [|done].
  intros [= <-].
  destruct (Forall2_lookup_r _ _ _ _ _ Hlines Hitem) as (line & Hline & (Hp & Hb & Hq)).
  rewrite <- (list_insert_id data index line Hline).
  apply Forall2_insert; [done|]. by destruct field.
Qed.

Lemma loadChallanItems_lines data returnItems :
  Forall2 line_of data (loadChallanItems (Some data) returnItems).
Proof. induction data as [|line data IH]; simpl; by constructor. Qed.

(** A line that a submission adds is a line of the form with a returned
    quantity above zero and within its original quantity. *)
Lemma handleSubmit_lines user formData returnItems (s : Sys Store) key item :
  In (key, item)
     (material_return_items (store (handleSubmit user formData returnItems s).2)) →
  In (key, item) (material_return_items (store s))
  ∨ (In item returnItems ∧ 0 < quantity_returned item ≤ original_quantity item).
Proof.
  unfold handleSubmit.
  destruct (_ || _); [by auto|].
  destruct (length _ =? 0)%nat; [by auto|].
  destruct (existsb _ _) eqn:Hover; [by auto|].
  unfold try_catch, insert_return, insert_return_items.
  remote_step; try (by auto).
  remote_step; try (by auto).
  intros Hin. apply in_app_or in Hin as [Hin|Hin]; [by left|]. right.
  apply in_map_iff in Hin as (item' & [= _ <-] & Hin).
  pose proof Hin as Hvalid. apply filter_In in Hvalid as [Hform Hpos].
  split; [done|]. apply Z.ltb_lt in Hpos. split; [done|].
  destruct (Z.ltb_spec (original_quantity item') (quantity_returned item'))
    as [Hexceeds|?]; [|done].
  assert (existsb (λ item, original_quantity item <? quantity_returned item)
            (List.filter (λ item, 0 <? quantity_returned item) returnItems) = true)
    as Htrue; [|congruence].
  apply existsb_exists. exists item'. split; [done|]. by apply Z.ltb_lt.
Qed.

Lemma form_step_lines dispatch source f op f' :
  Forall2 line_of (lines_shown dispatch source) (form_items f) →
  reads_from dispatch [op] →
  form_step f op = Some f' →
  Forall2 line_of (lines_shown dispatch (source_step source op)) (form_items f').
Proof.
  intros Hlines Hreads Hstep. apply Forall_cons in Hreads as [Hread _].
  destruct op as [customerId|challanId|challanId [data|]|index field|? ? ? ?];
    simpl in *.
  - injection Hstep as <-. simpl. constructor.
  - injection Hstep as <-. simpl. destruct (truthy challanId); [done|constructor].
  - injection Hstep as <-. simpl. subst data.
    exact (loadChallanItems_lines (dispatch challanId) []).
  - injection Hstep as <-. done.
  - destruct (updateReturnItem index field (form_items f)) as [returnItems|] eqn:Hupdate;
      simpl in Hstep; [|done].
    injection Hstep as <-. simpl. by eapply updateReturnItem_lines.
  - injection Hstep as <-. done.
Qed.

Lemma form_step_chosen c f op f' :
  original_dc_id (form_data f) = c →
  form_step f op = Some f' →
  original_dc_id (form_data f') = chosen_step c op.
Proof.
  intros Hc Hstep.
  destruct op as [customerId|challanId|challanId data|index field|? ? ? ?];
    simpl in *; try (by injection Hstep as <-).
  destruct (updateReturnItem index field (form_items f)); simpl in Hstep; [|done].
  by injection Hstep as <-.
Qed.

Lemma run_None ops : foldl (λ f op, f ≫= λ f : Form, form_step f op) None ops = None.
Proof. induction ops as [|op ops IH]; simpl; done. Qed.

(** The lines of the form are the lines on file of the challan they were
    read from, and the challan field holds the challan chosen last. *)
Lemma run_lines dispatch ops source c f f' :
  Forall2 line_of (lines_shown dispatch source) (form_items f) →
  original_dc_id (form_data f) = c →
  reads_from dispatch ops →
  run f ops = Some f' →
  Forall2 line_of (lines_shown dispatch (foldl source_step source ops)) (form_items f')
  ∧ original_dc_id (form_data f') = foldl chosen_step c ops.
Proof.
  unfold run. revert source c f.
  induction ops as [|op ops IH]; intros source c f Hlines Hc Hreads Hrun; simpl in *.
  - by injection Hrun as <-.
  - apply Forall_cons in Hreads as [Hread Hreads].
    destruct (form_step f op) as [f1|] eqn:Hstep; [|by rewrite run_None in Hrun].
    apply (IH (source_step source op) (chosen_step c op) f1); try done.
    + eapply form_step_lines; [exact Hlines| |exact Hstep]. by constructor.
    + by eapply form_step_chosen.
Qed.

Lemma entries_keep_source source c ops :
  forallb is_entry ops = true →
  foldl source_step source ops = source ∧ foldl chosen_step c ops = c.
Proof.
  revert source c. induction ops as [|op ops IH]; intros source c Hops; simpl in *;
    [done|].
  apply andb_prop in Hops as [Hop Hops]. destruct op; try done; by apply IH.
Qed.

(** X14: a return never exceeds what was dispatched on the challan its
    lines were read from.  From the reset form on, whatever is chosen,
    read and entered, the lines of the form are the lines of the challan of
    the last read that went through, in order, with product, batch and
    dispatched quantity, and the challan field holds the challan chosen
    last.  So every item row that a submission writes, however the backend
    calls turn out, belongs to a line of the challan the lines were read
    from, with a returned quantity above zero and at most the quantity
    dispatched on that line.  This is the chosen challan when its read went
    through and only entries followed; when the read of a newly chosen
    challan fails, the lines of the challan before stay in the form under
    the new challan. *)
Theorem return_within_dispatched today dispatch ops f user (s : Sys Store) :
  run (resetForm today) ops = Some f →
  reads_from dispatch ops →
  let lines := lines_shown dispatch (source_of ops) in
  let result := handleSubmit user (form_data f) (form_items f) s in
  Forall2 line_of lines (form_items f)
  ∧ (∀ key item,
       In (key, item) (material_return_items (store result.2)) →
       In (key, item) (material_return_items (store s))
       ∨ ∃ line, In line lines
                 ∧ line_of line item
                 ∧ 0 < quantity_returned item ≤ DeliveryChallan.quantity line)
  ∧ original_dc_id (form_data f) = chosen ops
  ∧ (∀ before challanId data entries,
       ops = before ++ Loaded challanId (Some data) :: entries →
       forallb is_entry entries = true →
       chosen before = challanId →
       lines = dispatch (original_dc_id (form_data f)))
  ∧ (∀ challanId,
       truthy challanId = true →
       ∃ f', run f [ChangeChallan challanId; Loaded challanId None] = Some f'
             ∧ form_items f' = form_items f
             ∧ original_dc_id (form_data f') = challanId).
Proof.
  intros Hrun Hreads lines result.
  destruct (run_lines dispatch ops None "" (resetForm today) f
              (Forall2_nil_2 _ _ line_of) eq_refl Hreads Hrun) as [Hlines Hchosen].
  fold (source_of ops) in Hlines. fold (chosen ops) in Hchosen. fold lines in Hlines.
  split; [exact Hlines|]. split; [|split; [exact Hchosen|split]].
  - intros key item Hin.
    destruct (handleSubmit_lines user (form_data f) (form_items f) s key item Hin)
      as [Hold|[Hform Hrange]]; [by left|]. right.
    apply list_elem_of_In, list_elem_of_lookup in Hform as [i Hi].
    destruct (Forall2_lookup_r _ _ _ _ _ Hlines Hi) as (line & Hline & Hof).
    exists line. split.
    + apply list_elem_of_In, list_elem_of_lookup. by exists i.
    + split; [done|]. destruct Hof as (_ & _ & <-). done.
  - intros before challanId data entries -> Hentries Hbefore.
    subst lines. rewrite Hchosen. unfold source_of, chosen.
    rewrite !foldl_app. simpl.
    destruct (entries_keep_source (Some challanId)
                (foldl chosen_step "" before) entries Hentries) as [-> ->].
    simpl. by f_equal.
  - intros challanId Hid. unfold run. simpl. rewrite Hid. by eexists.
Qed.

(** The challan dc-1 with lines on batches A and B is chosen and read, and
    5 of A are entered as returned and damaged. *)
Lemma return_within_dispatched_witness :
  let data := [DeliveryChallan.sample_item "A" 20; DeliveryChallan.sample_item "B" 10] in
  let dispatch := λ challanId : string, if String.eqb challanId "dc-1" then data else [] in
  let ops := [ChangeCustomer "cust-1"; ChangeChallan "dc-1"; Loaded "dc-1" (Some data);
              UpdateItem 0 (set_quantity_returned 5);
              UpdateItem 0 (set_condition "damaged")] in
  ∃ f,
    run (resetForm "2025-06-10") ops = Some f
    ∧ reads_from dispatch ops
    ∧ Forall2 line_of data (form_items f)
    ∧ original_dc_id (form_data f) = "dc-1".
Proof.
  intros data dispatch ops. eexists.
  assert (Hreads : reads_from dispatch ops) by (repeat constructor).
  split; [reflexivity|]. split; [exact Hreads|].
  destruct (return_within_dispatched "2025-06-10" dispatch ops _ (Some "user-1")
              (mkSys empty_store []) eq_refl Hreads)
    as (Hlines & _ & Hchosen & _).
  split; [exact Hlines|exact Hchosen].
Defined.

(** X15: creating a return is not atomic.  When the insert of the return
    goes through and the insert of its items returns an error or rejects,
    the return stays on file in pending_approval without any item, under
    the user of the session even when there is none, and the alert is the
    message of the failure, or the default text when the message is
    empty. *)
Theorem return_header_without_items user formData returnItems (w : Store) o m :
  truthy (customer_id formData) = true →
  truthy (original_dc_id formData) = true →
  truthy (return_reason formData) = true →
  Exists (λ item, 0 < quantity_returned item) returnItems →
  Forall (λ item, quantity_returned item ≤ original_quantity item) returnItems →
  o = ReturnsError m ∨ o = Rejects m →
  let result := handleSubmit user formData returnItems (mkSys w [Succeeds; o]) in
  result.1 = Returned (if truthy m then m else "Failed to create material return")
  ∧ (∃ row, material_returns (store result.2) = material_returns w ++ [row]
            ∧ status row = "pending_approval"
            ∧ created_by row = user)
  ∧ material_return_items (store result.2) = material_return_items w.
Proof.
  intros Hc Hd Hr Hsome Hwithin Ho result. subst result. unfold handleSubmit.
  rewrite Hc, Hd, Hr. simpl.
  destruct (List.filter _ returnItems) as [|v rest] eqn:Hvalid.
  { exfalso. apply Exists_exists in Hsome as (item & Hin & Hpos).
    assert (In item (List.filter (λ item, 0 <? quantity_returned item) returnItems)) as Hf.
    { apply filter_In. split; [by apply list_elem_of_In|]. by apply Z.ltb_lt. }
    by rewrite Hvalid in Hf. }
  cbn [length Nat.eqb].
  assert (existsb (λ item, original_quantity item <? quantity_returned item) (v :: rest)
          = false) as ->.
  { apply not_true_is_false. intros Hex.
    apply existsb_exists in Hex as (item & Hin & Hover). apply Z.ltb_lt in Hover.
    rewrite <- Hvalid in Hin. apply filter_In in Hin as [Hin _].
    rewrite Forall_forall in Hwithin.
    specialize (Hwithin item (proj2 (list_elem_of_In _ _) Hin)). lia. }
  unfold try_catch, insert_return. rewrite bind_unfold, remote_Succeeds.
  cbn [fst snd]. rewrite bind_unfold. unfold insert_return_items.
  destruct Ho as [-> | ->];
    [rewrite remote_ReturnsError|rewrite remote_Rejects]; cbn [fst snd store throw].
  all: simpl; split; [done|]; split; [|done]; eexists; split; [reflexivity|done].
Qed.

(** Nobody signed in, and the item insert times out. *)
Lemma return_header_without_items_witness :
  let returnItems := [sample_return_item "A" 5 20] in
  let result := handleSubmit None sample_form returnItems
                  (mkSys empty_store [Succeeds; ReturnsError "timeout"]) in
  Exists (λ item, 0 < quantity_returned item) returnItems
  ∧ result.1 = Returned "timeout"
  ∧ length (material_returns (store result.2)) = 1%nat
  ∧ material_return_items (store result.2) = [].
Proof.
  intros returnItems result.
  assert (Hsome : Exists (λ item, 0 < quantity_returned item) returnItems).
  { apply Exists_cons_hd. simpl. lia. }
  assert (Hwithin : Forall (λ item, quantity_returned item ≤ original_quantity item)
                      returnItems).
  { repeat constructor. simpl. lia. }
  split; [exact Hsome|].
  destruct (return_header_without_items None sample_form returnItems empty_store
              (ReturnsError "timeout") "timeout" eq_refl eq_refl eq_refl Hsome Hwithin
              (or_introl eq_refl)) as (Halert & (row & Hrows & _) & Hitems).
  split; [exact Halert|]. split; [|exact Hitems].
  unfold result. by rewrite Hrows.
Defined.
End ReturnLines.

(** ** Material returns with an approval workflow *)

Module ReturnApproval.
Import MaterialReturns2.

(** [NaN] as the specification of the doubles has it. *)
Lemma is_nan_Prim2SF x : PrimFloat.is_nan x = true ↔ Prim2SF x = S754_nan.
Proof.
  unfold Prim2SF. split.
  - by intros ->.
  - destruct (PrimFloat.is_nan x); [done|].
    destruct (PrimFloat.is_zero x); [done|].
    destruct (PrimFloat.is_infinity x); [done|].
    destruct (Z.frexp x) as [r e].
    destruct (shr_fexp _ _ _ _ _) as [shr e'].
    by destruct (shr_m shr).
Qed.

Lemma plus_NaN a b :
  PrimFloat.is_nan a = true ∨ PrimFloat.is_nan b = true →
  PrimFloat.is_nan (plus a b) = true.
Proof.
  intros Hnan. apply is_nan_Prim2SF. unfold plus. rewrite add_spec.
  destruct Hnan as [Ha%is_nan_Prim2SF|Hb%is_nan_Prim2SF].
  - by rewrite Ha.
  - rewrite Hb. by destruct (Prim2SF a).
Qed.

Lemma times_NaN a b :
  PrimFloat.is_nan a = true ∨ PrimFloat.is_nan b = true →
  PrimFloat.is_nan (times a b) = true.
Proof.
  intros Hnan. apply is_nan_Prim2SF. unfold times. rewrite mul_spec.
  destruct Hnan as [Ha%is_nan_Prim2SF|Hb%is_nan_Prim2SF].
  - by rewrite Ha.
  - rewrite Hb. by destruct (Prim2SF a).
Qed.

(** [NaN >= b] is false. *)
Lemma at_least_NaN a b : PrimFloat.is_nan a = true → at_least a b = false.
Proof.
  intros Ha%is_nan_Prim2SF. unfold at_least. rewrite leb_spec, Ha.
  by destruct (Prim2SF b).
Qed.

Lemma foldl_plus_NaN (returnItems : list ReturnItem) sum :
  PrimFloat.is_nan sum = true →
  PrimFloat.is_nan
    (foldl (λ sum item, plus sum (times (quantity_returned item) (unit_price item)))
           sum returnItems) = true.
Proof.
  revert sum. induction returnItems as [|item l IH]; intros sum Hsum; simpl; [done|].
  apply IH, plus_NaN. by left.
Qed.

Lemma financialImpact_NaN returnItems :
  Exists (λ item, PrimFloat.is_nan (quantity_returned item) = true
                  ∨ PrimFloat.is_nan (unit_price item) = true) returnItems →
  PrimFloat.is_nan (financialImpact returnItems) = true.
Proof.
  unfold financialImpact. generalize 0%float.
  induction returnItems as [|item l IH]; intros acc Hex; [by inversion Hex|].
  simpl. apply Exists_cons in Hex as [Hnan|Hex]; [|by apply IH].
  apply foldl_plus_NaN, plus_NaN. right. by apply times_NaN.
Qed.

(** The form is complete: a customer, a reason and at least one line. *)
Lemma complete_form_passes formData (returnItems : list ReturnItem) :
  truthy (customer_id formData) = true →
  truthy (return_reason formData) = true →
  returnItems ≠ [] →
  negb (truthy (customer_id formData)) || negb (truthy (return_reason formData))
  || (length returnItems =? 0)%nat = false.
Proof. intros -> -> Hne. by destruct returnItems. Qed.

(** X16: a return worth 500 or more gets an approval workflow.  With a
    customer, a reason and at least one line, and the backend calls going
    through, the return is created with every line of the form as it was
    typed, none left out; a row of approval_workflows, pending, for the
    amount of the return is added exactly when the financial impact is at
    least 500, the impact being the double the page gets by adding up
    quantity times unit price line by line.  A line with an empty quantity
    or price makes the impact NaN, and then no approval is asked for
    whatever the other lines are worth.  The products and the sum being
    rounded, lines worth 500.00 to the cent can stay below: 11.12 at 0.98
    and 4.64 at 105.41 make 499.99999999999994, and no approval is asked
    for. *)
Theorem workflow_requested_from_500 :
  (∀ user formData returnItems (s : Sys Store),
     truthy (customer_id formData) = true →
     truthy (return_reason formData) = true →
     returnItems ≠ [] →
     all_succeed s →
     let result := handleSubmit user formData returnItems s in
     let key := length (material_returns (store s)) in
     result.1 = Returned returnCreatedSuccessfully
     ∧ material_returns (store result.2)
       = material_returns (store s)
         ++ [{| ret_formData := formData; ret_created_by := user |}]
     ∧ material_return_items (store result.2)
       = material_return_items (store s) ++ List.map (λ item, (key, item)) returnItems
     ∧ approval_workflows (store result.2)
       = approval_workflows (store s)
         ++ (if at_least (financialImpact returnItems) 500
             then [{| transaction_type := "material_return"; transaction_id := key;
                      requested_by := user; wf_amount := financialImpact returnItems;
                      wf_status := "pending" |}]
             else [])
     ∧ (Exists (λ item, PrimFloat.is_nan (quantity_returned item) = true
                        ∨ PrimFloat.is_nan (unit_price item) = true) returnItems →
        approval_workflows (store result.2) = approval_workflows (store s)))
  ∧ (let returnItems := [sample_line 11.12 0.98; sample_line 4.64 105.41] in
     financialImpact returnItems = 499.99999999999994%float
     ∧ at_least (financialImpact returnItems) 500 = false
     ∧ approval_workflows
         (store (handleSubmit (Some "user-1") sample_form returnItems
                   (mkSys empty_store [])).2) = []).
Proof.
  split; [|by vm_compute].
  intros user formData returnItems s Hc Hr Hne Hall result key.
  subst result key. unfold handleSubmit.
  rewrite (complete_form_passes formData returnItems Hc Hr Hne).
  unfold try_catch, insert_return, insert_return_items. rewrite bind_unfold.
  match goal with |- context [remote ?e s] =>
    destruct (remote_all_succeed e s Hall) as (rest1 & -> & Hall1)
  end.
  cbn [fst snd] in *. rewrite bind_unfold.
  match goal with |- context [remote ?e ?s1] =>
    destruct (remote_all_succeed e s1 Hall1) as (rest2 & -> & Hall2)
  end.
  cbn [fst snd] in *. rewrite bind_unfold.
  destruct (at_least (financialImpact returnItems) 500) eqn:Himpact.
  - rewrite bind_unfold. unfold insert_workflow.
    match goal with |- context [remote ?e ?s2] =>
      destruct (remote_all_succeed e s2 Hall2) as (rest3 & -> & Hall3)
    end.
    simpl. repeat split; try done.
    intros Hnan. apply financialImpact_NaN in Hnan.
    by rewrite (at_least_NaN _ 500%float Hnan) in Himpact.
  - simpl. rewrite app_nil_r. repeat split; done.
Qed.

(** Two drums at 300 each: the return is created with its line and an
    approval is asked for, for 600. *)
Lemma workflow_requested_from_500_witness :
  let returnItems := [sample_line 2 300] in
  let result := handleSubmit (Some "user-1") sample_form returnItems
                  (mkSys empty_store []) in
  returnItems ≠ []
  ∧ result.1 = Returned returnCreatedSuccessfully
  ∧ material_return_items (store result.2) = [(0%nat, sample_line 2 300)]
  ∧ approval_workflows (store result.2)
    = [{| transaction_type := "material_return"; transaction_id := 0%nat;
          requested_by := Some "user-1"; wf_amount := 600%float;
          wf_status := "pending" |}].
Proof.
  intros returnItems result.
  assert (Hne : returnItems ≠ []) by discriminate.
  split; [exact Hne|].
  destruct (proj1 workflow_requested_from_500 (Some "user-1") sample_form returnItems
              (mkSys empty_store []) eq_refl eq_refl Hne (all_succeed_nil _))
    as (Halert & _ & Hitems & Hflows & _).
  split; [exact Halert|]. unfold result. rewrite Hitems, Hflows. by vm_compute.
Defined.

(** X17: the answer of the workflow insert is not looked at.  For a return
    worth 500 or more, when the workflow insert returns an error the save
    still reports success, with the return and its lines on file and no
    workflow; when it rejects, the save reports the failure although the
    return and its lines are on file.  And however the calls turn out, a
    workflow row is only added after the return and all its lines. *)
Theorem workflow_insert_is_not_checked user formData returnItems (w : Store) m :
  truthy (customer_id formData) = true →
  truthy (return_reason formData) = true →
  returnItems ≠ [] →
  at_least (financialImpact returnItems) 500 = true →
  let key := length (material_returns w) in
  let on_file (w' : Store) :=
    material_returns w'
    = material_returns w ++ [{| ret_formData := formData; ret_created_by := user |}]
    ∧ material_return_items w'
      = material_return_items w ++ List.map (λ item, (key, item)) returnItems
    ∧ approval_workflows w' = approval_workflows w in
  let returned := handleSubmit user formData returnItems
                    (mkSys w [Succeeds; Succeeds; ReturnsError m]) in
  let rejected := handleSubmit user formData returnItems
                    (mkSys w [Succeeds; Succeeds; Rejects m]) in
  (returned.1 = Returned returnCreatedSuccessfully ∧ on_file (store returned.2))
  ∧ (rejected.1 = Returned (Failed m) ∧ on_file (store rejected.2))
  ∧ (∀ script,
       let w' := store (handleSubmit user formData returnItems (mkSys w script)).2 in
       approval_workflows w' ≠ approval_workflows w →
       material_returns w'
       = material_returns w ++ [{| ret_formData := formData; ret_created_by := user |}]
       ∧ material_return_items w'
         = material_return_items w ++ List.map (λ item, (key, item)) returnItems).
Proof.
  intros Hc Hr Hne Himpact key on_file returned rejected.
  split; [|split]; cycle 2.
  { intros script. subst key. unfold handleSubmit.
    rewrite (complete_form_passes formData returnItems Hc Hr Hne), Himpact.
    unfold try_catch, insert_return, insert_return_items, insert_workflow.
    remote_step; try done.
    remote_step; try done.
    rewrite bind_unfold. remote_step; done. }
  all: subst returned rejected on_file key; unfold handleSubmit.
  all: rewrite (complete_form_passes formData returnItems Hc Hr Hne), Himpact.
  all: unfold try_catch, insert_return, insert_return_items, insert_workflow.
  all: rewrite !bind_unfold, !remote_Succeeds; cbn [fst snd].
  all: rewrite !bind_unfold, !remote_Succeeds; cbn [fst snd].
  all: rewrite !bind_unfold, ?remote_ReturnsError, ?remote_Rejects; simpl.
  all: repeat split; done.
Qed.

(** Two drums at 300 each: the return is on file, reported as created,
    with no workflow when the workflow insert returns an error. *)
Lemma workflow_insert_is_not_checked_witness :
  let returnItems := [sample_line 2 300] in
  let returned := handleSubmit (Some "user-1") sample_form returnItems
                    (mkSys empty_store [Succeeds; Succeeds; ReturnsError "timeout"]) in
  returnItems ≠ []
  ∧ at_least (financialImpact returnItems) 500 = true
  ∧ returned.1 = Returned returnCreatedSuccessfully
  ∧ approval_workflows (store returned.2) = [].
Proof.
  intros returnItems returned.
  assert (Hne : returnItems ≠ []) by discriminate.
  split; [exact Hne|]. split; [reflexivity|].
  destruct (workflow_insert_is_not_checked (Some "user-1") sample_form returnItems
              empty_store "timeout" eq_refl eq_refl Hne eq_refl)
    as ((Halert & _ & _ & Hflows) & _ & _).
  split; [exact Halert|exact Hflows].
Defined.
End ReturnApproval.

(** ** Remote calls that go through, counted *)

Section RemoteCounted.
Context {W : Type}.

Lemma all_succeed_goes_through (n : nat) (s : Sys W) : all_succeed s → goes_through n s.
Proof. unfold all_succeed, goes_through. apply Forall_take. Qed.

Lemma goes_through_le (n k : nat) (s : Sys W) :
  (k ≤ n)%nat → goes_through n s → goes_through k s.
Proof.
  unfold goes_through. intros Hle Hn.
  replace (take k (script s)) with (take k (take n (script s)))
    by (rewrite take_take; f_equal; lia).
  by apply Forall_take.
Qed.

Lemma remote_goes_through {A} (effect : W → Reply A * W) (s : Sys W) n :
  goes_through (S n) s →
  remote effect s
  = (Returned (effect (store s)).1, mkSys (effect (store s)).2 (drop 1 (script s)))
  ∧ goes_through n (mkSys (effect (store s)).2 (drop 1 (script s))).
Proof.
  unfold goes_through, remote. destruct (script s) as [|o rest]; simpl.
  - intros _. destruct (effect (store s)). split; [done|]. by rewrite take_nil.
  - intros Hall. apply Forall_cons in Hall as [-> Hall].
    destruct (effect (store s)). by rewrite drop_0.
Qed.

Lemma goes_through_replicate (n k : nat) (w : W) tail :
  (k ≤ n)%nat → goes_through k (mkSys w (replicate n Succeeds ++ tail)).
Proof.
  intros Hle. unfold goes_through. simpl.
  rewrite take_app_le by (rewrite length_replicate; lia).
  apply Forall_take. by apply Forall_replicate.
Qed.

Lemma drop_replicate_app (n : nat) (tail : list Outcome) :
  drop n (replicate n Succeeds ++ tail) = tail.
Proof.
  rewrite drop_app_length'; [done|]. by rewrite length_replicate.
Qed.
End RemoteCounted.

(** ** Deleting a product *)

Module ProductDeletion.
Import Products.

Lemma batches_of_spec product (w : Store) batch :
  batch ∈ batches_of product w ↔ batches w !! batch = Some product.
Proof.
  unfold batches_of. rewrite list_elem_of_In, in_map_iff. split.
  - intros ([key owner] & <- & Hin). apply filter_In in Hin as [Hin Howner].
    simpl in *. apply String.eqb_eq in Howner as ->.
    by apply elem_of_map_to_list, list_elem_of_In.
  - intros Hbatch. exists (batch, product). split; [done|]. apply filter_In. split.
    + by apply list_elem_of_In, elem_of_map_to_list.
    + apply String.eqb_refl.
Qed.

Lemma kept_refl product gone : Reflexive (kept product gone).
Proof. intros w. unfold kept. naive_solver. Qed.

Lemma kept_trans product gone : Transitive (kept product gone).
Proof.
  intros w1 w2 w3 (Ha1 & Ha2 & Ha3 & Ha4 & Ha5 & Ha6 & Ha7 & Ha8)
    (Hb1 & Hb2 & Hb3 & Hb4 & Hb5 & Hb6 & Hb7 & Hb8).
  unfold kept. split; [congruence|]. split; [congruence|].
  split; [intros other Hne; by rewrite Hb3, Ha3|].
  repeat split; eauto.
Qed.

Lemma elem_of_filter_bool {A} (p : A → bool) (l : list A) x :
  x ∈ List.filter p l ↔ x ∈ l ∧ p x = true.
Proof. rewrite !list_elem_of_In. apply filter_In. Qed.

Lemma eqb_false_ne (a b : string) : a ≠ b → negb (String.eqb a b) = true.
Proof. intros Hne. by destruct (String.eqb_spec a b). Qed.

Lemma is_string_false s column : column ≠ Some s → negb (is_string s column) = true.
Proof.
  intros Hne. destruct column as [x|]; simpl; [|done].
  destruct (String.eqb_spec x s) as [->|]; done.
Qed.

Lemma is_string_true s column : negb (is_string s column) = true → column ≠ Some s.
Proof.
  destruct column as [x|]; simpl; [|done].
  destruct (String.eqb_spec x s) as [->|]; [done|congruence].
Qed.

Section Kept.
Context (product : string) (gone : list string).

Local Instance kept_reflexive : Reflexive (kept product gone) := kept_refl product gone.
Local Instance kept_transitive : Transitive (kept product gone) := kept_trans product gone.

Lemma delete_batch_rows_kept batch :
  batch ∈ gone → preserves (kept product gone) (delete_batch_rows batch).
Proof.
  intros Hgone. unfold delete_batch_rows.
  repeat preserve_step; try apply _; apply preserves_remote; intros w;
    unfold kept; simpl; repeat split; try done.
  - intros b Hb Hin. apply elem_of_filter_bool. split; [done|].
    apply eqb_false_ne. by intros ->.
  - intros row Hrow _ Hin. apply elem_of_filter_bool. split; [done|].
    apply is_string_false. intros Heq. by apply (Hrow batch).
  - intros expense Hexpense Hin. apply elem_of_filter_bool. split; [done|].
    apply is_string_false. intros ->. by apply (Hexpense batch).
Qed.

Lemma product_deletes_kept :
  preserves (kept product gone)
    (let* _ := delete_product_transactions product in
     let* _ := delete_product_files product in
     let* deleted := delete_product product in
     match deleted with
     | Error error => throw error
     | Data _ => ret (Some "Product deleted successfully")
     end).
Proof.
  repeat preserve_step; try apply _; apply preserves_remote; intros w;
    unfold kept; simpl; repeat split; try done.
  - intros row _ Hrow Hin. apply elem_of_filter_bool. split; [done|].
    by apply is_string_false.
  - intros file Hfile Hin. apply elem_of_filter_bool. split; [done|].
    by apply eqb_false_ne.
  - intros Hin. apply elem_of_difference in Hin as [Hin _]. done.
  - intros Hin. apply elem_of_difference. split; [done|].
    by intros ->%elem_of_singleton.
Qed.

Lemma delete_batches_kept : preserves (kept product gone) (delete_batches product).
Proof.
  apply preserves_remote; [apply _|]. intros w. unfold kept; simpl.
  repeat split; try done.
  intros batch owner Hne Hbatch. by apply map_lookup_filter_Some.
Qed.

Lemma cascade_kept (batches : Reply (list string)) :
  (∀ found, batches = Data found → Forall (λ batch, batch ∈ gone) found) →
  preserves (kept product gone)
    (let* _ :=
       match batches with
       | Data (batch :: others) =>
           let* _ := for_of (batch :: others) delete_batch_rows in
           let* _ := delete_batches product in
           ret tt
       | _ => ret tt
       end in
     let* _ := delete_product_transactions product in
     let* _ := delete_product_files product in
     let* deleted := delete_product product in
     match deleted with
     | Error error => throw error
     | Data _ => ret (Some "Product deleted successfully")
     end).
Proof.
  intros Hfound. apply preserves_bind; [apply _| |intros _; apply product_deletes_kept].
  destruct batches as [[|batch others]|message]; try apply preserves_ret; try apply _.
  specialize (Hfound _ eq_refl).
  apply preserves_bind; [apply _| |].
  - clear -Hfound. induction Hfound as [|b l Hb _ IH]; simpl.
    + apply preserves_ret. apply _.
    + apply preserves_bind; [apply _|by apply delete_batch_rows_kept|]. intros _. apply IH.
  - intros _. apply preserves_bind; [apply _|apply delete_batches_kept|].
    intros _. apply preserves_ret. apply _.
Qed.
End Kept.

Lemma delete_cascade_kept confirmed product (s : Sys Store) :
  kept product (batches_of product (store s)) (store s)
    (store (delete_cascade confirmed product s).2).
Proof.
  set (gone := batches_of product (store s)).
  assert (Hrefl : ∀ w, kept product gone w w) by apply kept_refl.
  unfold delete_cascade, select_batches. rewrite bind_unfold.
  match goal with
  | |- context [remote ?e ?s0] =>
      destruct (remote_cases e s0) as [(r & ->)|[(m' & r & ->)|(m' & r & ->)]]
  end; cbn [fst snd]; try apply Hrefl.
  all: destruct confirmed; cbn [negb]; try apply Hrefl.
  all: first [ pose proof (cascade_kept product gone (Error m')) as Hk
             | pose proof (cascade_kept product gone (Data gone)) as Hk ].
  all: match type of Hk with
       | ?P → _ =>
           assert (Hfound : P)
             by (intros found [= <-]; apply Forall_forall; by intros batch Hbatch)
       end.
  all: exact (Hk Hfound _).
Qed.

Lemma handleDelete_kept confirmed product (s : Sys Store) :
  others_kept product (store s) (store (handleDelete confirmed product s).2).
Proof.
  unfold others_kept. set (gone := batches_of product (store s)).
  assert (Hrefl : ∀ w, kept product gone w w) by apply kept_refl.
  assert (Hcascade : ∀ sc,
            kept product gone (store s)
              (store (try_catch (delete_cascade confirmed product)
                        (λ message, ret (Some (delete_failure_alert message)))
                        (mkSys (store s) sc)).2)).
  { intros sc. unfold try_catch.
    pose proof (delete_cascade_kept confirmed product (mkSys (store s) sc)) as Hk.
    destruct (delete_cascade confirmed product (mkSys (store s) sc)) as [[a|e] s2];
      exact Hk. }
  unfold handleDelete, select_sales_items, select_challan_items.
  unfold try_catch at 1. rewrite bind_unfold.
  match goal with
  | |- context [remote ?e ?s0] =>
      destruct (remote_cases e s0) as [(r & ->)|[(m' & r & ->)|(m' & r & ->)]]
  end; cbn [fst snd]; try apply Hrefl.
  all: try (destruct (take 1 _); [|by apply Hrefl]).
  all: rewrite bind_unfold;
    match goal with
    | |- context [remote ?e ?s0] =>
        destruct (remote_cases e s0) as [(r' & ->)|[(m'' & r' & ->)|(m'' & r' & ->)]]
    end; cbn [fst snd store]; try apply Hrefl.
  all: try (destruct (take 1 _); [|by apply Hrefl]).
  all: apply Hcascade.
Qed.

(** The loop over the batches, its calls going through: the rows of the
    batches are gone from the three tables, and the rest is as it was. *)
Lemma batch_loop_runs (gone : list string) (s : Sys Store) n :
  goes_through (3 * length gone + n) s →
  ∃ w1,
    for_of gone delete_batch_rows s
    = (Returned tt, mkSys w1 (drop (3 * length gone) (script s)))
    ∧ goes_through n (mkSys w1 (drop (3 * length gone) (script s)))
    ∧ products w1 = products (store s)
    ∧ sales_invoice_items w1 = sales_invoice_items (store s)
    ∧ delivery_challan_items w1 = delivery_challan_items (store s)
    ∧ batches w1 = batches (store s)
    ∧ product_files w1 = product_files (store s)
    ∧ (∀ batch, batch ∈ batch_documents w1 →
                batch ∈ batch_documents (store s) ∧ batch ∉ gone)
    ∧ (∀ expense, expense ∈ finance_expenses w1 →
                  expense ∈ finance_expenses (store s)
                  ∧ ∀ batch, batch ∈ gone → expense ≠ Some batch)
    ∧ (∀ row, row ∈ inventory_transactions w1 →
              row ∈ inventory_transactions (store s)
              ∧ ∀ batch, batch ∈ gone → row.1 ≠ Some batch).
Proof.
  revert s. induction gone as [|batch gone IH]; intros s Hgo.
  - exists (store s). simpl. rewrite drop_0. destruct s as [w sc]. simpl.
    split; [done|]. split; [exact Hgo|]. repeat split; try done.
    + apply not_elem_of_nil.
    + intros b Hb. by apply not_elem_of_nil in Hb.
    + intros b Hb. by apply not_elem_of_nil in Hb.
  - cbn [for_of]. rewrite bind_unfold. unfold delete_batch_rows at 1.
    replace (3 * length (batch :: gone) + n)%nat
      with (S (S (S (3 * length gone + n)))) in Hgo by (simpl; lia).
    rewrite bind_unfold. unfold delete_batch_documents.
    destruct (remote_goes_through
                (λ w : Store,
                   (Data tt,
                    {| products := products w;
                       sales_invoice_items := sales_invoice_items w;
                       delivery_challan_items := delivery_challan_items w;
                       batches := batches w;
                       batch_documents :=
                         List.filter (λ b, negb (String.eqb b batch)) (batch_documents w);
                       inventory_transactions := inventory_transactions w;
                       finance_expenses := finance_expenses w;
                       product_files := product_files w |})) s _ Hgo) as [-> Hgo1].
    cbn [fst snd] in *. rewrite bind_unfold. unfold delete_batch_transactions.
    match goal with |- context [remote ?e ?s1] =>
      destruct (remote_goes_through e s1 _ Hgo1) as [-> Hgo2]
    end.
    cbn [fst snd store script] in *. rewrite bind_unfold. unfold delete_batch_expenses.
    match goal with |- context [remote ?e ?s2] =>
      destruct (remote_goes_through e s2 _ Hgo2) as [-> Hgo3]
    end.
    cbn [fst snd store script ret] in *.
    match goal with |- context [for_of gone _ ?s3] =>
      destruct (IH s3 Hgo3)
        as (w1 & -> & Hgo4 & Hp & Hsi & Hci & Hb & Hf & Hbd & Hfe & Hit)
    end.
    cbn [store script products sales_invoice_items delivery_challan_items batches
         batch_documents inventory_transactions finance_expenses product_files] in *.
    assert (Hdrop : drop (3 * length gone) (drop 1 (drop 1 (drop 1 (script s))))
                    = drop (3 * length (batch :: gone)) (script s)).
    { rewrite !drop_drop. f_equal. simpl. lia. }
    rewrite Hdrop in *.
    exists w1. split; [done|]. split; [exact Hgo4|].
    split; [done|]. split; [done|]. split; [done|]. split; [done|]. split; [done|].
    split; [|split].
    + intros b Hin. destruct (Hbd b Hin) as [Hold Hnot].
      apply elem_of_filter_bool in Hold as [Hold Hne]. split; [done|].
      intros [->|Hgone]%elem_of_cons; [|done].
      by rewrite String.eqb_refl in Hne.
    + intros expense Hin. destruct (Hfe expense Hin) as [Hold Hnot].
      apply elem_of_filter_bool in Hold as [Hold Hne]. split; [done|].
      intros b [->|Hgone]%elem_of_cons; [|by apply Hnot].
      by apply is_string_true.
    + intros row Hin. destruct (Hit row Hin) as [Hold Hnot].
      apply elem_of_filter_bool in Hold as [Hold Hne]. split; [done|].
      intros b [->|Hgone]%elem_of_cons; [|by apply Hnot].
      by apply is_string_true.
Qed.

Lemma lookup_finds product (rows : list string) :
  product ∈ rows →
  ∃ found others, take 1 (List.filter (String.eqb product) rows) = found :: others.
Proof.
  intros Hin.
  assert (product ∈ List.filter (String.eqb product) rows) as Hf.
  { apply elem_of_filter_bool. split; [done|]. apply String.eqb_refl. }
  destruct (List.filter (String.eqb product) rows) as [|x l]; [by inversion Hf|].
  by exists x, [].
Qed.

Lemma lookup_finds_nothing product (rows : list string) :
  product ∉ rows → take 1 (List.filter (String.eqb product) rows) = [].
Proof.
  intros Hnot. destruct (List.filter (String.eqb product) rows) as [|x l] eqn:Hf; [done|].
  assert (x ∈ List.filter (String.eqb product) rows) as Hx by (rewrite Hf; by left).
  apply elem_of_filter_bool in Hx as [Hx Heq]. apply String.eqb_eq in Heq as ->. done.
Qed.

(** A confirmed cascade up to the delete of the product itself. *)
Lemma delete_cascade_runs product (s : Sys Store) n :
  goes_through (cascade_calls (batches_of product (store s)) + n) s →
  ∃ w1,
    delete_cascade true product s
    = (let* deleted := delete_product product in
       match deleted with
       | Error error => throw error
       | Data _ => ret (Some "Product deleted successfully")
       end)
        (mkSys w1 (drop (cascade_calls (batches_of product (store s))) (script s)))
    ∧ goes_through n
        (mkSys w1 (drop (cascade_calls (batches_of product (store s))) (script s)))
    ∧ cascaded product (batches_of product (store s)) (store s) w1.
Proof.
  intros Hgo.
  pose proof (batches_of_spec product (store s)) as Hspec.
  unfold delete_cascade, select_batches.
  set (gone := batches_of product (store s)) in *.
  unfold cascade_calls in *.
  replace (1 + 3 * length gone + (if gone is [] then 0 else 1) + 2 + n)%nat
    with (S (3 * length gone + ((if gone is [] then 0 else 1) + S (S n))))
    in Hgo by lia.
  rewrite bind_unfold.
  match goal with |- context [remote ?e ?s2] =>
    destruct (remote_goes_through e s2 _ Hgo) as [-> Hgo3]
  end.
  cbn [fst snd store script negb] in *. fold gone. rewrite bind_unfold.
  assert (Htail : ∀ (w1 : Store) sc,
            goes_through (S (S n)) (mkSys w1 sc) →
            ∃ w2,
              bind (delete_product_transactions product)
                (λ _, bind (delete_product_files product)
                        (λ _, bind (delete_product product)
                                (λ deleted,
                                   match deleted with
                                   | Error error => throw error
                                   | Data _ => ret (Some "Product deleted successfully")
                                   end))) (mkSys w1 sc)
              = bind (delete_product product)
                  (λ deleted,
                     match deleted with
                     | Error error => throw error
                     | Data _ => ret (Some "Product deleted successfully")
                     end) (mkSys w2 (drop 2 sc))
              ∧ goes_through n (mkSys w2 (drop 2 sc))
              ∧ products w2 = products w1
              ∧ sales_invoice_items w2 = sales_invoice_items w1
              ∧ delivery_challan_items w2 = delivery_challan_items w1
              ∧ batches w2 = batches w1
              ∧ batch_documents w2 = batch_documents w1
              ∧ finance_expenses w2 = finance_expenses w1
              ∧ (product ∉ product_files w2)
              ∧ (∀ row, row ∈ inventory_transactions w2 →
                        row ∈ inventory_transactions w1 ∧ row.2 ≠ Some product)).
  { intros w1 sc Hgo'. rewrite bind_unfold. unfold delete_product_transactions.
    match goal with |- context [remote ?e ?s0] =>
      destruct (remote_goes_through e s0 _ Hgo') as [-> Hgo'1]
    end.
    cbn [fst snd store script] in *. rewrite bind_unfold. unfold delete_product_files.
    match goal with |- context [remote ?e ?s0] =>
      destruct (remote_goes_through e s0 _ Hgo'1) as [-> Hgo'2]
    end.
    cbn [fst snd store script] in *. rewrite drop_drop in *.
    eexists. split; [reflexivity|]. split; [exact Hgo'2|]. simpl.
    do 6 (split; [done|]). split.
    - intros Hin. apply elem_of_filter_bool in Hin as [_ Hne].
      by rewrite String.eqb_refl in Hne.
    - intros row Hrow. apply elem_of_filter_bool in Hrow as [Hrow Hne].
      split; [done|]. by apply is_string_true. }
  destruct gone as [|batch others] eqn:Hgone.
  - cbn [ret]. simpl in Hgo3.
    destruct (Htail _ _ Hgo3) as (w2 & -> & Hgo4 & Hp & Hsi & Hci & Hb & Hbd & Hfe & Hpf & Hit).
    rewrite !drop_drop in *. simpl in *.
    exists w2. split; [done|]. split; [exact Hgo4|].
    unfold cascaded. rewrite Hp, Hsi, Hci, Hb.
    split; [done|]. split; [done|]. split; [done|]. split; [|split; [done|split]].
    + intros b Hb'. apply Hspec in Hb'. by apply not_elem_of_nil in Hb'.
    + intros row Hrow. by apply Hit.
    + intros b Hb'. by apply not_elem_of_nil in Hb'.
  - rewrite bind_unfold.
    destruct (batch_loop_runs (batch :: others) _ _ Hgo3)
      as (w1 & -> & Hgo4 & Hp & Hsi & Hci & Hb & Hf & Hbd & Hfe & Hit).
    cbn [store script] in *. rewrite bind_unfold. unfold delete_batches.
    match goal with |- context [remote ?e ?s0] =>
      destruct (remote_goes_through e s0 _ Hgo4) as [-> Hgo5]
    end.
    cbn [fst snd store script ret] in *.
    destruct (Htail _ _ Hgo5)
      as (w2 & -> & Hgo6 & Hp2 & Hsi2 & Hci2 & Hb2 & Hbd2 & Hfe2 & Hpf2 & Hit2).
    simpl in Hp2, Hsi2, Hci2, Hb2, Hbd2, Hfe2, Hit2.
    assert (Hdrop : drop 2 (drop 1 (drop (3 * length (batch :: others))
                                      (drop 1 (script s))))
                    = drop (1 + 3 * length (batch :: others) + 1 + 2) (script s)).
    { rewrite !drop_drop. f_equal. lia. }
    rewrite Hdrop in *.
    exists w2. split; [done|]. split; [exact Hgo6|].
    unfold cascaded. rewrite Hp2, Hsi2, Hci2, Hb2, Hp, Hsi, Hci.
    split; [done|]. split; [done|]. split; [done|]. split; [|split; [done|split]].
    + intros b Hb'. apply map_lookup_filter_Some in Hb' as [_ Hne]. done.
    + intros row Hrow. by apply Hit2.
    + intros b Hb'. rewrite Hbd2, Hfe2. split; [|split].
      * intros Hin. by destruct (Hbd b Hin).
      * intros Hin. destruct (Hfe _ Hin) as [_ Hnot]. by apply (Hnot b).
      * intros row Hrow. destruct (Hit2 row Hrow) as [Hrow1 _].
        destruct (Hit row Hrow1) as [_ Hnot]. by apply Hnot.
Qed.

(** The cascade with all its calls going through. *)
Lemma delete_cascade_succeeds product (s : Sys Store) :
  goes_through (cascade_calls (batches_of product (store s)) + 1) s →
  (delete_cascade true product s).1 = Returned (Some "Product deleted successfully")
  ∧ product_gone product (store (delete_cascade true product s).2)
  ∧ batch_rows_gone (batches_of product (store s))
      (store (delete_cascade true product s).2).
Proof.
  intros Hgo.
  destruct (delete_cascade_runs product s 1 Hgo)
    as (w1 & -> & Hgo1 & (Hp & _ & _ & Hb & Hf & Hit & Hrows)).
  rewrite bind_unfold. unfold delete_product.
  match goal with |- context [remote ?e ?s0] =>
    destruct (remote_goes_through e s0 _ Hgo1) as [-> _]
  end.
  cbn [fst snd store ret]. split; [done|]. split; [|exact Hrows].
  unfold product_gone. simpl. split; [|done].
  intros Hin. apply elem_of_difference in Hin as [_ Hnot].
  apply Hnot. by apply elem_of_singleton.
Qed.

(** The cascade with its last call, the delete of the product, failing. *)
Lemma delete_cascade_fails_last product (w : Store) o m rest :
  o = ReturnsError m ∨ o = Rejects m →
  let gone := batches_of product w in
  let result := delete_cascade true product
                  (mkSys w (replicate (cascade_calls gone) Succeeds ++ o :: rest)) in
  result.1 = Thrown m ∧ cascaded product gone w (store result.2).
Proof.
  intros Ho gone result. subst result.
  destruct (delete_cascade_runs product
              (mkSys w (replicate (cascade_calls gone) Succeeds ++ o :: rest)) 0)
    as (w1 & -> & _ & Hc).
  { cbn [store]. apply goes_through_replicate. fold gone. lia. }
  cbn [store script]. fold gone. rewrite drop_replicate_app, bind_unfold.
  unfold delete_product.
  destruct Ho as [-> | ->];
    [rewrite remote_ReturnsError|rewrite remote_Rejects]; by cbn [fst snd store throw].
Qed.

(** X18: a product that is in use is not deleted.  When the product has a
    line on a sales invoice or on a delivery challan and the lookups of the
    two guards go through, [handleDelete] answers with the alert of the
    guard that found it and writes nothing, whatever the answer to the
    confirm would be; and when the user declines the confirm, nothing is
    written either, however the backend calls turn out. *)
Theorem used_product_is_not_deleted confirmed product (s : Sys Store) :
  (goes_through 2 s →
   product ∈ sales_invoice_items (store s) ∨ product ∈ delivery_challan_items (store s) →
   store (handleDelete confirmed product s).2 = store s
   ∧ ((handleDelete confirmed product s).1 = Returned (Some used_in_invoices)
      ∨ (handleDelete confirmed product s).1 = Returned (Some used_in_challans)))
  ∧ (confirmed = false →
     store (handleDelete confirmed product s).2 = store s
     ∧ (handleDelete confirmed product s).1
       ≠ Returned (Some "Product deleted successfully")).
Proof.
  split.
  - intros Hgo Hused. unfold handleDelete, try_catch, select_sales_items,
      select_challan_items.
    rewrite bind_unfold.
    match goal with |- context [remote ?e s] =>
      destruct (remote_goes_through e s _ Hgo) as [-> Hgo1]
    end.
    cbn [fst snd] in *.
    destruct (decide (product ∈ sales_invoice_items (store s))) as [Hin|Hnot].
    { destruct (lookup_finds _ _ Hin) as (found & others & ->). simpl. by auto. }
    rewrite (lookup_finds_nothing _ _ Hnot), bind_unfold.
    match goal with |- context [remote ?e ?s1] =>
      destruct (remote_goes_through e s1 _ Hgo1) as [-> _]
    end.
    cbn [fst snd store] in *.
    destruct Hused as [?|Hin]; [done|].
    destruct (lookup_finds _ _ Hin) as (found & others & ->). simpl. by auto.
  - intros ->. unfold handleDelete, try_catch, select_sales_items,
      select_challan_items, delete_cascade, select_batches.
    remote_step; try (split; [done|]; unfold delete_failure_alert; discriminate).
    all: try (destruct (take 1 _); [|split; [done|discriminate]]).
    all: remote_step; try (split; [done|]; unfold delete_failure_alert; discriminate).
    all: try (destruct (take 1 _); [|split; [done|discriminate]]).
    all: remote_step; split; try done; unfold delete_failure_alert; discriminate.
Qed.

(** Product Q of the sample store, with a line on a challan. *)
Lemma used_product_is_not_deleted_witness :
  let w := {| products := products sample_store;
              sales_invoice_items := sales_invoice_items sample_store;
              delivery_challan_items := ["Q"];
              batches := batches sample_store;
              batch_documents := batch_documents sample_store;
              inventory_transactions := inventory_transactions sample_store;
              finance_expenses := finance_expenses sample_store;
              product_files := product_files sample_store |} in
  goes_through 2 (mkSys w [])
  ∧ "Q" ∈ delivery_challan_items w
  ∧ store (handleDelete true "Q" (mkSys w [])).2 = w.
Proof.
  intros w.
  assert (Hgo : goes_through 2 (mkSys w [])) by constructor.
  assert (Hin : "Q" ∈ delivery_challan_items w) by (by left).
  split; [exact Hgo|]. split; [exact Hin|].
  exact (proj1 (proj1 (used_product_is_not_deleted true "Q" (mkSys w [])) Hgo
                  (or_intror Hin))).
Defined.

(** X19: deleting a product takes its batches with it and leaves the rest.
    However the backend calls turn out and whatever the user answers, the
    other products, the batches of other products, and the documents,
    expenses, transactions and files that belong neither to the product nor
    to one of its batches stay, as do all invoice and challan lines.  When
    the product is on no invoice and no challan, the user confirms and the
    calls go through, the alert reports the delete, and the product, its
    batches, its files, its transactions and the documents, expenses and
    transactions of its batches are gone. *)
Theorem product_delete_cascades confirmed product (s : Sys Store) :
  let result := handleDelete confirmed product s in
  others_kept product (store s) (store result.2)
  ∧ (confirmed = true →
     product ∉ sales_invoice_items (store s) →
     product ∉ delivery_challan_items (store s) →
     all_succeed s →
     result.1 = Returned (Some "Product deleted successfully")
     ∧ product_gone product (store result.2)
     ∧ batch_rows_gone (batches_of product (store s)) (store result.2)).
Proof.
  intros result. split; [apply handleDelete_kept|].
  intros -> Hinvoices Hchallans Hall. subst result.
  unfold handleDelete, try_catch, select_sales_items, select_challan_items.
  rewrite bind_unfold.
  match goal with |- context [remote ?e s] =>
    destruct (remote_all_succeed e s Hall) as (rest1 & -> & Hall1)
  end.
  cbn [fst snd] in *. rewrite (lookup_finds_nothing _ _ Hinvoices), bind_unfold.
  match goal with |- context [remote ?e ?s1] =>
    destruct (remote_all_succeed e s1 Hall1) as (rest2 & -> & Hall2)
  end.
  cbn [fst snd store] in *. rewrite (lookup_finds_nothing _ _ Hchallans).
  destruct (delete_cascade_succeeds product (mkSys (store s) rest2))
    as (Halert & Hgone & Hrows); [by apply all_succeed_goes_through|].
  destruct (delete_cascade true product (mkSys (store s) rest2)) as [[a|e] s2];
    simpl in *; [|done].
  injection Halert as ->. done.
Qed.

(** Product P of the sample store goes with its batches A and B and their
    rows. *)
Lemma product_delete_cascades_witness :
  let result := handleDelete true "P" (mkSys sample_store []) in
  ("P" ∉ sales_invoice_items sample_store)
  ∧ ("P" ∉ delivery_challan_items sample_store)
  ∧ result.1 = Returned (Some "Product deleted successfully")
  ∧ product_gone "P" (store result.2).
Proof.
  intros result.
  assert (Hinvoices : "P" ∉ sales_invoice_items sample_store) by apply not_elem_of_nil.
  assert (Hchallans : "P" ∉ delivery_challan_items sample_store) by apply not_elem_of_nil.
  split; [exact Hinvoices|]. split; [exact Hchallans|].
  destruct (proj2 (product_delete_cascades true "P" (mkSys sample_store []))
              eq_refl Hinvoices Hchallans (all_succeed_nil _))
    as (Halert & Hgone & _).
  split; [exact Halert|exact Hgone].
Defined.

(** X20: the guards give way when their lookups fail, and the cascade is
    not atomic.  A guard looks at the data of its lookup only: when both
    lookups return an error and the other calls go through, the product is
    deleted with all that belongs to it, in use or not; a lookup that
    rejects ends in the failure alert with nothing written.  And when the
    deletes before the last go through and the delete of the product
    itself fails, the alert reports the failure, the product is still on
    file and its batches are gone. *)
Theorem product_guards_fail_open product (w : Store) m :
  (∀ m' rest,
     all_succeed (mkSys w rest) →
     let result := handleDelete true product
                     (mkSys w (ReturnsError m :: ReturnsError m' :: rest)) in
     result.1 = Returned (Some "Product deleted successfully")
     ∧ product_gone product (store result.2))
  ∧ (∀ rest, (handleDelete true product (mkSys w (Rejects m :: rest)))
             = (Returned (Some (delete_failure_alert m)), mkSys w rest))
  ∧ (∀ o rest,
       product ∉ sales_invoice_items w →
       product ∉ delivery_challan_items w →
       o = ReturnsError m ∨ o = Rejects m →
       let gone := batches_of product w in
       let result := handleDelete true product
                       (mkSys w (Succeeds :: Succeeds
                                 :: replicate (cascade_calls gone) Succeeds
                                 ++ o :: rest)) in
       result.1 = Returned (Some (delete_failure_alert m))
       ∧ (product ∈ products (store result.2) ↔ product ∈ products w)
       ∧ (∀ batch, batches (store result.2) !! batch ≠ Some product)).
Proof.
  split; [|split].
  - intros m' rest Hall result. subst result.
    unfold handleDelete, try_catch, select_sales_items, select_challan_items.
    rewrite bind_unfold, remote_ReturnsError. cbn [fst snd].
    rewrite bind_unfold, remote_ReturnsError. cbn [fst snd].
    destruct (delete_cascade_succeeds product (mkSys w rest))
      as (Halert & Hgone & _); [by apply all_succeed_goes_through|].
    destruct (delete_cascade true product (mkSys w rest)) as [[a|e] s2];
      simpl in *; [|done].
    injection Halert as ->. done.
  - done.
  - intros o rest Hinvoices Hchallans Ho gone result. subst result.
    unfold handleDelete, try_catch, select_sales_items, select_challan_items.
    rewrite bind_unfold, remote_Succeeds. cbn [fst snd].
    rewrite (lookup_finds_nothing _ _ Hinvoices), bind_unfold, remote_Succeeds.
    cbn [fst snd]. rewrite (lookup_finds_nothing _ _ Hchallans).
    destruct (delete_cascade_fails_last product w o m rest Ho)
      as (Hthrown & (Hp & _ & _ & Hb & _)).
    fold gone in Hthrown, Hp, Hb.
    destruct (delete_cascade true product _) as [[a|e] s2]; simpl in *; [done|].
    injection Hthrown as ->. split; [done|]. split; [by rewrite Hp|done].
Qed.

(** Product P of the sample store with the delete of the product timing
    out: P stays, its batches are gone. *)
Lemma product_guards_fail_open_witness :
  let result := handleDelete true "P"
                  (mkSys sample_store
                     (Succeeds :: Succeeds
                      :: replicate (cascade_calls (batches_of "P" sample_store)) Succeeds
                      ++ [ReturnsError "timeout"])) in
  ("P" ∉ sales_invoice_items sample_store)
  ∧ ("P" ∉ delivery_challan_items sample_store)
  ∧ ("P" ∈ products (store result.2) ↔ "P" ∈ products sample_store)
  ∧ ∀ batch, batches (store result.2) !! batch ≠ Some "P".
Proof.
  intros result.
  assert (Hinvoices : "P" ∉ sales_invoice_items sample_store) by apply not_elem_of_nil.
  assert (Hchallans : "P" ∉ delivery_challan_items sample_store) by apply not_elem_of_nil.
  split; [exact Hinvoices|]. split; [exact Hchallans|].
  destruct (proj2 (proj2 (product_guards_fail_open "P" sample_store "timeout"))
              (ReturnsError "timeout") [] Hinvoices Hchallans (or_introl eq_refl))
    as (_ & Hstays & Hbatches).
  split; [exact Hstays|exact Hbatches].
Defined.
End ProductDeletion.

(** ** Creating a challan *)

Module ChallanCreation.
Import DeliveryChallan.

Lemma on_documents_remote {A} (effect : Store → Reply A * Store) (s : Sys OrderStore) :
  on_documents (remote effect) s
  = remote (λ w, ((effect (documents w)).1,
                  {| documents := (effect (documents w)).2;
                     sales_order_items := sales_order_items w |})) s.
Proof.
  destruct s as [[d lines] sc]. unfold on_documents, remote. simpl.
  destruct sc as [|[|m|m] rest]; simpl; try done.
  all: by destruct (effect d).
Qed.

Lemma bind_ret {W A B} (a : A) (k : A → Async W B) (s : Sys W) :
  bind (ret a) k s = k a s.
Proof. done. Qed.

Lemma for_of_skip {W A} (xs : list A) (s : Sys W) :
  for_of xs (λ _, ret tt) s = (Returned tt, s).
Proof. induction xs as [|x xs IH]; simpl; [done|]. by rewrite bind_unfold. Qed.

(** Runs the next backend call of the goal, lifted or not, in each of the
    three ways it can end. *)
Ltac lifted_step :=
  rewrite ?bind_ret, ?bind_unfold, ?on_documents_remote;
  match goal with
  | |- context [remote ?e ?s] =>
      let rest := fresh "rest" in
      let m := fresh "m" in
      destruct (remote_cases e s) as [(rest & ->)|[(m & rest & ->)|(m & rest & ->)]]
  end; cbn [fst snd store documents sales_order_items ret throw].

(** X21: creating a challan that is not linked to a sales order moves no
    stock.  However the backend calls turn out, the batches, the sales
    orders and the order lines are left as they were; with a valid form,
    the user signed in and the calls going through, the challan is on file
    under a key not in use before, in pending_approval and without a sales
    order, and its line items are added to the ones on file. *)
Theorem create_without_order_moves_no_stock now formData items (s : Sys OrderStore) :
  truthy (form_sales_order_id formData) = false →
  let result := handleSubmit_creating now formData items s in
  (batches (documents (store result.2)) = batches (documents (store s))
   ∧ sales_orders (documents (store result.2)) = sales_orders (documents (store s))
   ∧ sales_order_items (store result.2) = sales_order_items (store s))
  ∧ (∀ user_id,
       Forall (λ item, valid_item item = true) items →
       auth_user (documents (store s)) = Some user_id →
       all_succeed s →
       result.1 = Returned (Some "Delivery Challan created successfully!")
       ∧ ∃ challanId c,
           delivery_challans (documents (store s)) !! challanId = None
           ∧ delivery_challans (documents (store result.2))
             = <[challanId := c]> (delivery_challans (documents (store s)))
           ∧ approval_status c = pending_approval
           ∧ sales_order_id c = None
           ∧ created_by c = Some user_id
           ∧ delivery_challan_items (documents (store result.2))
             = delivery_challan_items (documents (store s))
               ++ List.map (λ item, (challanId, item)) items).
Proof.
  intros Hso result. subst result. unfold handleSubmit_creating. rewrite Hso.
  split.
  - destruct (0 <? length _)%nat; [done|].
    destruct (0 <? length _)%nat; [done|].
    unfold try_catch, getUser, insert_challan, insert_challan_items.
    lifted_step; try done.
    destruct (auth_user (documents (store s))) as [user_id|]; [|done].
    lifted_step; try done.
    rewrite bind_unfold, for_of_skip. cbn [ret].
    lifted_step; done.
  - intros user_id Hvalid Hauth Hall.
    destruct (DispatchReconciler.validation_passes items Hvalid) as [-> ->]. simpl.
    unfold try_catch, getUser, insert_challan, insert_challan_items.
    rewrite bind_unfold, on_documents_remote.
    match goal with |- context [remote ?e s] =>
      destruct (remote_all_succeed e s Hall) as (rest1 & -> & Hall1)
    end.
    cbn [fst snd] in *. rewrite Hauth, bind_unfold, on_documents_remote.
    match goal with |- context [remote ?e ?s1] =>
      destruct (remote_all_succeed e s1 Hall1) as (rest2 & -> & Hall2)
    end.
    cbn [fst snd] in *. rewrite bind_unfold, for_of_skip. cbn [ret].
    rewrite bind_ret, bind_unfold, on_documents_remote.
    match goal with |- context [remote ?e ?s2] =>
      destruct (remote_all_succeed e s2 Hall2) as (rest3 & -> & Hall3)
    end.
    simpl. split; [done|].
    eexists _, _. split; [|split; [reflexivity|]].
    + apply not_elem_of_dom. apply is_fresh.
    + rewrite Hso. done.
Qed.

(** What the stored procedure does to a row of a batch. *)
Lemma deduct_lookup (items : list ChallanItem) (m : gmap string BatchRow) b r :
  m !! b = Some r →
  ∃ r',
    foldl (λ m item,
             alter (λ r, {| row_batch_number := row_batch_number r;
                            row_product_id := row_product_id r;
                            row_current_stock := row_current_stock r - quantity item;
                            row_reserved_stock := row_reserved_stock r - quantity item;
                            row_expiry_date := row_expiry_date r;
                            row_packaging_details := row_packaging_details r;
                            row_import_date := row_import_date r;
                            row_is_active := row_is_active r |})
                   (batch_id item) m) m items !! b = Some r'
    ∧ row_current_stock r' = row_current_stock r - line_quantity b items
    ∧ row_reserved_stock r' = row_reserved_stock r - line_quantity b items.
Proof.
  revert m r. induction items as [|item items IH]; intros m r Hb; simpl.
  - exists r. split; [done|]. lia.
  - destruct (decide (batch_id item = b)) as [<-|Hne].
    + edestruct IH as (r' & -> & Hc & Hr).
      { rewrite lookup_alter_eq, Hb. reflexivity. }
      exists r'. split; [done|]. simpl in *. lia.
    + edestruct IH as (r' & -> & Hc & Hr).
      { rewrite lookup_alter_ne by done. exact Hb. }
      exists r'. split; [done|]. lia.
Qed.

Lemma deduct_loop_all_succeed (items : list ChallanItem) (s : Sys OrderStore) :
  all_succeed s →
  ∃ s',
    for_of items
      (λ item,
         let* _ := on_documents
                     (fn_deduct_stock_and_release_reservation
                        (batch_id item) (quantity item)) in
         ret tt) s = (Returned tt, s')
    ∧ all_succeed s'
    ∧ sales_order_items (store s') = sales_order_items (store s)
    ∧ same_documents (documents (store s)) (documents (store s'))
    ∧ batches (documents (store s'))
      = foldl (λ m item,
                 alter (λ r, {| row_batch_number := row_batch_number r;
                                row_product_id := row_product_id r;
                                row_current_stock := row_current_stock r - quantity item;
                                row_reserved_stock := row_reserved_stock r - quantity item;
                                row_expiry_date := row_expiry_date r;
                                row_packaging_details := row_packaging_details r;
                                row_import_date := row_import_date r;
                                row_is_active := row_is_active r |})
                       (batch_id item) m)
          (batches (documents (store s))) items.
Proof.
  revert s. induction items as [|item items IH]; intros s Hall.
  - exists s. simpl. by repeat split.
  - cbn [for_of]. rewrite !bind_unfold.
    unfold fn_deduct_stock_and_release_reservation at 1. rewrite on_documents_remote.
    match goal with |- context [remote ?e s] =>
      destruct (remote_all_succeed e s Hall) as (rest1 & -> & Hall1)
    end.
    cbn [fst snd ret] in *.
    match goal with |- context [for_of items _ ?s1] =>
      destruct (IH s1 Hall1) as (s' & -> & Hall' & Hlines & Hdocs & Hb)
    end.
    exists s'. split; [done|]. split; [done|]. simpl in *.
    split; [done|]. split; [|done].
    destruct Hdocs as (?&?&?&?&?). by repeat split.
Qed.

(** The order line with its delivered quantity brought up to date. *)
Lemma delivered_lookup (items : list ChallanItem)
    (rows : list (string * SalesOrderItem)) (m : gmap string SalesOrderItem) :
  NoDup (List.map fst rows) →
  (∀ key line, (key, line) ∈ rows → m !! key = Some line) →
  let m' := foldl (λ m row,
                     alter (λ r, {| soi_sales_order_id := soi_sales_order_id r;
                                    soi_product_id := soi_product_id r;
                                    soi_quantity := soi_quantity r;
                                    soi_delivered_quantity :=
                                      Some (newDeliveredQty items row.2) |})
                           row.1 m) m rows in
  (∀ key line, (key, line) ∈ rows →
     m' !! key = Some {| soi_sales_order_id := soi_sales_order_id line;
                         soi_product_id := soi_product_id line;
                         soi_quantity := soi_quantity line;
                         soi_delivered_quantity := Some (newDeliveredQty items line) |})
  ∧ (∀ key, key ∉ List.map fst rows → m' !! key = m !! key).
Proof.
  revert m. induction rows as [|[key0 line0] rows IH]; intros m Hnodup Hrows; simpl.
  - split; [intros key line Hin; by inversion Hin|done].
  - apply NoDup_cons in Hnodup as [Hfresh Hnodup].
    edestruct (IH (alter (λ r, {| soi_sales_order_id := soi_sales_order_id r;
                                  soi_product_id := soi_product_id r;
                                  soi_quantity := soi_quantity r;
                                  soi_delivered_quantity :=
                                    Some (newDeliveredQty items line0) |}) key0 m)
                 Hnodup) as [Hin Hout].
    { intros key line Hkey. rewrite lookup_alter_ne.
      - apply Hrows. by right.
      - intros <-. apply Hfresh. apply list_elem_of_fmap. by exists (key0, line). }
    split.
    + intros key line [[= -> ->]|Hkey]%elem_of_cons; [|by apply Hin].
      rewrite Hout by done. rewrite lookup_alter_eq, (Hrows key0 line0) by (by left).
      done.
    + intros key Hkey. apply not_elem_of_cons in Hkey as [Hne Hkey].
      rewrite Hout by done. by rewrite lookup_alter_ne.
Qed.

Lemma update_delivered_all_succeed (items : list ChallanItem)
    (rows : list (string * SalesOrderItem)) (allDelivered : bool) (s : Sys OrderStore) :
  all_succeed s →
  ∃ s',
    update_delivered items rows allDelivered s
    = (Returned (allDelivered && fully_delivered items rows), s')
    ∧ all_succeed s'
    ∧ documents (store s') = documents (store s)
    ∧ sales_order_items (store s')
      = foldl (λ m row,
                 alter (λ r, {| soi_sales_order_id := soi_sales_order_id r;
                                soi_product_id := soi_product_id r;
                                soi_quantity := soi_quantity r;
                                soi_delivered_quantity :=
                                  Some (newDeliveredQty items row.2) |})
                       row.1 m)
          (sales_order_items (store s)) rows.
Proof.
  revert allDelivered s.
  induction rows as [|[key line] rows IH]; intros allDelivered s Hall.
  - exists s. simpl. rewrite andb_true_r. by repeat split.
  - cbn [update_delivered]. rewrite bind_unfold. unfold update_delivered_quantity.
    match goal with |- context [remote ?e s] =>
      destruct (remote_all_succeed e s Hall) as (rest1 & -> & Hall1)
    end.
    cbn [fst snd] in *.
    match goal with |- context [update_delivered items rows ?acc ?s1] =>
      destruct (IH acc s1 Hall1) as (s' & -> & Hall' & Hdocs & Hlines)
    end.
    exists s'. split.
    + f_equal. f_equal. simpl.
      destruct (newDeliveredQty items line <? soi_quantity line); simpl; [|done].
      by rewrite andb_false_r.
    + split; [done|]. split; [done|]. exact Hlines.
Qed.

Lemma order_lines_spec so_id (w : OrderStore) key line :
  (key, line) ∈ order_lines so_id w
  ↔ sales_order_items w !! key = Some line ∧ soi_sales_order_id line = so_id.
Proof.
  unfold order_lines. rewrite list_elem_of_In, filter_In, <- list_elem_of_In.
  rewrite elem_of_map_to_list. simpl. by rewrite String.eqb_eq.
Qed.

Lemma NoDup_fst_filter {A} (p : string * A → bool) (l : list (string * A)) :
  NoDup (List.map fst l) → NoDup (List.map fst (List.filter p l)).
Proof.
  induction l as [|x l IH]; simpl; [done|].
  intros [Hfresh Hnodup]%NoDup_cons. destruct (p x); simpl; [|by apply IH].
  apply NoDup_cons. split; [|by apply IH].
  intros Hin. apply Hfresh.
  apply list_elem_of_fmap in Hin as (y & -> & Hy).
  apply list_elem_of_fmap. exists y. split; [done|].
  apply list_elem_of_In. apply list_elem_of_In, filter_In in Hy as [Hy _]. done.
Qed.

Lemma order_lines_NoDup so_id (w : OrderStore) :
  NoDup (List.map fst (order_lines so_id w)).
Proof. apply NoDup_fst_filter. apply NoDup_fst_map_to_list. Qed.

Lemma first_line_counts (items more : list ChallanItem) (line : SalesOrderItem) :
  (∃ item, item ∈ items ∧ item_product_id item = soi_product_id line) →
  newDeliveredQty (items ++ more) line = newDeliveredQty items line.
Proof.
  intros (item & Hin & Hproduct). unfold newDeliveredQty. f_equal.
  induction items as [|i items IH]; [by inversion Hin|]. simpl.
  destruct (String.eqb_spec (item_product_id i) (soi_product_id line)) as [_|Hne];
    [done|].
  apply elem_of_cons in Hin as [->|Hin]; [done|]. by apply IH.
Qed.

(** The creation for a sales order, its calls going through. *)
Lemma creating_with_order now formData items user_id
    (s : Sys OrderStore) :
  let so_id := form_sales_order_id formData in
  truthy so_id = true →
  Forall (λ item, valid_item item = true) items →
  auth_user (documents (store s)) = Some user_id →
  all_succeed s →
  let w := store s in
  let result := handleSubmit_creating now formData items s in
  let w' := store result.2 in
  let allDelivered := fully_delivered items (order_lines so_id w) in
  result.1 = Returned (Some "Delivery Challan created successfully!")
  ∧ (∀ b r, batches (documents w) !! b = Some r →
       ∃ r', batches (documents w') !! b = Some r'
             ∧ row_current_stock r' = row_current_stock r - line_quantity b items
             ∧ row_reserved_stock r' = row_reserved_stock r - line_quantity b items)
  ∧ (∀ key line, sales_order_items w !! key = Some line →
       sales_order_items w' !! key
       = Some (if String.eqb (soi_sales_order_id line) so_id
               then {| soi_sales_order_id := soi_sales_order_id line;
                       soi_product_id := soi_product_id line;
                       soi_quantity := soi_quantity line;
                       soi_delivered_quantity := Some (newDeliveredQty items line) |}
               else line))
  ∧ (∀ order, sales_orders (documents w) !! so_id = Some order →
       ∃ order', sales_orders (documents w') !! so_id = Some order'
                 ∧ status order' = (if allDelivered then "delivered"
                                    else "partially_delivered")
                 ∧ is_archived order' = allDelivered)
  ∧ (∀ other, other ≠ so_id →
       sales_orders (documents w') !! other = sales_orders (documents w) !! other)
  ∧ (∃ challanId,
       delivery_challans (documents w) !! challanId = None
       ∧ delivery_challan_items (documents w')
         = delivery_challan_items (documents w)
           ++ List.map (λ item, (challanId, item)) items).
Proof.
  intros so_id Hso Hvalid Hauth Hall w result w' allDelivered.
  subst w' result allDelivered w so_id. unfold handleSubmit_creating.
  destruct (DispatchReconciler.validation_passes items Hvalid) as [-> ->].
  cbn [length Nat.ltb Nat.leb]. rewrite Hso. cbn iota.
  unfold try_catch, getUser, insert_challan.
  rewrite bind_unfold, on_documents_remote.
  match goal with |- context [remote ?e s] =>
    destruct (remote_all_succeed e s Hall) as (rest1 & -> & Hall1)
  end.
  cbn [fst snd] in *. rewrite Hauth, bind_unfold, on_documents_remote.
  match goal with |- context [remote ?e ?s1] =>
    destruct (remote_all_succeed e s1 Hall1) as (rest2 & -> & Hall2)
  end.
  cbn [fst snd] in *. rewrite bind_unfold.
  match goal with |- context [for_of items _ ?s2] =>
    destruct (deduct_loop_all_succeed items s2 Hall2)
      as (s3 & -> & Hall3 & Hlines3 & Hdocs3 & Hb3)
  end.
  rewrite !bind_unfold. unfold select_order_items.
  match goal with |- context [remote ?e s3] =>
    destruct (remote_all_succeed e s3 Hall3) as (rest4 & -> & Hall4)
  end.
  cbn [fst snd] in *. rewrite !bind_unfold.
  match goal with |- context [update_delivered items ?rows true ?s4] =>
    destruct (update_delivered_all_succeed items rows true s4 Hall4)
      as (s5 & -> & Hall5 & Hdocs5 & Hlines5)
  end.
  cbn [store] in *. unfold update_order_status. rewrite bind_unfold, on_documents_remote.
  match goal with |- context [remote ?e s5] =>
    destruct (remote_all_succeed e s5 Hall5) as (rest6 & -> & Hall6)
  end.
  cbn [fst snd ret] in *. rewrite bind_unfold. unfold insert_challan_items.
  rewrite on_documents_remote.
  match goal with |- context [remote ?e ?s6] =>
    destruct (remote_all_succeed e s6 Hall6) as (rest7 & -> & Hall7)
  end.
  cbn [fst snd store documents sales_order_items ret] in *.
  clear Hall1 Hall2 Hall4 Hall6 Hall7.
  split; [done|].
  assert (Hrows : List.filter
                    (λ row : string * SalesOrderItem,
                       String.eqb (soi_sales_order_id row.2) (form_sales_order_id formData))
                    (map_to_list (sales_order_items (store s3)))
                  = order_lines (form_sales_order_id formData) (store s)).
  { unfold order_lines. by rewrite Hlines3. }
  rewrite Hrows in *. clear Hrows. rewrite Hlines3 in Hlines5.
  destruct Hdocs3 as (_ & Hit3 & Hso3 & _). simpl in Hit3, Hso3, Hb3.
  destruct (delivered_lookup items (order_lines (form_sales_order_id formData) (store s))
              (sales_order_items (store s))
              (order_lines_NoDup _ _)) as [Hin Hout].
  { intros key line Hkey. by apply order_lines_spec in Hkey as [? _]. }
  cbv zeta in Hin, Hout. rewrite <- Hlines5 in Hin, Hout.
  split; [|split; [|split; [|split]]].
  - intros b r Hb. simpl. rewrite Hdocs5, Hb3. by apply deduct_lookup.
  - intros key line Hkey.
    destruct (String.eqb_spec (soi_sales_order_id line) (form_sales_order_id formData))
      as [Heq|Hne].
    + apply Hin. by apply order_lines_spec.
    + rewrite Hout; [done|]. intros Hkey'.
      apply list_elem_of_fmap in Hkey' as ([key' line'] & -> & Hin').
      apply order_lines_spec in Hin' as [Hline' Hso']. simpl in *.
      rewrite Hkey in Hline'. injection Hline' as <-. done.
  - intros order Horder. simpl. rewrite Hdocs5, Hso3.
    rewrite lookup_alter_eq, Horder. simpl. eexists. split; [reflexivity|]. done.
  - intros other Hne. simpl. rewrite Hdocs5, Hso3. by rewrite lookup_alter_ne.
  - eexists. split; [|simpl; rewrite Hdocs5, Hit3; reflexivity].
    apply not_elem_of_dom. apply is_fresh.
Qed.


(** X22: creating a challan for a sales order books the delivery.  The
    quantities being whole numbers that the page counts exactly, with a
    valid form, the user signed in and the backend calls going through, the
    challan is created; every batch loses the quantity of its lines, from
    its stock and from its reservation; every line of the order gets as
    delivered quantity what was delivered before plus the quantity of the
    first challan line of its product, further lines of the product not
    being counted, and the lines of other orders stay; the order becomes
    delivered, and archived, when every line then reaches its ordered
    quantity, and partially_delivered otherwise; other orders stay.  With
    quantities in decimals the sum of the page is rounded and a line
    delivered in full can fall short: 0.7 delivered before and a challan
    line of 0.1 make 0.79999999999999993, which is below 0.8 ordered. *)
Theorem create_with_order_books_delivery :
  (∀ now formData items user_id (s : Sys OrderStore),
     let so_id := form_sales_order_id formData in
     delivery_counted_exactly items (order_lines so_id (store s)) →
     truthy so_id = true →
     Forall (λ item, valid_item item = true) items →
     auth_user (documents (store s)) = Some user_id →
     all_succeed s →
     let w := store s in
     let result := handleSubmit_creating now formData items s in
     let w' := store result.2 in
     let allDelivered := fully_delivered items (order_lines so_id w) in
     result.1 = Returned (Some "Delivery Challan created successfully!")
     ∧ (∀ b r, batches (documents w) !! b = Some r →
          ∃ r', batches (documents w') !! b = Some r'
                ∧ row_current_stock r' = row_current_stock r - line_quantity b items
                ∧ row_reserved_stock r' = row_reserved_stock r - line_quantity b items)
     ∧ (∀ key line, sales_order_items w !! key = Some line →
          sales_order_items w' !! key
          = Some (if String.eqb (soi_sales_order_id line) so_id
                  then {| soi_sales_order_id := soi_sales_order_id line;
                          soi_product_id := soi_product_id line;
                          soi_quantity := soi_quantity line;
                          soi_delivered_quantity := Some (newDeliveredQty items line) |}
                  else line))
     ∧ (∀ order, sales_orders (documents w) !! so_id = Some order →
          ∃ order', sales_orders (documents w') !! so_id = Some order'
                    ∧ status order' = (if allDelivered then "delivered"
                                       else "partially_delivered")
                    ∧ is_archived order' = allDelivered)
     ∧ (∀ other, other ≠ so_id →
          sales_orders (documents w') !! other = sales_orders (documents w) !! other)
     ∧ (∀ line more,
          (∃ item, item ∈ items ∧ item_product_id item = soi_product_id line) →
          newDeliveredQty (items ++ more) line = newDeliveredQty items line))
  ∧ (let newDeliveredQty :=
       newDeliveredQty_of_doubles (Some 0.7%float) (Some 0.1%float) in
     newDeliveredQty = 0.79999999999999993%float
     ∧ falls_short newDeliveredQty 0.8 = true).
Proof.
  split; [|by vm_compute].
  intros now formData items user_id s so_id _ Hso Hvalid Hauth Hall w result w'
    allDelivered.
  destruct (creating_with_order now formData items user_id s Hso Hvalid Hauth Hall)
    as (Halert & Hbatches & Hlines & Horder & Hothers & _).
  split; [exact Halert|]. split; [exact Hbatches|]. split; [exact Hlines|].
  split; [exact Horder|]. split; [exact Hothers|].
  intros line more. apply first_line_counts.
Qed.

(** The challan for so-1 with 20 of product P from batch A: the order line
    of 30, 10 of it delivered before, is delivered in full. *)
Lemma create_with_order_books_delivery_witness :
  let formData := {| form_challan_number := "DO-25-0002"; form_customer_id := "cust-1";
                     form_sales_order_id := "so-1"; form_challan_date := "2025-06-02";
                     form_delivery_address := "Jl. Merdeka 1, Jakarta" |} in
  let items := [sample_item "A" 20] in
  let result := handleSubmit_creating 6000 formData items (mkSys sample_order_store []) in
  delivery_counted_exactly items (order_lines "so-1" sample_order_store)
  ∧ Forall (λ item, valid_item item = true) items
  ∧ result.1 = Returned (Some "Delivery Challan created successfully!")
  ∧ soi_delivered_quantity <$> sales_order_items (store result.2) !! "soi-1"
    = Some (Some 30)
  ∧ status <$> sales_orders (documents (store result.2)) !! "so-1" = Some "delivered".
Proof.
  intros formData items result.
  assert (Hcounted : delivery_counted_exactly items
                       (order_lines "so-1" sample_order_store)).
  { apply Forall_forall. intros row Hrow. vm_compute in Hrow.
    apply list_elem_of_singleton in Hrow as ->. by vm_compute. }
  assert (Hv : Forall (λ item, valid_item item = true) items) by (repeat constructor).
  split; [exact Hcounted|]. split; [exact Hv|].
  destruct (proj1 create_with_order_books_delivery 6000 formData items "user-1"
              (mkSys sample_order_store []) Hcounted eq_refl Hv eq_refl
              (all_succeed_nil _))
    as (Halert & _ & Hlines & Horder & _).
  split; [exact Halert|]. split.
  - unfold result. by rewrite (Hlines "soi-1" _ eq_refl).
  - destruct (Horder _ eq_refl) as (order' & Hrow & Hstatus & _).
    transitivity (status <$> Some order'); [exact (f_equal (fmap status) Hrow)|].
    simpl. rewrite Hstatus. by vm_compute.
Defined.

(** The challan form of the sample store, no order chosen. *)
Lemma create_without_order_moves_no_stock_witness :
  let result := handleSubmit_creating 6000 sample_form [sample_item "A" 20]
                  (mkSys sample_order_store []) in
  truthy (form_sales_order_id sample_form) = false
  ∧ batches (documents (store result.2)) = batches sample_store.
Proof.
  intros result. split; [reflexivity|].
  exact (proj1 (proj1 (create_without_order_moves_no_stock 6000 sample_form
                         [sample_item "A" 20] (mkSys sample_order_store []) eq_refl))).
Defined.
End ChallanCreation.

(** ** Choosing batches for the lines *)

Module BatchChoice.
Import DeliveryChallan.

Lemma getFIFOBatch_Some now (batches : list Batch) productId b :
  getFIFOBatch now batches productId = Some b →
  b ∈ batches ∧ product_id b = productId ∧ isExpired now (expiry_date b) = false.
Proof.
  unfold getFIFOBatch. intros Hhead.
  assert (In b (sort (λ a b0, import_time a - import_time b0)
                  (List.filter (λ b0, String.eqb (product_id b0) productId
                                      && negb (isExpired now (expiry_date b0)))
                     batches))) as Hin.
  { destruct (sort _ _) as [|x l]; [done|]. injection Hhead as ->. by left. }
  apply sort_In, filter_In in Hin as [Hin Hp].
  apply andb_prop in Hp as [Hp He]. apply String.eqb_eq in Hp.
  apply negb_true_iff in He. split; [by apply list_elem_of_In|done].
Qed.

Lemma find_loaded (batches : list Batch) b :
  b ∈ batches →
  ∃ found, List.find (λ b0, String.eqb (id b0) (id b)) batches = Some found
           ∧ id found = id b.
Proof.
  induction 1 as [b l|b x l _ IH]; simpl.
  - rewrite String.eqb_refl. by exists b.
  - destruct (String.eqb_spec (id x) (id b)) as [Heq|_]; [by exists x|]. exact IH.
Qed.

Lemma creating_refused_when_invalid now formData items (s : Sys OrderStore) :
  ¬ Forall (λ item, valid_item item = true) items →
  handleSubmit_creating now formData items s
  = (Returned (Some "Please select product, batch, and enter quantity for all items before saving."),
     s).
Proof.
  intros Hinvalid. unfold handleSubmit_creating.
  destruct (List.filter _ items) as [|bad rest] eqn:Hfilter; [|done].
  by apply ChallanSaving.invalid_items_nil in Hfilter.
Qed.

Section Packaging.
Context (match_packaging : string → option (Z * string * Z)).

(** X23: the button "Use FIFO" never puts a line on an expired batch.  For
    a line of the form, whatever the packaging of the batches reads as,
    the button leaves the other lines and the product of the line as they
    are; when the FIFO selection finds no batch the line stays as it is,
    and otherwise the line is put on a loaded batch of its product that is
    not expired, the one the FIFO selection returns. *)
Theorem use_FIFO_picks_unexpired now index (batches : list Batch)
    (items : list ChallanItem) item :
  items !! index = Some item →
  ∃ items' line,
    use_FIFO match_packaging now index batches items = Some items'
    ∧ length items' = length items
    ∧ (∀ i, i ≠ index → items' !! i = items !! i)
    ∧ items' !! index = Some line
    ∧ item_product_id line = item_product_id item
    ∧ ((getFIFOBatch now batches (item_product_id item) = None ∧ line = item)
       ∨ ∃ b, getFIFOBatch now batches (item_product_id item) = Some b
              ∧ batch_id line = id b
              ∧ b ∈ batches
              ∧ product_id b = item_product_id item
              ∧ isExpired now (expiry_date b) = false).
Proof.
  intros Hitem. unfold use_FIFO. rewrite Hitem.
  destruct (getFIFOBatch now batches (item_product_id item)) as [b|] eqn:Hfifo.
  - destruct (getFIFOBatch_Some _ _ _ _ Hfifo) as (Hin & Hproduct & Hfresh).
    destruct (find_loaded batches b Hin) as (found & Hfound & Hid).
    unfold handleBatchChange. rewrite Hfound, Hitem.
    destruct (pack_fields match_packaging (packaging_details found))
      as [[packSize packType] numberOfPacks].
    eexists _, _. split; [reflexivity|]. split; [apply length_insert|].
    split; [intros i Hne; by apply list_lookup_insert_ne|].
    split; [apply list_lookup_insert_eq; by eapply lookup_lt_Some|].
    split; [done|]. right. exists b. by repeat split.
  - exists items, item. repeat split; try done. by left.
Qed.

(** X24: choosing a sales order puts the lines on batches without looking
    at the expiry.  The line made for a line of the order has its product
    and its quantity; it is put on the first loaded batch of the product
    that has stock, also when that batch is expired, which the FIFO
    selection never returns; and when the product has no loaded batch with
    stock the line has no batch, and a form with this line is refused on
    saving. *)
Theorem order_prefill_ignores_expiry now (batches : list Batch)
    (item : SalesOrderItem) :
  let line := line_for_order_item match_packaging batches item in
  let first := head (List.filter (λ b, String.eqb (product_id b) (soi_product_id item)
                                       && (0 <? current_stock b)) batches) in
  item_product_id line = soi_product_id item
  ∧ quantity line = soi_quantity item
  ∧ (∀ b, first = Some b →
       batch_id line = id b
       ∧ b ∈ batches
       ∧ product_id b = soi_product_id item
       ∧ 0 < current_stock b
       ∧ (isExpired now (expiry_date b) = true →
          getFIFOBatch now batches (soi_product_id item) ≠ Some b))
  ∧ (first = None →
     batch_id line = ""
     ∧ (∀ clock formData before after (s : Sys OrderStore),
          handleSubmit_creating clock formData (before ++ line :: after) s
          = (Returned (Some "Please select product, batch, and enter quantity for all items before saving."),
             s))
     ∧ (∀ editingChallan originalItems formData before after (s : Sys Store),
          handleSubmit_editing editingChallan originalItems formData
            (before ++ line :: after) s
          = (Returned (Some "Please select product, batch, and enter quantity for all items before saving."),
             s))).
Proof.
  intros line first. subst line first. unfold line_for_order_item.
  destruct (head _) as [b|] eqn:Hhead.
  - destruct (pack_fields match_packaging (packaging_details b))
      as [[packSize packType] numberOfPacks].
    split; [done|]. split; [done|]. split; [|done].
    intros ? [= <-]. split; [done|].
    assert (In b (List.filter (λ b, String.eqb (product_id b) (soi_product_id item)
                                    && (0 <? current_stock b)) batches)) as Hin.
    { destruct (List.filter _ batches) as [|x l]; [done|]. injection Hhead as ->. by left. }
    apply filter_In in Hin as [Hin Hp]. apply andb_prop in Hp as [Hp Hstock].
    apply String.eqb_eq in Hp. apply Z.ltb_lt in Hstock.
    split; [by apply list_elem_of_In|]. split; [done|]. split; [done|].
    intros Hexpired Hfifo. apply getFIFOBatch_Some in Hfifo as (_ & _ & Hfresh).
    congruence.
  - split; [done|]. split; [done|]. split; [done|]. intros _. split; [done|].
    assert (Hinvalid : ∀ before after,
              ¬ Forall (λ item, valid_item item = true)
                  (before ++ {| item_product_id := soi_product_id item; batch_id := "";
                                quantity := soi_quantity item; pack_size := None;
                                pack_type := None; number_of_packs := None |} :: after)).
    { intros before after Hall.
      apply Forall_app in Hall as [_ Hall]. apply Forall_cons in Hall as [Hline _].
      unfold valid_item in Hline. simpl in Hline.
      destruct (truthy (soi_product_id item)); done. }
    split.
    + intros clock formData before after s.
      by apply creating_refused_when_invalid.
    + intros editingChallan originalItems formData before after s.
      by apply ChallanLines.refused_when_invalid.
Qed.
End Packaging.

(** The batches of the sample store as loaded, the older one expired. *)
Lemma use_FIFO_picks_unexpired_witness :
  let batches := [{| id := "A"; batch_number := "LOT-A"; product_id := "P";
                     current_stock := 100; expiry_date := Some 4000;
                     packaging_details := None; import_date := Some 1000 |};
                  {| id := "B"; batch_number := "LOT-B"; product_id := "P";
                     current_stock := 100; expiry_date := None;
                     packaging_details := None; import_date := Some 2000 |}] in
  let items := [sample_item "" 0] in
  ∃ items' line,
    use_FIFO (λ _, None) 5000 0 batches items = Some items'
    ∧ items' !! 0%nat = Some line
    ∧ batch_id line = "B".
Proof.
  intros batches items.
  destruct (use_FIFO_picks_unexpired (λ _, None) 5000 0 batches items
              (sample_item "" 0) eq_refl)
    as (items' & line & Heq & _ & _ & Hline & _ & [[Hnone _]|(b & Hb & Hid & _)]).
  - discriminate Hnone.
  - exists items', line. split; [exact Heq|]. split; [exact Hline|].
    rewrite Hid. injection Hb as <-. reflexivity.
Defined.

(** The same batches and an order line for product P: the line is put on
    the expired batch A, which the FIFO selection skips. *)
Lemma order_prefill_ignores_expiry_witness :
  let expired := {| id := "A"; batch_number := "LOT-A"; product_id := "P";
                    current_stock := 100; expiry_date := Some 4000;
                    packaging_details := None; import_date := Some 1000 |} in
  let batches := [expired;
                  {| id := "B"; batch_number := "LOT-B"; product_id := "P";
                     current_stock := 100; expiry_date := None;
                     packaging_details := None; import_date := Some 2000 |}] in
  let item := {| soi_sales_order_id := "so-1"; soi_product_id := "P";
                 soi_quantity := 30; soi_delivered_quantity := None |} in
  isExpired 5000 (expiry_date expired) = true
  ∧ batch_id (line_for_order_item (λ _, None) batches item) = "A"
  ∧ getFIFOBatch 5000 batches "P" ≠ Some expired.
Proof.
  intros expired batches item. split; [reflexivity|].
  destruct (proj2 (proj2 (order_prefill_ignores_expiry (λ _, None) 5000 batches item)))
    as [Hfirst _].
  destruct (Hfirst expired eq_refl) as (Hid & _ & _ & _ & Hskip).
  split; [exact Hid|]. exact (Hskip eq_refl).
Defined.
End BatchChoice.

(** ** Stock on hand and stock on challans *)

Module StockBalance.
Import DeliveryChallan.

(** The creation without a sales order, its calls going through. *)
Lemma creating_without_order now formData items user_id (s : Sys OrderStore) :
  truthy (form_sales_order_id formData) = false →
  Forall (λ item, valid_item item = true) items →
  auth_user (documents (store s)) = Some user_id →
  all_succeed s →
  let w' := documents (store (handleSubmit_creating now formData items s).2) in
  batches w' = batches (documents (store s))
  ∧ ∃ challanId,
      delivery_challan_items w'
      = delivery_challan_items (documents (store s))
        ++ List.map (λ item, (challanId, item)) items.
Proof.
  intros Hso Hvalid Hauth Hall w'. subst w'. unfold handleSubmit_creating.
  rewrite Hso.
  destruct (DispatchReconciler.validation_passes items Hvalid) as [-> ->]. simpl.
  unfold try_catch, getUser, insert_challan, insert_challan_items.
  rewrite bind_unfold, ChallanCreation.on_documents_remote.
  match goal with |- context [remote ?e s] =>
    destruct (remote_all_succeed e s Hall) as (rest1 & -> & Hall1)
  end.
  cbn [fst snd] in *.
  rewrite Hauth, bind_unfold, ChallanCreation.on_documents_remote.
  match goal with |- context [remote ?e ?s1] =>
    destruct (remote_all_succeed e s1 Hall1) as (rest2 & -> & Hall2)
  end.
  cbn [fst snd] in *. rewrite bind_unfold, ChallanCreation.for_of_skip. cbn [ret].
  rewrite ChallanCreation.bind_ret, bind_unfold, ChallanCreation.on_documents_remote.
  match goal with |- context [remote ?e ?s2] =>
    destruct (remote_all_succeed e s2 Hall2) as (rest3 & -> & Hall3)
  end.
  simpl. split; [done|]. by eexists.
Qed.

(** X25: the stock on hand and the stock on challans.  With a valid form,
    the user signed in and the backend calls going through, creating a
    challan for a sales order takes from each batch what it puts on the
    lines, the stock of the batch plus its quantity on all lines on file
    staying what it was, as it does when an edit is saved; creating a
    challan without a sales order puts the quantities on the lines and
    takes nothing from the batches, so that this sum grows by the quantity
    of the new lines of the batch. *)
Theorem creation_and_the_stock_balance now formData items user_id
    (s : Sys OrderStore) b r :
  Forall (λ item, valid_item item = true) items →
  auth_user (documents (store s)) = Some user_id →
  all_succeed s →
  batches (documents (store s)) !! b = Some r →
  let w := documents (store s) in
  let w' := documents (store (handleSubmit_creating now formData items s).2) in
  ∃ r', batches w' !! b = Some r'
        ∧ row_current_stock r' + dispatched b w'
          = row_current_stock r + dispatched b w
            + (if truthy (form_sales_order_id formData) then 0
               else line_quantity b items).
Proof.
  intros Hvalid Hauth Hall Hb w w'. subst w w'.
  assert (Hadded : ∀ (challanId : string) (rows : list (string * ChallanItem)),
            line_quantity b
              (List.map snd (rows ++ List.map (λ item, (challanId, item)) items))
            = line_quantity b (List.map snd rows) + line_quantity b items).
  { intros challanId rows.
    by rewrite map_app, ChallanEditing.line_quantity_app, ChallanEditing.map_snd_pair. }
  destruct (truthy (form_sales_order_id formData)) eqn:Hso.
  - destruct (ChallanCreation.creating_with_order now formData items user_id s
                Hso Hvalid Hauth Hall)
      as (_ & Hbatches & _ & _ & _ & (challanId & _ & Hitems)).
    destruct (Hbatches b r Hb) as (r' & Hr' & Hstock & _).
    exists r'. split; [exact Hr'|].
    unfold dispatched. rewrite Hitems, Hadded, Hstock. lia.
  - destruct (creating_without_order now formData items user_id s
                Hso Hvalid Hauth Hall) as (Hbatches & challanId & Hitems).
    exists r. split; [by rewrite Hbatches|].
    unfold dispatched. rewrite Hitems, Hadded. lia.
Qed.

(** Twenty of batch A without an order: the stock stays at 100 while the
    challans on file hold twenty more. *)
Lemma creation_and_the_stock_balance_witness :
  let s := mkSys sample_order_store [] in
  let w' := documents (store (handleSubmit_creating 6000 sample_form
                                [sample_item "A" 20] s).2) in
  Forall (λ item, valid_item item = true) [sample_item "A" 20]
  ∧ ∃ r', batches w' !! "A" = Some r'
          ∧ row_current_stock r' + dispatched "A" w'
            = 100 + dispatched "A" sample_store + 20.
Proof.
  intros s w'.
  assert (Hv : Forall (λ item, valid_item item = true) [sample_item "A" 20])
    by (repeat constructor).
  split; [exact Hv|].
  exact (creation_and_the_stock_balance 6000 sample_form [sample_item "A" 20] "user-1"
           s "A" (sample_batch 100 0 1000) Hv eq_refl (all_succeed_nil _) eq_refl).
Defined.
End StockBalance.
